(** * Network services of fablib: type resolution, validation, address allocation

    A shallow embedding of [fabrictestbed_extensions/fablib/network_service.py].
    Python values are modelled as follows.

    - An [Interface] and its [Node] are records holding what the accessors
      [get_site], [get_node], [get_model], [get_vlan], [get_host] ... return;
      the accessors are total on them.
    - A Python [set] of strings is a duplicate-free list grown with [set_add];
      [len] is [length].
    - A Python [dict] with string keys is an association list ([PyDict]):
      lookup finds the first binding of a key and assignment replaces it in
      place or appends a new binding.
    - A function that may raise returns a [result]. *)

From Stdlib Require Import List String Ascii ZArith Bool Lia PeanoNat ListSet.
From Stdlib Require Import Decimal DecimalString DecimalZ DecimalPos FinFun.
From Stdlib Require Import Permutation.
Import ListNotations.
Open Scope string_scope.
Open Scope nat_scope.

(** ** Exceptions and results *)

(** The members of [ServiceType] named by [network_service_map]. *)
Inductive ServiceType :=
| L2Bridge | L2PTP | L2STS | PortMirror
| FABNetv4 | FABNetv6 | FABNetv4Ext | FABNetv6Ext | L3VPN.

Definition ServiceType_eq_dec (a b : ServiceType) : {a = b} + {a <> b}.
Proof. decide equality. Defined.

Definition ServiceType_eqb (a b : ServiceType) : bool :=
  if ServiceType_eq_dec a b then true else false.

Inductive NSLayer := L2 | L3.

(** One entry of [exception_list] in [__validate_nstype]; the constructors
    keep the parts of the message that vary. *)
Inductive violation :=
| NotTwoSites (n : nat) (sites : list string)
    (* "must include interfaces from exactly two sites" *)
| UnboundNode (node_name : string)
    (* "... Node <name> is unbound." *)
| SharedHost (host : string).
    (* "... Multiple nodes bound to <host>." *)

Inductive exn :=
| TooManySites (sites : list string)
    (* "Invalid Network Service: Networks are limited to 2 unique sites" *)
| BridgeSites (n : nat) (sites : list string)
| PtpSites (n : nat) (sites : list string)
| PtpBasicNic
| Violations (l : list violation)
| UnknownNetworkType (t : option ServiceType) (* "Unknown network type" *)
| InvalidL2Type (t : string)                (* "Invalid l2 network type" *)
| PortMirrorAttach
    (* "Interfaces cannot be attached to PortMirror service" *)
| L3OneSite
    (* "L3 networks can only include nodes from one site" *)
| KeyError (k : string)
| TypeError
| AttributeError
| IndexError.

Inductive result (A : Type) :=
| Ok (a : A)
| Raise (e : exn).
Arguments Ok {A} a.
Arguments Raise {A} e.

Definition bind {A B} (r : result A) (k : A -> result B) : result B :=
  match r with
  | Ok a => k a
  | Raise e => Raise e
  end.

Notation "x <- r ;; k" := (bind r (fun x => k))
  (at level 61, r at next level, right associativity).

Definition raises {A} (r : result A) : Prop := exists e, r = Raise e.

(** ** Python dictionaries with string keys *)

Module PyDict.

Definition t (V : Type) := list (string * V).

(** [d.get(k)], [None] when the key is absent. *)
Fixpoint get {V : Type} (k : string) (d : t V) : option V :=
  match d with
  | [] => None
  | (k', v) :: r => if String.eqb k k' then Some v else get k r
  end.

(** [k in d] *)
Definition mem {V : Type} (k : string) (d : t V) : bool :=
  match get k d with Some _ => true | None => false end.

(** [d[k] = v] *)
Fixpoint set {V : Type} (k : string) (v : V) (d : t V) : t V :=
  match d with
  | [] => [(k, v)]
  | (k', v') :: r =>
      if String.eqb k k' then (k, v) :: r else (k', v') :: set k v r
  end.

End PyDict.

(** ** Decoded JSON values

    What [json.loads] returns: the user data of a service and of an interface
    are kept as the decoded value, [json.dumps] followed by [json.loads]
    being the identity on these trees. *)

#[local] Unset Elimination Schemes.
Inductive json :=
| JNull
| JBool (b : bool)
| JInt (z : Z)
| JStr (s : string)
| JList (l : list json)
| JObj (d : list (string * json)).
#[local] Set Elimination Schemes.

(** Python truth value of a decoded JSON value. *)
Definition truthy (j : json) : bool :=
  match j with
  | JNull => false
  | JBool b => b
  | JInt z => negb (Z.eqb z 0)
  | JStr s => negb (String.eqb s "")
  | JList l => match l with [] => false | _ => true end
  | JObj d => match d with [] => false | _ => true end
  end.

(** [for x in j]: a list yields its items, a dict its keys, a string its
    characters; anything else raises [TypeError]. *)
Fixpoint chars (s : string) : list json :=
  match s with
  | EmptyString => []
  | String c r => JStr (String c EmptyString) :: chars r
  end.

Definition json_iter (j : json) : result (list json) :=
  match j with
  | JList l => Ok l
  | JObj d => Ok (map (fun kv => JStr (fst kv)) d)
  | JStr s => Ok (chars s)
  | _ => Raise TypeError
  end.

(** [j[k]] for a string key [k]: only a dict accepts it. *)
Definition json_getitem (j : json) (k : string) : result json :=
  match j with
  | JObj d =>
      match PyDict.get k d with
      | Some v => Ok v
      | None => Raise (KeyError k)
      end
  | _ => Raise TypeError
  end.

(** [s in t] for strings: [s] occurs in [t]. *)
Fixpoint is_substring (s t : string) : bool :=
  if String.prefix s t then true
  else match t with
       | EmptyString => false
       | String _ r => is_substring s r
       end.

(** [k in j] for a string [k]. *)
Definition json_contains (k : string) (j : json) : result bool :=
  match j with
  | JObj d => Ok (PyDict.mem k d)
  | JList l =>
      Ok (existsb (fun e => match e with
                            | JStr s => String.eqb s k
                            | _ => false
                            end) l)
  | JStr s => Ok (is_substring k s)
  | _ => Raise TypeError
  end.

(** ** Addresses and networks of the [ipaddress] module *)

Inductive ip_version := IPv4 | IPv6.

Record ip_address := {
  addr_version : ip_version;
  addr_int : Z                   (* int(addr) *)
}.

Record ip_network := {
  net_version : ip_version;
  net_int : Z;                   (* int(net.network_address) *)
  prefixlen : nat
}.

Definition ip_version_eqb (a b : ip_version) : bool :=
  match a, b with
  | IPv4, IPv4 | IPv6, IPv6 => true
  | _, _ => false
  end.

(** [a == b] on addresses: same version and same integer. *)
Definition ip_address_eqb (a b : ip_address) : bool :=
  ip_version_eqb (addr_version a) (addr_version b)
  && Z.eqb (addr_int a) (addr_int b).

Definition max_prefixlen (v : ip_version) : nat :=
  match v with IPv4 => 32 | IPv6 => 128 end.

(** [net.num_addresses] *)
Definition num_addresses (net : ip_network) : nat :=
  2 ^ (max_prefixlen (net_version net) - prefixlen net).

(** [net.network_address] *)
Definition network_address (net : ip_network) : ip_address :=
  {| addr_version := net_version net; addr_int := net_int net |}.

(** [net.broadcast_address] *)
Definition broadcast_address (net : ip_network) : ip_address :=
  {| addr_version := net_version net;
     addr_int := (net_int net + Z.of_nat (num_addresses net) - 1)%Z |}.

(** [for host in net]: every address of the network in ascending order,
    the network address first and the broadcast address last. *)
Definition network_iter (net : ip_network) : list ip_address :=
  map (fun k => {| addr_version := net_version net;
                   addr_int := (net_int net + Z.of_nat k)%Z |})
      (seq 0 (num_addresses net)).

(** A value handed to [allocate_ip]: [None], an address object, or a value
    read from an interface's decoded user data. *)
Inductive pyval :=
| PyNone
| PyAddr (a : ip_address)
| PyJson (j : json).

Definition py_truthy (v : pyval) : bool :=
  match v with
  | PyNone => false
  | PyAddr _ => true
  | PyJson j => truthy j
  end.

(** [v in allocated_ips] for a list of address objects: an address compares
    equal to an address only. *)
Definition py_in (v : pyval) (allocated_ips : list ip_address) : bool :=
  match v with
  | PyAddr a => existsb (ip_address_eqb a) allocated_ips
  | _ => false
  end.

(** The text side of [ipaddress] and [str]: what the code uses of them.
    [ip_address_of] and [ip_network_of] are [None] when the constructor
    raises. *)
Record text_api := {
  str_address : ip_address -> string;          (* str(addr) *)
  str_network : ip_network -> string;          (* str(net) *)
  str_json : json -> string;                   (* str(v) of a decoded value *)
  ip_address_of : json -> option ip_address;   (* ipaddress.ip_address(v) *)
  ip_network_of : json -> option ip_network    (* ipaddress.ip_network(v) *)
}.

Definition py_str (api : text_api) (v : pyval) : string :=
  match v with
  | PyNone => "None"
  | PyAddr a => str_address api a
  | PyJson j => str_json api j
  end.

(** The two laws of [ipaddress] the allocator relies on: an address and a
    network are read back from their text. *)
Definition text_api_ok (api : text_api) : Prop :=
  (forall a, ip_address_of api (JStr (str_address api a)) = Some a)
  /\ (forall n, ip_network_of api (JStr (str_network api n)) = Some n)
  /\ (forall n, str_network api n <> "").

(** ** Nodes and interfaces *)

Record Node := {
  node_name : string;            (* node.get_name() *)
  node_site : string;            (* node.get_site() *)
  node_host : option string;     (* node.get_host(); None when unpinned *)
  node_is_facility : bool        (* isinstance(node, FacilityPort) *)
}.

Record Interface := {
  if_name : string;              (* interface.get_name() *)
  if_site : string;              (* interface.get_site() *)
  if_node : Node;                (* interface.get_node() *)
  if_model : string;             (* interface.get_model() *)
  if_vlan : option string;       (* interface.get_vlan() *)
  if_fablib_data : PyDict.t json; (* interface.get_fablib_data() *)
  if_ip_addr : option ip_address (* interface.get_ip_addr() *)
}.

Definition NIC_Basic : string := "NIC_Basic".

Definition is_basic (i : Interface) : bool := String.eqb (if_model i) NIC_Basic.
Definition is_facility (i : Interface) : bool := node_is_facility (if_node i).

(** ** [__calculate_l2_nstype] *)

(** The local variables of the first loop. *)
Record l2_scan := {
  sites : list string;
  includes_facility_port : bool;
  facility_port_interfaces : nat;
  basic_nic_count : nat
}.

Definition l2_scan_init : l2_scan :=
  {| sites := []; includes_facility_port := false;
     facility_port_interfaces := 0; basic_nic_count := 0 |}.

Definition l2_scan_step (acc : l2_scan) (interface : Interface) : l2_scan :=
  {| sites := set_add string_dec (if_site interface) (sites acc);
     includes_facility_port :=
       if is_facility interface then true else includes_facility_port acc;
     facility_port_interfaces :=
       if is_facility interface then S (facility_port_interfaces acc)
       else facility_port_interfaces acc;
     basic_nic_count :=
       if is_basic interface then S (basic_nic_count acc)
       else basic_nic_count acc |}.

Definition l2_scan_of (interfaces : list Interface) : l2_scan :=
  fold_left l2_scan_step interfaces l2_scan_init.

(** The result is [Ok None] when the function falls through with
    [rtn_nstype = None]. *)
Definition __calculate_l2_nstype (interfaces : list Interface)
    (ero_enabled : bool) : result (option ServiceType) :=
  let sc := l2_scan_of interfaces in
  if List.length (sites sc) <=? 1 then Ok (Some L2Bridge)
  else if List.length (sites sc) =? 2 then
    if ((includes_facility_port sc && (facility_port_interfaces sc <? 2))
        || ero_enabled) && (basic_nic_count sc =? 0)
    then Ok (Some L2PTP)
    else if 2 <=? List.length interfaces then Ok (Some L2STS)
    else Ok None
  else Raise (TooManySites (sites sc)).

(** ** [__validate_nstype] *)

Definition sites_of (interfaces : list Interface) : list string :=
  fold_left (fun acc i => set_add string_dec (if_site i) acc) interfaces [].

Definition nics_of (interfaces : list Interface) : list string :=
  fold_left (fun acc i => set_add string_dec (if_model i) acc) interfaces [].

(** First loop of the L2STS branch: [nodes_per_site]. *)
Fixpoint count_nodes_per_site (interfaces : list Interface)
    (nodes_per_site : PyDict.t nat) : PyDict.t nat :=
  match interfaces with
  | [] => nodes_per_site
  | interface :: rest =>
      let node := if_node interface in
      let nps :=
        if PyDict.mem (node_site node) nodes_per_site then nodes_per_site
        else PyDict.set (node_site node) 0 nodes_per_site in
      if node_is_facility node then count_nodes_per_site rest nps
      else
        match PyDict.get (node_site node) nps with
        | Some n =>
            count_nodes_per_site rest (PyDict.set (node_site node) (S n) nps)
        | None => count_nodes_per_site rest nps
        end
  end.

(** Second loop of the L2STS branch; [nodes_per_site[...]] raises [KeyError]
    on a missing key. *)
Fixpoint check_hosts (nodes_per_site : PyDict.t nat)
    (interfaces : list Interface) (hosts : list string)
    (exception_list : list violation) : result (list violation) :=
  match interfaces with
  | [] => Ok exception_list
  | interface :: rest =>
      let node := if_node interface in
      if is_basic interface then
        match PyDict.get (node_site node) nodes_per_site with
        | None => Raise (KeyError (node_site node))
        | Some n =>
            if 1 <? n then
              match node_host node with
              | None =>
                  check_hosts nodes_per_site rest hosts
                    (exception_list ++ [UnboundNode (node_name node)])
              | Some h =>
                  if set_mem string_dec h hosts then
                    check_hosts nodes_per_site rest hosts
                      (exception_list ++ [SharedHost h])
                  else
                    check_hosts nodes_per_site rest
                      (set_add string_dec h hosts) exception_list
              end
            else check_hosts nodes_per_site rest hosts exception_list
        end
      else check_hosts nodes_per_site rest hosts exception_list
  end.

(** [type] is whatever the caller passes: a member of [ServiceType] or
    [None]. *)
Definition __validate_nstype (type : option ServiceType)
    (interfaces : list Interface) : result bool :=
  if List.length interfaces =? 0 then Ok true
  else
    let sites := sites_of interfaces in
    let nics := nics_of interfaces in
    match type with
    | Some L2Bridge =>
        if 1 <? List.length sites
        then Raise (BridgeSites (List.length sites) sites)
        else Ok true
    | Some L2PTP =>
        if negb (List.length sites =? 2)
        then Raise (PtpSites (List.length sites) sites)
        else if set_mem string_dec NIC_Basic nics then Raise PtpBasicNic
        else Ok true
    | Some L2STS =>
        let exception_list :=
          if negb (List.length sites =? 2)
          then [NotTwoSites (List.length sites) sites] else [] in
        exception_list <-
          (if 2 <? List.length interfaces then
             check_hosts (count_nodes_per_site interfaces [])
               interfaces [] exception_list
           else Ok exception_list) ;;
        if 0 <? List.length exception_list then Raise (Violations exception_list)
        else Ok true
    | _ => Raise (UnknownNetworkType type)
    end.

(** ** The service object and the topology it lives in

    [FimNetworkService] is the FIM object behind a service, as far as the
    facade reads and writes it; [NetworkService] is the facade's own state. *)

Record FimNetworkService := {
  fim_name : string;                       (* .name *)
  fim_type : ServiceType;                  (* .type *)
  fim_layer : option NSLayer;
      (* get_property("layer"); None when get_layer catches an exception *)
  fim_interface_list : list string;        (* names in .interface_list *)
  fim_user_data : option (PyDict.t json);
      (* the user_data property decoded; None when absent or unreadable *)
  fim_ero : bool                           (* truth value of .ero *)
}.

Record NetworkService := {
  fim_network_service : FimNetworkService;
  self_interfaces : option (list Interface);   (* self.interfaces *)
  slice_interfaces : list Interface;           (* the slice's interfaces *)
  sliver_subnet : option ip_network;
      (* ip_network(sliver.fim_sliver.gateway.subnet); None when it raises *)
  sliver_site : option string                  (* get_site() *)
}.

Definition with_fim (s : NetworkService) (f : FimNetworkService)
    : NetworkService :=
  {| fim_network_service := f;
     self_interfaces := self_interfaces s;
     slice_interfaces := slice_interfaces s;
     sliver_subnet := sliver_subnet s;
     sliver_site := sliver_site s |}.

Definition with_interfaces (s : NetworkService) (l : list Interface)
    : NetworkService :=
  {| fim_network_service := fim_network_service s;
     self_interfaces := Some l;
     slice_interfaces := slice_interfaces s;
     sliver_subnet := sliver_subnet s;
     sliver_site := sliver_site s |}.

Definition get_name (s : NetworkService) : string :=
  fim_name (fim_network_service s).
Definition get_type (s : NetworkService) : ServiceType :=
  fim_type (fim_network_service s).
Definition get_layer (s : NetworkService) : option NSLayer :=
  fim_layer (fim_network_service s).

(** The layer FIM gives a service of each type. *)
Definition layer_of (t : ServiceType) : option NSLayer :=
  match t with
  | L2Bridge | L2PTP | L2STS | PortMirror => Some L2
  | FABNetv4 | FABNetv6 | FABNetv4Ext | FABNetv6Ext | L3VPN => Some L3
  end.

(** [topology.add_network_service(name, nstype, interfaces)]: a new object of
    that type with the interfaces connected and no user data. *)
Definition add_network_service (name : string) (nstype : ServiceType)
    (fim_interfaces : list string) : FimNetworkService :=
  {| fim_name := name; fim_type := nstype; fim_layer := layer_of nstype;
     fim_interface_list := fim_interfaces; fim_user_data := None;
     fim_ero := false |}.

(** [fim.connect_interface(interface)] *)
Definition connect_interface (f : FimNetworkService) (name : string)
    : FimNetworkService :=
  {| fim_name := fim_name f; fim_type := fim_type f; fim_layer := fim_layer f;
     fim_interface_list := fim_interface_list f ++ [name];
     fim_user_data := fim_user_data f; fim_ero := fim_ero f |}.

(** [fim.disconnect_interface(interface)]; nothing happens when the interface
    is not connected. *)
Definition disconnect_interface (f : FimNetworkService) (name : string)
    : FimNetworkService :=
  {| fim_name := fim_name f; fim_type := fim_type f; fim_layer := fim_layer f;
     fim_interface_list := List.remove string_dec name (fim_interface_list f);
     fim_user_data := fim_user_data f; fim_ero := fim_ero f |}.

(** [slice.get_interface(name)]; [None] when it raises. *)
Definition slice_get_interface (slice : list Interface) (name : string)
    : option Interface :=
  find (fun i => String.eqb (if_name i) name) slice.

(** [get_interfaces] fills [self.interfaces] when it is [None] or empty and
    returns that very list. *)
Definition get_interfaces (s : NetworkService)
    : list Interface * NetworkService :=
  match self_interfaces s with
  | Some (i :: r) => (i :: r, s)
  | _ =>
      let l :=
        flat_map (fun name =>
                    match slice_get_interface (slice_interfaces s) name with
                    | Some i => [i]
                    | None => []
                    end)
                 (fim_interface_list (fim_network_service s)) in
      (l, with_interfaces s l)
  end.

(** ** User data and the metadata blob *)

(** [get_user_data]: [{}] when the property cannot be read. *)
Definition get_user_data (s : NetworkService) : PyDict.t json :=
  match fim_user_data (fim_network_service s) with
  | Some d => d
  | None => []
  end.

Definition set_user_data (s : NetworkService) (user_data : PyDict.t json)
    : NetworkService :=
  let f := fim_network_service s in
  with_fim s
    {| fim_name := fim_name f; fim_type := fim_type f;
       fim_layer := fim_layer f;
       fim_interface_list := fim_interface_list f;
       fim_user_data := Some user_data; fim_ero := fim_ero f |}.

(** [get_fablib_data]: [{}] when the key is missing. *)
Definition get_fablib_data (s : NetworkService) : json :=
  match PyDict.get "fablib_data" (get_user_data s) with
  | Some v => v
  | None => JObj []
  end.

Definition set_fablib_data (s : NetworkService) (fablib_data : PyDict.t json)
    : NetworkService :=
  let user_data := get_user_data s in
  set_user_data s (PyDict.set "fablib_data" (JObj fablib_data) user_data).

Definition init_fablib_data (s : NetworkService) : NetworkService :=
  set_fablib_data s [("instantiated", JStr "False"); ("mode", JStr "manual")].

(** [is_instantiated]: ["instantiated" in d and d["instantiated"] == "True"];
    on a value that is not a dict the membership test or the subscript
    raises. *)
Definition is_instantiated (s : NetworkService) : result bool :=
  let fablib_data := get_fablib_data s in
  has <- json_contains "instantiated" fablib_data ;;
  if has then
    v <- json_getitem fablib_data "instantiated" ;;
    Ok (match v with JStr t => String.eqb t "True" | _ => false end)
  else Ok false.

(** [fablib_data["subnet"]] after [if "subnet" not in fablib_data:
    fablib_data["subnet"] = {}], with the dict it was read from. *)
Definition subnet_entry (fablib_data : json)
    : result (PyDict.t json * json) :=
  match fablib_data with
  | JObj fd =>
      let fd1 :=
        if PyDict.mem "subnet" fd then fd
        else PyDict.set "subnet" (JObj []) fd in
      sub <- json_getitem (JObj fd1) "subnet" ;;
      Ok (fd1, sub)
  | _ => Raise TypeError
  end.

Definition set_instantiated (s : NetworkService) (instantiated : bool)
    : result NetworkService :=
  match get_fablib_data s with
  | JObj fd =>
      Ok (set_fablib_data s
            (PyDict.set "instantiated"
               (JStr (if instantiated then "True" else "False")) fd))
  | _ => Raise TypeError
  end.

(** ** Subnet and address allocation *)

(** What [get_subnet] returns: a network, [None], or the placeholder string
    of a service that is not instantiated. *)
Inductive subnet_value :=
| SubnetNet (net : ip_network)
| SubnetNone
| SubnetName (placeholder : string).

(** Truth value of [get_subnet()] in [if self.get_subnet():]. *)
Definition subnet_truthy (v : subnet_value) : bool :=
  match v with
  | SubnetNet _ => true
  | SubnetNone => false
  | SubnetName p => negb (String.eqb p "")
  end.

(** [list.remove(a)]: the first occurrence goes. *)
Fixpoint remove_first (a : ip_address) (l : list ip_address)
    : list ip_address :=
  match l with
  | [] => []
  | x :: r => if ip_address_eqb a x then r else x :: remove_first a r
  end.

(** The loop of [allocate_ip] over [for host in subnet]. *)
Fixpoint first_free (net_addr : ip_address) (allocated_ips : list ip_address)
    (hosts : list ip_address) : option ip_address :=
  match hosts with
  | [] => None
  | host :: rest =>
      if negb (ip_address_eqb host net_addr)
         && negb (existsb (ip_address_eqb host) allocated_ips)
      then Some host
      else first_free net_addr allocated_ips rest
  end.

Fixpoint parse_all {A B : Type} (f : A -> option B) (l : list A)
    : option (list B) :=
  match l with
  | [] => Some []
  | x :: r =>
      match f x with
      | None => None
      | Some y =>
          match parse_all f r with
          | None => None
          | Some ys => Some (y :: ys)
          end
      end
  end.

Section Allocator.

Variable api : text_api.

(** [get_subnet]; every exception inside ends in [None]. *)
Definition get_subnet (s : NetworkService) : subnet_value :=
  match is_instantiated s with
  | Raise _ => SubnetNone
  | Ok false => SubnetName (get_name s ++ ".subnet")
  | Ok true =>
      match get_layer s with
      | Some L3 =>
          match sliver_subnet s with
          | Some net => SubnetNet net
          | None => SubnetNone
          end
      | _ =>
          (* L2 Network *)
          match get_fablib_data s with
          | JObj fd =>
              match PyDict.get "subnet" fd with
              | Some (JObj sub) =>
                  if truthy (JObj sub) then
                    match PyDict.get "subnet" sub with
                    | Some v =>
                        if truthy v then
                          match ip_network_of api v with
                          | Some net => SubnetNet net
                          | None => SubnetNone
                          end
                        else SubnetNone
                    | None => SubnetNone
                    end
                  else SubnetNone
              | _ => SubnetNone
              end
          | _ => SubnetNone
          end
      end
  end.

(** [get_allocated_ips]; [[]] on any exception. *)
Definition get_allocated_ips (s : NetworkService) : list ip_address :=
  match (sub <- json_getitem (get_fablib_data s) "subnet" ;;
         al <- json_getitem sub "allocated_ips" ;;
         json_iter al) with
  | Ok items =>
      match parse_all (ip_address_of api) items with
      | Some l => l
      | None => []
      end
  | Raise _ => []
  end.

Definition set_subnet (s : NetworkService) (subnet : ip_network)
    : result NetworkService :=
  p <- subnet_entry (get_fablib_data s) ;;
  match snd p with
  | JObj sub =>
      let sub1 := PyDict.set "subnet" (JStr (str_network api subnet)) sub in
      let sub2 := PyDict.set "allocated_ips" (JList []) sub1 in
      Ok (set_fablib_data s (PyDict.set "subnet" (JObj sub2) (fst p)))
  | _ => Raise TypeError
  end.

Definition set_gateway (s : NetworkService) (gateway : ip_address)
    : result NetworkService :=
  p <- subnet_entry (get_fablib_data s) ;;
  match snd p with
  | JObj sub =>
      let sub1 := PyDict.set "gateway" (JStr (str_address api gateway)) sub in
      Ok (set_fablib_data s (PyDict.set "subnet" (JObj sub1) (fst p)))
  | _ => Raise TypeError
  end.

Definition set_allocated_ip (s : NetworkService) (addr : pyval)
    : result NetworkService :=
  p <- subnet_entry (get_fablib_data s) ;;
  allocated_ips <- json_getitem (snd p) "allocated_ips" ;;
  match allocated_ips, snd p with
  | JList l, JObj sub =>
      let l1 := (l ++ [JStr (py_str api addr)])%list in
      let sub1 := PyDict.set "allocated_ips" (JList l1) sub in
      Ok (set_fablib_data s (PyDict.set "subnet" (JObj sub1) (fst p)))
  | _, _ => Raise AttributeError
  end.

(** [allocate_ip(addr)]: the value returned and the service afterwards. *)
Definition allocate_ip (s : NetworkService) (addr : pyval)
    : result (pyval * NetworkService) :=
  let subnet := get_subnet s in
  let allocated_ips := get_allocated_ips s in
  if py_truthy addr then
    if negb (py_in addr allocated_ips) then
      s1 <- set_allocated_ip s addr ;;
      Ok (addr, s1)
    else Ok (PyNone, s)
  else
    match subnet with
    | SubnetNet net =>
        match first_free (network_address net) allocated_ips
                (network_iter net) with
        | Some host =>
            s1 <- set_allocated_ip s (PyAddr host) ;;
            Ok (PyAddr host, s1)
        | None => Ok (PyNone, s)
        end
    | _ => Ok (PyNone, s)
    end.

Definition set_allocated_ips (s : NetworkService)
    (allocated_ips : list ip_address) : result NetworkService :=
  let allocated_ips_strs :=
    map (fun ip => JStr (str_address api ip)) allocated_ips in
  p <- subnet_entry (get_fablib_data s) ;;
  match snd p with
  | JObj sub =>
      let sub1 := PyDict.set "allocated_ips" (JList allocated_ips_strs) sub in
      Ok (set_fablib_data s (PyDict.set "subnet" (JObj sub1) (fst p)))
  | _ => Raise TypeError
  end.

(** [free_ip(addr)]; [addr] is [None] when the interface has no address. *)
Definition free_ip (s : NetworkService) (addr : option ip_address)
    : result NetworkService :=
  let allocated_ips := get_allocated_ips s in
  let allocated_ips1 :=
    match addr with
    | Some a =>
        if existsb (ip_address_eqb a) allocated_ips
        then remove_first a allocated_ips
        else allocated_ips
    | None => allocated_ips
    end in
  set_allocated_ips s allocated_ips1.

End Allocator.

(** ** Interface mutation and type migration *)

(** [a != b] on what [get_type] and [__calculate_l2_nstype] return. *)
Definition nstype_neqb (curr : ServiceType) (new : option ServiceType) : bool :=
  match new with
  | Some t => negb (ServiceType_eqb curr t)
  | None => true
  end.

(** Interfaces are objects of the slice; two of them are the same object when
    they carry the same name. *)
Definition same_interface (a b : Interface) : bool :=
  String.eqb (if_name a) (if_name b).

(** [interfaces.remove(interface)] *)
Fixpoint remove_interface_from (interface : Interface)
    (interfaces : list Interface) : list Interface :=
  match interfaces with
  | [] => []
  | x :: r =>
      if same_interface interface x then r
      else x :: remove_interface_from interface r
  end.

(** [__replace_network_service(nstype)]; the topology refuses to create a
    service without a type. *)
Definition __replace_network_service (s : NetworkService)
    (nstype : option ServiceType) : result NetworkService :=
  let name := get_name s in
  let (interfaces, s1) := get_interfaces s in
  let fim_interfaces := map if_name interfaces in
  let f1 :=
    fold_left (fun f i => disconnect_interface f (if_name i)) interfaces
      (fim_network_service s1) in
  let s2 := with_fim s1 f1 in
  let user_data := get_user_data s2 in
  match nstype with
  | None => Raise TypeError
  | Some t =>
      let s3 := with_fim s2 (add_network_service name t fim_interfaces) in
      Ok (set_user_data s3 user_data)
  end.

Definition set_if_fablib_data (i : Interface) (d : PyDict.t json) : Interface :=
  {| if_name := if_name i; if_site := if_site i; if_node := if_node i;
     if_model := if_model i; if_vlan := if_vlan i; if_fablib_data := d;
     if_ip_addr := if_ip_addr i |}.

Definition set_vlan (i : Interface) (vlan : option string) : Interface :=
  {| if_name := if_name i; if_site := if_site i; if_node := if_node i;
     if_model := if_model i; if_vlan := vlan;
     if_fablib_data := if_fablib_data i; if_ip_addr := if_ip_addr i |}.

Section Facade.

Variable api : text_api.

(** First part of [add_interface]: the guard, the append to
    [self.interfaces], and the re-typing of an L2 service or the site check
    of an instantiated L3 service. *)
Definition add_interface_retype (s : NetworkService) (interface : Interface)
    : result NetworkService :=
  if ServiceType_eqb (get_type s) PortMirror then Raise PortMirrorAttach
  else
    let (got, s1) := get_interfaces s in
    let new_interfaces := (got ++ [interface])%list in
    let s2 := with_interfaces s1 new_interfaces in
    let curr_nstype := get_type s2 in
    match get_layer s2 with
    | Some L2 =>
        let ero_enabled := fim_ero (fim_network_service s2) in
        new_nstype <- __calculate_l2_nstype new_interfaces ero_enabled ;;
        if nstype_neqb curr_nstype new_nstype
        then __replace_network_service s2 new_nstype
        else Ok (with_fim s2 (connect_interface (fim_network_service s2)
                                (if_name interface)))
    | Some L3 =>
        inst <- is_instantiated s2 ;;
        if inst then
          match sliver_site s2 with
          | Some site =>
              if String.eqb (if_site interface) site then Ok s2
              else Raise L3OneSite
          | None => Raise L3OneSite
          end
        else Ok s2
    | None => Ok s2
    end.

(** The address block of [add_interface]: [addr] and [auto] of the
    interface's user data, and the allocation when the service has a
    subnet. *)
Definition assign_address (s : NetworkService)
    (iface_fablib_data : PyDict.t json)
    : result (PyDict.t json * NetworkService) :=
  let addr :=
    match PyDict.get "addr" iface_fablib_data with
    | Some v => PyJson v
    | None => PyNone
    end in
  let auto :=
    match PyDict.get "auto" iface_fablib_data with
    | Some v => truthy v
    | None => false
    end in
  if subnet_truthy (get_subnet api s) then
    if py_truthy addr then
      r <- allocate_ip api s addr ;;
      Ok (PyDict.set "addr" (JStr (py_str api (fst r))) iface_fablib_data,
          snd r)
    else if auto then
      r <- allocate_ip api s PyNone ;;
      Ok (PyDict.set "addr" (JStr (py_str api (fst r))) iface_fablib_data,
          snd r)
    else Ok (iface_fablib_data, s)
  else Ok (iface_fablib_data, s).

(** Second part of [add_interface]: the address of the interface, its user
    data, and the connection of an L3 service. *)
Definition add_interface_addr (s : NetworkService) (interface : Interface)
    : result (NetworkService * Interface) :=
  p <- assign_address s (if_fablib_data interface) ;;
  let interface1 := set_if_fablib_data interface (fst p) in
  let s1 := snd p in
  match get_layer s1 with
  | Some L3 =>
      Ok (with_fim s1 (connect_interface (fim_network_service s1)
                         (if_name interface)), interface1)
  | _ => Ok (s1, interface1)
  end.

(** [add_interface(interface)]: the service and the interface afterwards. *)
Definition add_interface (s : NetworkService) (interface : Interface)
    : result (NetworkService * Interface) :=
  s1 <- add_interface_retype s interface ;;
  add_interface_addr s1 interface.

(** [remove_interface(interface)] *)
Definition remove_interface (s : NetworkService) (interface : Interface)
    : result NetworkService :=
  s1 <- free_ip api s (if_ip_addr interface) ;;
  let (got, s2) := get_interfaces s1 in
  let interfaces :=
    if existsb (same_interface interface) got
    then remove_interface_from interface got
    else got in
  let s3 := with_interfaces s2 interfaces in
  let curr_nstype := get_type s3 in
  s4 <- match get_layer s3 with
        | Some L2 =>
            let ero_enabled := fim_ero (fim_network_service s3) in
            new_nstype <- __calculate_l2_nstype interfaces ero_enabled ;;
            if nstype_neqb curr_nstype new_nstype
            then __replace_network_service s3 new_nstype
            else Ok s3
        | _ => Ok s3
        end ;;
  Ok (with_fim s4 (disconnect_interface (fim_network_service s4)
                     (if_name interface))).

End Facade.

(** ** Creating an L2 service *)

Definition fim_l2network_service_types : list string :=
  ["L2Bridge"; "L2PTP"; "L2STS"].

Definition network_service_map (type : string) : option ServiceType :=
  if String.eqb type "L2Bridge" then Some L2Bridge
  else if String.eqb type "L2PTP" then Some L2PTP
  else if String.eqb type "L2STS" then Some L2STS
  else if String.eqb type "PortMirror" then Some PortMirror
  else if String.eqb type "FABNetv4" then Some FABNetv4
  else if String.eqb type "FABNetv6" then Some FABNetv6
  else if String.eqb type "FABNetv4Ext" then Some FABNetv4Ext
  else if String.eqb type "FABNetv6Ext" then Some FABNetv6Ext
  else if String.eqb type "L3VPN" then Some L3VPN
  else None.

(** [x.set_vlan(vlan)] seen through a list that may hold [x]. *)
Definition set_vlan_in (x : Interface) (vlan : option string)
    (l : list Interface) : list Interface :=
  map (fun i => if same_interface x i then set_vlan i vlan else i) l.

(** The [set_vlan] calls of [new_l2network] on [interfaces[0]] and
    [interfaces[1]]; [IndexError] when there is no second interface. *)
Definition vlan_defaults (interfaces : list Interface)
    : result (list (Interface * option string)) :=
  match interfaces with
  | i0 :: i1 :: _ =>
      match if_vlan i0, if_vlan i1 with
      | None, None => Ok [(i0, Some "100"); (i1, Some "100")]
      | None, Some vlan2 => Ok [(i0, Some vlan2)]
      | Some vlan1, None => Ok [(i1, Some vlan1)]
      | Some _, Some _ => Ok []
      end
  | _ => Raise IndexError
  end.

(** The calls seen through a list holding some of the interfaces. *)
Definition set_vlans (calls : list (Interface * option string))
    (l : list Interface) : list Interface :=
  fold_left (fun acc call => set_vlan_in (fst call) (snd call) acc) calls l.

(** [__new_network_service] for an L2 service. *)
Definition __new_network_service (slice : list Interface) (name : string)
    (nstype : ServiceType) (interfaces : list Interface)
    (user_data : PyDict.t json) : NetworkService :=
  let fim := add_network_service name nstype (map if_name interfaces) in
  let network_service :=
    {| fim_network_service := fim; self_interfaces := None;
       slice_interfaces := slice; sliver_subnet := None;
       sliver_site := None |} in
  init_fablib_data (set_user_data network_service user_data).

(** [new_l2network]: the interfaces after the VLAN defaults and the new
    service; the slice holds the same interface objects. *)
Definition new_l2network (slice : list Interface) (name : string)
    (interfaces : list Interface) (type : option string)
    (user_data : PyDict.t json)
    : result (list Interface * NetworkService) :=
  nstype <- match type with
            | None => __calculate_l2_nstype interfaces false
            | Some t =>
                if existsb (String.eqb t) fim_l2network_service_types
                then Ok (network_service_map t)
                else Raise (InvalidL2Type t)
            end ;;
  _ <- __validate_nstype nstype interfaces ;;
  match nstype with
  | None => Raise TypeError
  | Some t =>
      calls <-
        (if ServiceType_eqb t L2PTP && negb (List.length interfaces =? 0)
         then vlan_defaults interfaces
         else Ok []) ;;
      let interfaces1 := set_vlans calls interfaces in
      let slice1 := set_vlans calls slice in
      Ok (interfaces1,
          __new_network_service slice1 name t interfaces1 user_data)
  end.

(** ** Gateway, available addresses and configuration *)

(** What [get_gateway] returns: an address, [None], or the placeholder string
    of a service that is not instantiated. *)
Inductive gateway_value :=
| GatewayAddr (a : ip_address)
| GatewayNone
| GatewayName (placeholder : string).

(** [get_gateway]; [sliver_gateway] is
    [ip_address(sliver.fim_sliver.gateway.gateway)], [None] when it raises.
    Every exception inside ends in [None]. *)
Definition get_gateway (api : text_api) (sliver_gateway : option ip_address)
    (s : NetworkService) : gateway_value :=
  match is_instantiated s with
  | Raise _ => GatewayNone
  | Ok false => GatewayName (get_name s ++ ".gateway")
  | Ok true =>
      match get_layer s with
      | Some L3 =>
          match sliver_gateway with
          | Some a => GatewayAddr a
          | None => GatewayNone
          end
      | _ =>
          (* L2 Network *)
          match (sub <- json_getitem (get_fablib_data s) "subnet" ;;
                 json_getitem sub "gateway") with
          | Ok v =>
              match ip_address_of api v with
              | Some a => GatewayAddr a
              | None => GatewayNone
              end
          | Raise _ => GatewayNone
          end
      end
  end.

(** [addr + k] on an address: the constructor refuses an integer outside
    the range of the version. *)
Definition all_ones (v : ip_version) : Z :=
  (2 ^ Z.of_nat (max_prefixlen v) - 1)%Z.

Definition address_add (a : ip_address) (k : Z) : option ip_address :=
  let z := (addr_int a + k)%Z in
  if ((0 <=? z) && (z <=? all_ones (addr_version a)))%Z
  then Some {| addr_version := addr_version a; addr_int := z |}
  else None.

(** [get_available_ips(count)]: [gateway + i + 1] for [i] in [range(count)];
    [None] when an addition raises, which it does on a gateway that is not
    an address. *)
Definition get_available_ips (api : text_api)
    (sliver_gateway : option ip_address) (s : NetworkService) (count : Z)
    : option (list ip_address) :=
  let gateway := get_gateway api sliver_gateway s in
  parse_all
    (fun i =>
       match gateway with
       | GatewayAddr g =>
           match address_add g (Z.of_nat i) with
           | Some a => address_add a 1
           | None => None
           end
       | _ => None
       end)
    (seq 0 (Z.to_nat count)).

(** [str(v)] of what [get_subnet] returns, and what [get_gateway] returns as
    an argument of [set_allocated_ip]. *)
Definition str_subnet_value (api : text_api) (v : subnet_value) : string :=
  match v with
  | SubnetNet net => str_network api net
  | SubnetNone => "None"
  | SubnetName p => p
  end.

Definition gateway_pyval (g : gateway_value) : pyval :=
  match g with
  | GatewayAddr a => PyAddr a
  | GatewayNone => PyNone
  | GatewayName p => PyJson (JStr p)
  end.

(** [set_subnet(subnet)] and [set_gateway(gateway)] on the text [str] gives
    their argument, whatever it is. *)
Definition set_subnet_str (s : NetworkService) (text : string)
    : result NetworkService :=
  p <- subnet_entry (get_fablib_data s) ;;
  match snd p with
  | JObj sub =>
      let sub1 := PyDict.set "subnet" (JStr text) sub in
      let sub2 := PyDict.set "allocated_ips" (JList []) sub1 in
      Ok (set_fablib_data s (PyDict.set "subnet" (JObj sub2) (fst p)))
  | _ => Raise TypeError
  end.

Definition set_gateway_str (s : NetworkService) (text : string)
    : result NetworkService :=
  p <- subnet_entry (get_fablib_data s) ;;
  match snd p with
  | JObj sub =>
      let sub1 := PyDict.set "gateway" (JStr text) sub in
      Ok (set_fablib_data s (PyDict.set "subnet" (JObj sub1) (fst p)))
  | _ => Raise TypeError
  end.

(** [config()]: the local list [allocated_ips] is built and dropped. *)
Definition config (api : text_api) (sliver_gateway : option ip_address)
    (s : NetworkService) : result NetworkService :=
  inst <- is_instantiated s ;;
  s1 <- (if negb inst then set_instantiated s true else Ok s) ;;
  match get_layer s1 with
  | Some L3 =>
      s2 <- set_subnet_str s1 (str_subnet_value api (get_subnet api s1)) ;;
      s3 <- set_gateway_str s2
              (py_str api (gateway_pyval (get_gateway api sliver_gateway s2))) ;;
      set_allocated_ip api s3 (gateway_pyval (get_gateway api sliver_gateway s3))
  | _ => Ok s1
  end.

(** ** Looking up an interface of the service *)

(** [s.endswith(suffix)] *)
Fixpoint endswith (s suffix : string) : bool :=
  if String.eqb s suffix then true
  else match s with
       | EmptyString => false
       | String _ r => endswith r suffix
       end.

(** [has_interface(interface)] *)
Definition has_interface (s : NetworkService) (interface : Interface) : bool :=
  existsb (fun name => endswith name (if_name interface))
    (fim_interface_list (fim_network_service s)).

(** Exceptions of the functions below that [exn] does not name, and the
    outcome of a call that may raise one of them. *)
Inductive facade_exn :=
| NetworkNotFound (name : string)
    (* "Network not found. Slice ..., network <name>" *)
| InterfaceNotFound (name : string)
    (* raised by [slice.get_interface] *)
| InvalidL3Type
    (* "Invalid L3 Network Type: Allowed values [IPv4, IPv4Ext, IPv6, ...]" *)
| MirrorInterfaceNotNamed
    (* "... mirror_interface is specified by name" *)
| MirrorDirectionNotString
    (* "... mirror_direction is a string ..." *)
| MirrorReceiveInterfaceMissing
    (* "... the receiving interface must be specified upfront" *)
| UnknownMirrorDirection (direction : string)
| NotPointToPoint
    (* "Network path can only be specified for a Point to Point Layer2
       connection!" *)
| InvalidEroPath
    (* raised by [validate_requested_ero_path] *)
| Resolver (e : exn).

Inductive outcome (A : Type) :=
| Returns (a : A)
| Throws (e : facade_exn).
Arguments Returns {A} a.
Arguments Throws {A} e.

(** [get_interface(name)]: the first attached interface whose name contains
    [name], looked up in the slice; [None] when the loop ends. *)
Definition get_interface (s : NetworkService) (name : string)
    : outcome (option Interface) :=
  match find (is_substring name)
          (fim_interface_list (fim_network_service s)) with
  | Some n =>
      match slice_get_interface (slice_interfaces s) n with
      | Some i => Returns (Some i)
      | None => Throws (InterfaceNotFound n)
      end
  | None => Returns None
  end.

(** ** Looking up the services of a slice *)

(** [str(net.get_property("type"))]: the name of the member. *)
Definition type_name (t : ServiceType) : string :=
  match t with
  | L2Bridge => "L2Bridge" | L2PTP => "L2PTP" | L2STS => "L2STS"
  | PortMirror => "PortMirror"
  | FABNetv4 => "FABNetv4" | FABNetv6 => "FABNetv6"
  | FABNetv4Ext => "FABNetv4Ext" | FABNetv6Ext => "FABNetv6Ext"
  | L3VPN => "L3VPN"
  end.

Definition fim_l3network_service_types : list string :=
  ["FABNetv4"; "FABNetv6"; "FABNetv4Ext"; "FABNetv6Ext"; "L3VPN"].

Definition fim_special_service_types : list string := ["PortMirror"].

Definition get_fim_network_service_types : list string :=
  (fim_l2network_service_types ++ fim_l3network_service_types
   ++ fim_special_service_types)%list.

(** The loop of [get_l2network_services], [get_l3network_services] and
    [get_network_services] over [topology.network_services.items()]: the
    FIM objects whose type name is in [types], each of which the source
    wraps in a facade. *)
Definition services_of_types (types : list string)
    (network_services : PyDict.t FimNetworkService)
    : list FimNetworkService :=
  map snd
    (filter (fun kv =>
               existsb (String.eqb (type_name (fim_type (snd kv)))) types)
       network_services).

Definition get_l2network_services :=
  services_of_types fim_l2network_service_types.
Definition get_l3network_services :=
  services_of_types fim_l3network_service_types.
Definition get_network_services :=
  services_of_types get_fim_network_service_types.

(** [for net in ...: if net.get_name() == name: return net], then the
    "Network not found" exception. *)
Definition service_named (name : string) (l : list FimNetworkService)
    : outcome FimNetworkService :=
  match find (fun f => String.eqb (fim_name f) name) l with
  | Some f => Returns f
  | None => Throws (NetworkNotFound name)
  end.

Definition get_l2network_service
    (network_services : PyDict.t FimNetworkService) (name : string) :=
  service_named name (get_l2network_services network_services).

Definition get_l3network_service
    (network_services : PyDict.t FimNetworkService) (name : string) :=
  service_named name (get_l3network_services network_services).

Definition get_network_service
    (network_services : PyDict.t FimNetworkService) (name : string) :=
  service_named name (get_network_services network_services).

(** ** Creating an L3 service and a PortMirror service *)

(** [new_l3network] called without a subnet request ([subnet=None]); the
    technology is handed to the topology and not read back here.  The
    validation call is commented out in the source. *)
Definition new_l3network (slice : list Interface) (name : string)
    (interfaces : list Interface) (type : option string)
    (user_data : PyDict.t json) : outcome NetworkService :=
  let nstype :=
    match type with
    | Some t =>
        if String.eqb t "IPv6" then Returns FABNetv6
        else if String.eqb t "IPv4" then Returns FABNetv4
        else if String.eqb t "IPv4Ext" then Returns FABNetv4Ext
        else if String.eqb t "IPv6Ext" then Returns FABNetv6Ext
        else if String.eqb t "L3VPN" then Returns L3VPN
        else Throws InvalidL3Type
    | None => Throws InvalidL3Type
    end in
  match nstype with
  | Returns t =>
      Returns (__new_network_service slice name t interfaces user_data)
  | Throws e => Throws e
  end.

Inductive MirrorDirection := Both | RX_Only | TX_Only.

(** [s.lower()] on the letters A to Z; no other character becomes a letter
    of "rx", "tx" or "both". *)
Definition lower_ascii (c : ascii) : ascii :=
  let n := nat_of_ascii c in
  if (65 <=? n) && (n <=? 90) then ascii_of_nat (n + 32) else c.

Fixpoint lower (s : string) : string :=
  match s with
  | EmptyString => EmptyString
  | String c r => String (lower_ascii c) (lower r)
  end.

(** [new_portmirror_service]: an argument that is not a string is [None];
    [topology.add_port_mirror_service] creates a PortMirror service with the
    receiving interface attached, and takes the VLAN of the mirrored
    interface, which nothing here reads. *)
Definition new_portmirror_service (slice : list Interface) (name : string)
    (mirror_interface_name : option string)
    (receive_interface : option Interface)
    (mirror_direction : option string)
    : outcome (NetworkService * MirrorDirection) :=
  match mirror_interface_name with
  | None => Throws MirrorInterfaceNotNamed
  | Some _ =>
      match mirror_direction with
      | None => Throws MirrorDirectionNotString
      | Some d =>
          match receive_interface with
          | None => Throws MirrorReceiveInterfaceMissing
          | Some r =>
              let no_case_direction := lower d in
              let direction :=
                if String.eqb no_case_direction "rx" then Returns RX_Only
                else if String.eqb no_case_direction "tx" then Returns TX_Only
                else if String.eqb no_case_direction "both" then Returns Both
                else Throws (UnknownMirrorDirection d) in
              match direction with
              | Returns dir =>
                  let fim :=
                    add_network_service name PortMirror [if_name r] in
                  Returns
                    (init_fablib_data
                       {| fim_network_service := fim;
                          self_interfaces := None;
                          slice_interfaces := slice;
                          sliver_subnet := None; sliver_site := None |},
                     dir)
              | Throws e => Throws e
              end
          end
      end
  end.

(** ** Explicit routes *)

(** [set_l2_route_hops(hops)]; [valid_path source end hops] is false when
    the resources of the testbed refuse the path
    ([validate_requested_ero_path] raises).  The ERO object set on the FIM
    object is true as a condition. *)
Definition set_l2_route_hops
    (valid_path : string -> string -> list string -> bool)
    (s : NetworkService) (hops : list string) : outcome NetworkService :=
  match hops with
  | [] => Returns s
  | _ =>
      let (interfaces, s1) := get_interfaces s in
      match interfaces with
      | [i0; i1] =>
          if negb (ServiceType_eqb (get_type s1) L2STS
                   || ServiceType_eqb (get_type s1) L2PTP)
          then Throws NotPointToPoint
          else if negb (valid_path (if_site i0) (if_site i1) hops)
          then Throws InvalidEroPath
          else
            match __calculate_l2_nstype interfaces true with
            | Ok (Some ns_type) =>
                let f := fim_network_service s1 in
                Returns
                  (with_fim s1
                     {| fim_name := fim_name f; fim_type := ns_type;
                        fim_layer := fim_layer f;
                        fim_interface_list := fim_interface_list f;
                        fim_user_data := fim_user_data f;
                        fim_ero := true |})
            | Ok None => Throws (Resolver TypeError)
            | Raise e => Throws (Resolver e)
            end
      | _ => Throws NotPointToPoint
      end
  end.

(** ** A text form of addresses to compute with

    [Dotted] is an instance of [text_api]: decimal dotted quads, which is the
    text [str] gives an IPv4 address.  An IPv6 address is written here in the
    form [::a.b.c.d], and the leading field is not bounded, so that every
    value of [ip_address] has a text; a network is its address, a slash and
    the prefix length. *)

Module Dotted.

Definition dec (z : Z) : string := NilZero.string_of_int (Z.to_int z).

Definition undec (s : string) : option Z :=
  option_map Z.of_int (NilZero.int_of_string s).

(** [s.split(sep)] *)
Fixpoint fields (sep : ascii) (s : string) : list string :=
  match s with
  | EmptyString => [EmptyString]
  | String c r =>
      if Ascii.eqb c sep then EmptyString :: fields sep r
      else match fields sep r with
           | f :: fs => String c f :: fs
           | [] => [String c EmptyString]
           end
  end.

Fixpoint has_char (c : ascii) (s : string) : bool :=
  match s with
  | EmptyString => false
  | String c' r => Ascii.eqb c' c || has_char c r
  end.

Definition dotted (z : Z) : string :=
  (dec (z / 256 / 256 / 256) ++ "." ++ dec ((z / 256 / 256) mod 256) ++ "."
   ++ dec ((z / 256) mod 256) ++ "." ++ dec (z mod 256))%string%Z.

Definition undotted (s : string) : option Z :=
  match map undec (fields "." s) with
  | [Some a; Some b; Some c; Some d] =>
      Some (((a * 256 + b) * 256 + c) * 256 + d)%Z
  | _ => None
  end.

Definition address_text (a : ip_address) : string :=
  match addr_version a with
  | IPv4 => dotted (addr_int a)
  | IPv6 => "::" ++ dotted (addr_int a)
  end.

Definition parse_address (s : string) : option ip_address :=
  match s with
  | String ":" (String ":" r) =>
      option_map (fun z => {| addr_version := IPv6; addr_int := z |})
        (undotted r)
  | _ =>
      option_map (fun z => {| addr_version := IPv4; addr_int := z |})
        (undotted s)
  end.

Definition network_text (n : ip_network) : string :=
  address_text (network_address n) ++ "/" ++ dec (Z.of_nat (prefixlen n)).

Definition parse_network (s : string) : option ip_network :=
  match fields "/" s with
  | [a; p] =>
      match parse_address a, undec p with
      | Some addr, Some len =>
          Some {| net_version := addr_version addr;
                  net_int := addr_int addr;
                  prefixlen := Z.to_nat len |}
      | _, _ => None
      end
  | _ => None
  end.

(** [ip_address(v)]: a string is parsed, an integer is an IPv4 address below
    2^32 and an IPv6 address below 2^128. *)
Definition address_of_json (j : json) : option ip_address :=
  match j with
  | JStr s => parse_address s
  | JInt z =>
      if (z <? 0)%Z then None
      else if (z <? 2 ^ 32)%Z
      then Some {| addr_version := IPv4; addr_int := z |}
      else if (z <? 2 ^ 128)%Z
      then Some {| addr_version := IPv6; addr_int := z |}
      else None
  | _ => None
  end.

Definition network_of_json (j : json) : option ip_network :=
  match j with
  | JStr s => parse_network s
  | JInt z =>
      option_map (fun a => {| net_version := addr_version a;
                              net_int := addr_int a;
                              prefixlen := max_prefixlen (addr_version a) |})
        (address_of_json (JInt z))
  | _ => None
  end.

(** [str(v)] of a decoded value; containers are written without the quoting
    of [repr]. *)
Fixpoint json_text (j : json) : string :=
  match j with
  | JNull => "None"
  | JBool true => "True"
  | JBool false => "False"
  | JInt z => dec z
  | JStr s => s
  | JList l => "[" ++ String.concat ", " (map json_text l) ++ "]"
  | JObj d =>
      "{" ++ String.concat ", "
               (map (fun kv => match kv with
                               | (k, v) => k ++ ": " ++ json_text v
                               end) d) ++ "}"
  end.

Definition api : text_api :=
  {| str_address := address_text; str_network := network_text;
     str_json := json_text; ip_address_of := address_of_json;
     ip_network_of := network_of_json |}.

End Dotted.

(** [10.0.0.k] and the network [10.0.0.0/len]. *)
Definition ten (k : Z) : ip_address :=
  {| addr_version := IPv4; addr_int := (167772160 + k)%Z |}.

Definition ten_net (len : nat) : ip_network :=
  {| net_version := IPv4; net_int := 167772160%Z; prefixlen := len |}.

(** ** Vocabulary of the properties *)

(** The number of distinct sites of an interface list, and the two counts the
    resolver keeps, stated without the resolver's loop. *)
Definition distinct_sites (interfaces : list Interface) : nat :=
  List.length (nodup string_dec (map if_site interfaces)).

Definition facility_count (interfaces : list Interface) : nat :=
  List.length (filter is_facility interfaces).

Definition basic_count (interfaces : list Interface) : nat :=
  List.length (filter is_basic interfaces).

(** Two interfaces on dedicated NICs at two sites, none of them a facility
    port. *)
Definition plain_node (name site : string) : Node :=
  {| node_name := name; node_site := site; node_host := None;
     node_is_facility := false |}.

Definition plain_interface (name site model : string) : Interface :=
  {| if_name := name; if_site := site; if_node := plain_node name site;
     if_model := model; if_vlan := None; if_fablib_data := [];
     if_ip_addr := None |}.

Definition two_dedicated : list Interface :=
  [plain_interface "a" "site1" "NIC_ConnectX_6";
   plain_interface "b" "site2" "NIC_ConnectX_6"].

Definition Node_eq_dec (a b : Node) : {a = b} + {a <> b}.
Proof. repeat decide equality. Defined.

(** The interfaces of non-facility nodes at a site, and the distinct nodes
    among them. *)
Definition at_site (site : string) (i : Interface) : bool :=
  negb (node_is_facility (if_node i))
  && String.eqb (node_site (if_node i)) site.

Definition interfaces_at (site : string) (interfaces : list Interface) : nat :=
  List.length (filter (at_site site) interfaces).

Definition nodes_at (site : string) (interfaces : list Interface) : nat :=
  List.length
    (nodup Node_eq_dec (map if_node (filter (at_site site) interfaces))).

(** [i] is a NIC_Basic interface whose node sits at a site that hosts more
    than one non-facility node of the interface list. *)
Definition needs_host_pin (interfaces : list Interface) (i : Interface)
    : Prop :=
  is_basic i = true
  /\ 1 < nodes_at (node_site (if_node i)) interfaces.

(** The test of the second loop of the L2STS branch on one interface. *)
Definition crowded (nodes_per_site : PyDict.t nat) (i : Interface) : bool :=
  is_basic i
  && match PyDict.get (node_site (if_node i)) nodes_per_site with
     | Some n => 1 <? n
     | None => false
     end.

(** The scenario of the host-pin check: A and B are NIC_Basic interfaces on
    two unpinned nodes at site1, C is at site2. *)
Definition basic_interface (name site : string) : Interface :=
  plain_interface name site NIC_Basic.

Definition scenario_abc : list Interface :=
  [basic_interface "A" "site1"; basic_interface "B" "site1";
   plain_interface "C" "site2" "NIC_ConnectX_6"].

Definition separator (c : ascii) : Prop :=
  c = "."%char \/ c = ":"%char \/ c = "/"%char.

(** The allocated set [al], as the blob holds it: the list of the texts of
    its addresses under ["subnet"]["allocated_ips"]. *)
Definition address_texts (api : text_api) (al : list ip_address) : json :=
  JList (map (fun a => JStr (str_address api a)) al).

Definition persisted_ips (api : text_api) (s : NetworkService)
    (al : list ip_address) : Prop :=
  exists fd sub,
    get_fablib_data s = JObj fd
    /\ PyDict.get "subnet" fd = Some (JObj sub)
    /\ PyDict.get "allocated_ips" sub = Some (address_texts api al).

(** The [k]-th address of a network in ascending order. *)
Definition addr_at (net : ip_network) (k : nat) : ip_address :=
  {| addr_version := net_version net;
     addr_int := (net_int net + Z.of_nat k)%Z |}.

Definition in_network (net : ip_network) (a : ip_address) : Prop :=
  exists k, k < num_addresses net /\ a = addr_at net k.

(** [host] is the first address of [net], in ascending order, that is neither
    the network address nor in [al]. *)
Definition first_free_address (net : ip_network) (al : list ip_address)
    (host : ip_address) : Prop :=
  exists k,
    k < num_addresses net /\ host = addr_at net k
    /\ host <> network_address net /\ ~ In host al
    /\ forall j, j < k ->
                 addr_at net j = network_address net \/ In (addr_at net j) al.

Definition exhausted (net : ip_network) (al : list ip_address) : Prop :=
  forall k, k < num_addresses net ->
            addr_at net k = network_address net \/ In (addr_at net k) al.

(** [n] successive calls of [allocate_ip()] and what they return. *)
Fixpoint allocate_n (api : text_api) (s : NetworkService) (n : nat)
    : result (list pyval * NetworkService) :=
  match n with
  | 0 => Ok ([], s)
  | S m =>
      r <- allocate_ip api s PyNone ;;
      rs <- allocate_n api (snd r) m ;;
      Ok (fst r :: fst rs, snd rs)
  end.

(** A sequence of [allocate_ip] and [free_ip] calls.  [allocate_ip] takes
    what its caller passes: [None], an address object, or the decoded value
    [add_interface] reads under ["addr"] in the user data of the
    interface. *)
Inductive alloc_op :=
| AllocateIp (addr : pyval)
| FreeIp (addr : option ip_address).

Definition run_op (api : text_api) (s : NetworkService) (op : alloc_op)
    : result NetworkService :=
  match op with
  | AllocateIp addr => r <- allocate_ip api s addr ;; Ok (snd r)
  | FreeIp addr => free_ip api s addr
  end.

Fixpoint run_ops (api : text_api) (s : NetworkService) (ops : list alloc_op)
    : result NetworkService :=
  match ops with
  | [] => Ok s
  | op :: rest => s1 <- run_op api s op ;; run_ops api s1 rest
  end.

(** The blob holds the list [l] under ["subnet"]["allocated_ips"]. *)
Definition listed (s : NetworkService) (l : list json) : Prop :=
  exists fd sub,
    get_fablib_data s = JObj fd
    /\ PyDict.get "subnet" fd = Some (JObj sub)
    /\ PyDict.get "allocated_ips" sub = Some (JList l).

(** A call of [ops] asks [allocate_ip] to record [v]. *)
Definition requested (ops : list alloc_op) (v : pyval) : Prop :=
  In (AllocateIp v) ops /\ py_truthy v = true.

(** [a] is the address a requested value stands for. *)
Definition requested_address (api : text_api) (ops : list alloc_op)
    (a : ip_address) : Prop :=
  exists v, requested ops v
            /\ ip_address_of api (JStr (py_str api v)) = Some a.

(** [a] lies in the subnet of the service and is not its network address. *)
Definition subnet_member (api : text_api) (s : NetworkService)
    (a : ip_address) : Prop :=
  exists net, get_subnet api s = SubnetNet net
              /\ in_network net a /\ a <> network_address net.

(** Every address of [al] lies in the subnet of the service and is not its
    network address. *)
Definition members_ok (api : text_api) (s : NetworkService)
    (al : list ip_address) : Prop :=
  forall a, In a al -> subnet_member api s a.

(** Where an entry of the persisted list comes from: it is the text of a
    requested value as that was passed, or the text of an address that was
    requested or lies in the subnet of the service and is not its network
    address. *)
Definition entry_ok (api : text_api) (s : NetworkService)
    (ops : list alloc_op) (e : json) : Prop :=
  (exists v, requested ops v /\ e = JStr (py_str api v))
  \/ (exists a, e = JStr (str_address api a)
                /\ (requested_address api ops a \/ subnet_member api s a)).

(** A request that the comparison [addr not in allocated_ips] handles as
    meant: not a text, or the text of an address that is not allocated when
    the call is made. *)
Definition fresh_request (api : text_api) (s : NetworkService)
    (op : alloc_op) : bool :=
  match op with
  | AllocateIp (PyJson j) =>
      if truthy j then
        match ip_address_of api (JStr (str_json api j)) with
        | Some a =>
            negb (existsb (ip_address_eqb a) (get_allocated_ips api s))
        | None => false
        end
      else true
  | _ => true
  end.

Fixpoint fresh_requests (api : text_api) (s : NetworkService)
    (ops : list alloc_op) : bool :=
  match ops with
  | [] => true
  | op :: rest =>
      fresh_request api s op
      && match run_op api s op with
         | Ok s1 => fresh_requests api s1 rest
         | Raise _ => false
         end
  end.

(** An instantiated L2 service of the slice with its subnet set, to compute
    with: [new_l2network] with no interface, [set_instantiated(True)], then
    [set_subnet(net)]. *)
Definition fresh_l2 : NetworkService :=
  __new_network_service [] "net1" L2Bridge [] [].

Definition instantiated_l2 : NetworkService :=
  match set_instantiated fresh_l2 true with
  | Ok s => s
  | Raise _ => fresh_l2
  end.

Definition service_with_subnet (net : ip_network) : NetworkService :=
  match set_subnet Dotted.api instantiated_l2 net with
  | Ok s => s
  | Raise _ => instantiated_l2
  end.

(** [192.168.5.5] *)
Definition far_address : ip_address :=
  {| addr_version := IPv4; addr_int := 3232236805%Z |}.

(** The type, the layer, the attached interfaces and the interface list of
    the facade are those of [s]. *)
Definition same_topology (s s1 : NetworkService) : Prop :=
  get_type s1 = get_type s
  /\ get_layer s1 = get_layer s
  /\ fim_interface_list (fim_network_service s1)
     = fim_interface_list (fim_network_service s)
  /\ self_interfaces s1 = self_interfaces s.

(** A facility port interface and the services of the scenarios: [a] alone
    in a bridge, and [a] with the facility port [f] in a point-to-point
    service; [c] is a NIC_Basic interface. *)
Definition facility_interface (name site : string) : Interface :=
  {| if_name := name; if_site := site;
     if_node := {| node_name := name; node_site := site; node_host := None;
                   node_is_facility := true |};
     if_model := "Facility"; if_vlan := None; if_fablib_data := [];
     if_ip_addr := None |}.

Definition if_a : Interface := plain_interface "a" "site1" "NIC_ConnectX_6".
Definition if_f : Interface := facility_interface "f" "site2".
Definition if_c : Interface := basic_interface "c" "site1".

Definition service_of (r : result (list Interface * NetworkService))
    : NetworkService :=
  match r with
  | Ok p => snd p
  | Raise _ => fresh_l2
  end.

Definition bridge_service : NetworkService :=
  service_of (new_l2network [if_a; if_f; if_c] "net1" [if_a] None []).

Definition ptp_service : NetworkService :=
  service_of (new_l2network [if_a; if_f; if_c] "net1" [if_a; if_f] None []).

(** A PortMirror service with its receiving interface [r] attached. *)
Definition if_r : Interface := plain_interface "r" "site1" "NIC_ConnectX_6".

Definition mirror_service : NetworkService :=
  init_fablib_data
    {| fim_network_service := add_network_service "mirror" PortMirror ["r"];
       self_interfaces := None; slice_interfaces := [if_r];
       sliver_subnet := None; sliver_site := None |}.

(** A violation of the host check, and the exceptions the validator and
    [new_l2network] raise. *)
Definition host_violation (v : violation) : Prop :=
  match v with
  | NotTwoSites _ _ => False
  | UnboundNode _ | SharedHost _ => True
  end.

Definition validation_error (e : exn) : Prop :=
  match e with
  | BridgeSites _ _ | PtpSites _ _ | PtpBasicNic | Violations _
  | UnknownNetworkType _ => True
  | _ => False
  end.

Definition creation_error (e : exn) : Prop :=
  match e with
  | TooManySites _ | InvalidL2Type _ | BridgeSites _ _ | PtpSites _ _
  | PtpBasicNic | Violations _ => True
  | _ => False
  end.

(** The value under [key] in the ["subnet"] entry of the metadata blob. *)
Definition subnet_field (s : NetworkService) (key : string) : option json :=
  match get_fablib_data s with
  | JObj fd =>
      match PyDict.get "subnet" fd with
      | Some (JObj sub) => PyDict.get key sub
      | _ => None
      end
  | _ => None
  end.

(** The ["subnet"] entry of the blob is absent or a dictionary, and holds
    no allocated list. *)
Definition no_allocated_list (s : NetworkService) : Prop :=
  (exists fd1 sub0, subnet_entry (get_fablib_data s) = Ok (fd1, JObj sub0))
  /\ subnet_field s "allocated_ips" = None.

(** [set_subnet], [set_gateway] and [set_allocated_ips] find the blob a
    dictionary whose ["subnet"] entry is absent or a dictionary. *)
Definition subnet_entry_ok (s : NetworkService) : Prop :=
  exists fd1 sub0, subnet_entry (get_fablib_data s) = Ok (fd1, JObj sub0).

(** The address [k] after [g]. *)
Definition address_after (g : ip_address) (k : Z) : ip_address :=
  {| addr_version := addr_version g; addr_int := (addr_int g + k)%Z |}.

(** The interfaces the facade holds, and the facade agreeing with the FIM
    object on them. *)
Definition held (s : NetworkService) : list Interface :=
  fst (get_interfaces s).

Definition consistent (s : NetworkService) : Prop :=
  map if_name (held s) = fim_interface_list (fim_network_service s).

(** The service after [allocate_ip] is the service before, or the service
    before with a new ["subnet"] entry in its blob. *)
Definition blob_update (s s1 : NetworkService) : Prop :=
  s1 = s
  \/ exists fd1 sub, s1 = set_fablib_data s (PyDict.set "subnet" (JObj sub) fd1).

(** What [remove_interface] leaves of the interfaces held. *)
Definition without (i : Interface) (l : list Interface) : list Interface :=
  if existsb (same_interface i) l then remove_interface_from i l else l.

(** The type names [new_l3network] accepts. *)
Definition l3_type_names : list (string * ServiceType) :=
  [("IPv6", FABNetv6); ("IPv4", FABNetv4); ("IPv4Ext", FABNetv4Ext);
   ("IPv6Ext", FABNetv6Ext); ("L3VPN", L3VPN)].

(** The service with the subnet 10.0.0.0/29 after two automatic
    allocations. *)
Definition allocated_service : NetworkService :=
  match allocate_n Dotted.api (service_with_subnet (ten_net 29)) 2 with
  | Ok p => snd p
  | Raise _ => fresh_l2
  end.

(** An L3 service whose sliver reports the subnet 10.0.0.0/24 at site1. *)
Definition l3_service : NetworkService :=
  init_fablib_data
    {| fim_network_service := add_network_service "l3" FABNetv4 [];
       self_interfaces := None; slice_interfaces := [if_a; if_f; if_c];
       sliver_subnet := Some (ten_net 24); sliver_site := Some "site1" |}.

(** [c] asking for an automatic address. *)
Definition if_auto : Interface :=
  set_if_fablib_data if_c [("auto", JBool true)].

(** * Properties *)

(** ** Counting sites, facility interfaces and baseline NICs *)

Lemma set_add_fold_In (A : Type) (f : A -> string) (l : list A)
    (acc : list string) (x : string) :
  In x (fold_left (fun a i => set_add string_dec (f i) a) l acc)
  <-> In x acc \/ In x (map f l).
Proof.
  revert acc. induction l as [|i r IH]; intros acc; simpl.
  - tauto.
  - rewrite IH, set_add_iff. intuition.
Qed.

Lemma set_add_fold_NoDup (A : Type) (f : A -> string) (l : list A)
    (acc : list string) :
  NoDup acc -> NoDup (fold_left (fun a i => set_add string_dec (f i) a) l acc).
Proof.
  revert acc. induction l as [|i r IH]; intros acc H; simpl; auto.
  apply IH. now apply set_add_nodup.
Qed.

Lemma NoDup_same_length (l1 l2 : list string) :
  NoDup l1 -> NoDup l2 -> (forall x, In x l1 <-> In x l2) ->
  List.length l1 = List.length l2.
Proof.
  intros H1 H2 H. apply Nat.le_antisymm; apply NoDup_incl_length; auto;
    intros x Hx; now apply H.
Qed.

Lemma sites_of_length (interfaces : list Interface) :
  List.length (sites_of interfaces) = distinct_sites interfaces.
Proof.
  unfold sites_of, distinct_sites. apply NoDup_same_length.
  - apply set_add_fold_NoDup. constructor.
  - apply NoDup_nodup.
  - intros x. rewrite set_add_fold_In, nodup_In. simpl. tauto.
Qed.

Lemma l2_scan_fold (interfaces : list Interface) (acc : l2_scan) :
  let sc := fold_left l2_scan_step interfaces acc in
  sites sc = fold_left (fun a i => set_add string_dec (if_site i) a)
               interfaces (sites acc)
  /\ includes_facility_port sc
     = includes_facility_port acc || (0 <? facility_count interfaces)
  /\ facility_port_interfaces sc
     = facility_port_interfaces acc + facility_count interfaces
  /\ basic_nic_count sc = basic_nic_count acc + basic_count interfaces.
Proof.
  revert acc. unfold facility_count, basic_count.
  induction interfaces as [|i r IH]; intros acc; simpl.
  - rewrite orb_false_r. repeat split; lia.
  - destruct (IH (l2_scan_step acc i)) as (Hs & Hi & Hf & Hb).
    rewrite Hs, Hi, Hf, Hb. simpl.
    destruct (is_facility i), (is_basic i); simpl;
      rewrite ?orb_true_r; repeat split; try lia;
      try (destruct (includes_facility_port acc); reflexivity).
Qed.

Lemma l2_scan_spec (interfaces : list Interface) :
  let sc := l2_scan_of interfaces in
  List.length (sites sc) = distinct_sites interfaces
  /\ includes_facility_port sc = (0 <? facility_count interfaces)
  /\ facility_port_interfaces sc = facility_count interfaces
  /\ basic_nic_count sc = basic_count interfaces.
Proof.
  destruct (l2_scan_fold interfaces l2_scan_init) as (Hs & Hi & Hf & Hb).
  simpl. unfold l2_scan_of. rewrite Hs, Hi, Hf, Hb. simpl.
  repeat split. apply sites_of_length.
Qed.

Lemma distinct_sites_le (interfaces : list Interface) :
  distinct_sites interfaces <= List.length interfaces.
Proof.
  unfold distinct_sites. rewrite <- (length_map if_site interfaces).
  apply NoDup_incl_length; [apply NoDup_nodup|].
  intros x Hx. now apply nodup_In in Hx.
Qed.

(** The resolver in closed form. *)
Lemma calculate_l2_nstype_spec (interfaces : list Interface) (ero : bool) :
  __calculate_l2_nstype interfaces ero =
  if distinct_sites interfaces <=? 1 then Ok (Some L2Bridge)
  else if distinct_sites interfaces =? 2 then
    if ((facility_count interfaces =? 1) || ero)
       && (basic_count interfaces =? 0)
    then Ok (Some L2PTP) else Ok (Some L2STS)
  else Raise (TooManySites (sites (l2_scan_of interfaces))).
Proof.
  unfold __calculate_l2_nstype.
  destruct (l2_scan_spec interfaces) as (Hs & Hi & Hf & Hb).
  cbv zeta in *. rewrite Hs, Hi, Hf, Hb.
  destruct (distinct_sites interfaces <=? 1) eqn:E1; [reflexivity|].
  destruct (distinct_sites interfaces =? 2) eqn:E2; [|reflexivity].
  apply Nat.eqb_eq in E2.
  pose proof (distinct_sites_le interfaces) as Hle.
  replace (2 <=? List.length interfaces) with true
    by (symmetry; apply Nat.leb_le; lia).
  replace ((0 <? facility_count interfaces) && (facility_count interfaces <? 2))
    with (facility_count interfaces =? 1).
  - destruct (((facility_count interfaces =? 1) || ero)
              && (basic_count interfaces =? 0)); reflexivity.
  - destruct (facility_count interfaces) as [|[|n]]; reflexivity.
Qed.

(** ** C1: the type resolved for two sites *)

(** C1, as the code has it: for an interface list spanning exactly two
    sites the resolver returns L2PTP when there is no NIC_Basic interface and
    either explicit routing is requested or exactly one interface is a
    facility interface, and L2STS in every other case; it never falls through
    without a type. *)
Theorem calculate_l2_nstype_two_sites (interfaces : list Interface)
    (ero_enabled : bool) :
  distinct_sites interfaces = 2 ->
  __calculate_l2_nstype interfaces ero_enabled =
  Ok (Some (if (basic_count interfaces =? 0)
               && ((facility_count interfaces =? 1) || ero_enabled)
            then L2PTP else L2STS)).
Proof.
  intros H. rewrite calculate_l2_nstype_spec, H. simpl.
  rewrite andb_comm.
  destruct ((basic_count interfaces =? 0)
            && ((facility_count interfaces =? 1) || ero_enabled)); reflexivity.
Qed.

Lemma calculate_l2_nstype_two_sites_witness :
  distinct_sites two_dedicated = 2
  /\ __calculate_l2_nstype two_dedicated true = Ok (Some L2PTP).
Proof.
  split; [reflexivity|].
  exact (calculate_l2_nstype_two_sites two_dedicated true eq_refl).
Defined.

(** C1 as stated fails: two interfaces at two sites, no NIC_Basic, no
    explicit route and no facility interface at all (so fewer than two) are
    resolved to L2STS, not to L2PTP. *)
Lemma calculate_l2_nstype_no_facility_is_sts :
  distinct_sites two_dedicated = 2
  /\ List.length two_dedicated = 2
  /\ basic_count two_dedicated = 0
  /\ facility_count two_dedicated < 2
  /\ __calculate_l2_nstype two_dedicated false = Ok (Some L2STS)
  /\ __calculate_l2_nstype two_dedicated false <> Ok (Some L2PTP).
Proof.
  repeat split; try reflexivity; try (cbv; lia).
  discriminate.
Qed.

(** ** C5: the resolver raises exactly beyond two sites *)

(** C5: the resolver raises if and only if the interfaces span more than two
    distinct sites; with at most two sites it returns a type. *)
Theorem calculate_l2_nstype_raises_iff (interfaces : list Interface)
    (ero_enabled : bool) :
  (raises (__calculate_l2_nstype interfaces ero_enabled)
   <-> 2 < distinct_sites interfaces)
  /\ (distinct_sites interfaces <= 2 <->
      exists t, __calculate_l2_nstype interfaces ero_enabled = Ok (Some t)).
Proof.
  rewrite calculate_l2_nstype_spec.
  destruct (distinct_sites interfaces <=? 1) eqn:E1.
  - apply Nat.leb_le in E1. split; split.
    + intros [e He]. discriminate.
    + lia.
    + intros _. now exists L2Bridge.
    + lia.
  - apply Nat.leb_gt in E1.
    destruct (distinct_sites interfaces =? 2) eqn:E2.
    + apply Nat.eqb_eq in E2. split; split.
      * intros [e He].
        destruct (((facility_count interfaces =? 1) || ero_enabled)
                  && (basic_count interfaces =? 0)); discriminate.
      * lia.
      * intros _.
        destruct (((facility_count interfaces =? 1) || ero_enabled)
                  && (basic_count interfaces =? 0)); eauto.
      * lia.
    + apply Nat.eqb_neq in E2. split; split.
      * lia.
      * intros _. eexists. reflexivity.
      * lia.
      * intros [t Ht]. discriminate.
Qed.

(** ** Dictionaries *)

Lemma dict_get_set_same (V : Type) (k : string) (v : V) (d : PyDict.t V) :
  PyDict.get k (PyDict.set k v d) = Some v.
Proof.
  induction d as [|[k' v'] r IH]; simpl.
  - now rewrite String.eqb_refl.
  - destruct (String.eqb k k') eqn:E; simpl.
    + now rewrite String.eqb_refl.
    + now rewrite E.
Qed.

Lemma dict_get_set_other (V : Type) (k k' : string) (v : V)
    (d : PyDict.t V) :
  k <> k' -> PyDict.get k (PyDict.set k' v d) = PyDict.get k d.
Proof.
  intros Hne. induction d as [|[k0 v0] r IH]; simpl.
  - apply String.eqb_neq in Hne. now rewrite Hne.
  - destruct (String.eqb k' k0) eqn:E; simpl.
    + apply String.eqb_eq in E. subst k0.
      apply String.eqb_neq in Hne. now rewrite Hne.
    + now rewrite IH.
Qed.

(** ** C3: the L2STS validator collects every violation *)

Lemma count_nodes_per_site_get (site : string) (interfaces : list Interface)
    (acc : PyDict.t nat) :
  PyDict.get site (count_nodes_per_site interfaces acc) =
  match PyDict.get site acc with
  | Some n => Some (n + interfaces_at site interfaces)
  | None =>
      if existsb (fun j => String.eqb (node_site (if_node j)) site) interfaces
      then Some (interfaces_at site interfaces)
      else None
  end.
Proof.
  revert acc. unfold interfaces_at.
  induction interfaces as [|i r IH]; intros acc.
  - simpl. destruct (PyDict.get site acc); [f_equal; lia | reflexivity].
  - cbn [count_nodes_per_site filter existsb].
    set (st := node_site (if_node i)).
    set (nps := if PyDict.mem st acc then acc else PyDict.set st 0 acc).
    assert (Hst : PyDict.get st nps
                  = Some (match PyDict.get st acc with
                          | Some n => n | None => 0 end)).
    { unfold nps, PyDict.mem. destruct (PyDict.get st acc) eqn:E; auto.
      apply dict_get_set_same. }
    assert (Hother : st <> site -> PyDict.get site nps = PyDict.get site acc).
    { intros Hne. unfold nps. destruct (PyDict.mem st acc); auto.
      apply dict_get_set_other. congruence. }
    assert (Hat : at_site site i
                  = negb (node_is_facility (if_node i)) && String.eqb st site)
      by reflexivity.
    rewrite Hat.
    destruct (node_is_facility (if_node i)) eqn:Ef;
      destruct (String.eqb st site) eqn:Es; cbn [negb andb orb].
    + rewrite IH. apply String.eqb_eq in Es. rewrite <- Es, Hst.
      destruct (PyDict.get st acc); reflexivity.
    + rewrite IH. apply String.eqb_neq in Es. now rewrite Hother.
    + rewrite Hst, IH. apply String.eqb_eq in Es.
      rewrite <- Es, dict_get_set_same.
      destruct (PyDict.get st acc); cbn [List.length]; f_equal; lia.
    + rewrite Hst, IH. apply String.eqb_neq in Es.
      rewrite dict_get_set_other by congruence. now rewrite Hother.
Qed.

Lemma nodes_at_le (site : string) (interfaces : list Interface) :
  nodes_at site interfaces <= interfaces_at site interfaces.
Proof.
  unfold nodes_at, interfaces_at.
  rewrite <- (length_map if_node (filter (at_site site) interfaces)).
  apply NoDup_incl_length; [apply NoDup_nodup|].
  intros x Hx. now apply nodup_In in Hx.
Qed.

Lemma check_hosts_collects (nps : PyDict.t nat) (interfaces : list Interface) :
  (forall i, In i interfaces -> is_basic i = true ->
             PyDict.get (node_site (if_node i)) nps <> None) ->
  forall hosts el, exists el',
    check_hosts nps interfaces hosts el = Ok (el ++ el')%list
    /\ (forall i, In i interfaces -> crowded nps i = true ->
                  node_host (if_node i) = None ->
                  In (UnboundNode (node_name (if_node i))) el')
    /\ (forall i h, In i interfaces -> crowded nps i = true ->
                    node_host (if_node i) = Some h -> In h hosts ->
                    In (SharedHost h) el')
    /\ (forall l1 i l2 j l3 h,
          interfaces = (l1 ++ i :: l2 ++ j :: l3)%list ->
          crowded nps i = true -> crowded nps j = true ->
          node_host (if_node i) = Some h -> node_host (if_node j) = Some h ->
          In (SharedHost h) el').
Proof.
  induction interfaces as [|x r IH]; intros Hkeys hosts el.
  - exists []. rewrite app_nil_r. repeat split; try (intros; contradiction).
    intros [|? ?] ? ? ? ? ? H; discriminate H.
  - assert (Hr : forall i, In i r -> is_basic i = true ->
                           PyDict.get (node_site (if_node i)) nps <> None)
      by (intros; apply Hkeys; simpl; auto).
    specialize (IH Hr).
    assert (Hskip : crowded nps x = false ->
              forall el0, check_hosts nps (x :: r) hosts el0
                          = check_hosts nps r hosts el0).
    { unfold crowded. intros Hc el0. simpl.
      destruct (is_basic x) eqn:Eb; [|reflexivity].
      destruct (PyDict.get (node_site (if_node x)) nps) eqn:Eg.
      - simpl in Hc. now rewrite Hc.
      - exfalso. apply (Hkeys x); simpl; auto. }
    destruct (crowded nps x) eqn:Ec.
    + assert (Hx := Ec). unfold crowded in Hx.
      apply andb_true_iff in Hx. destruct Hx as [Eb Hn].
      destruct (PyDict.get (node_site (if_node x)) nps) as [n|] eqn:Eg;
        [|discriminate].
      destruct (node_host (if_node x)) as [h|] eqn:Eh.
      * destruct (set_mem string_dec h hosts) eqn:Em.
        -- destruct (IH hosts (el ++ [SharedHost h])%list)
             as (el' & He & H1 & H2 & H3).
           exists (SharedHost h :: el'). split; [|split; [|split]].
           ++ simpl. rewrite Eb, Eg, Hn, Eh, Em, He.
              now rewrite <- app_assoc.
           ++ intros i [<-|Hi] Hc Hh; [congruence|]. right. eauto.
           ++ intros i h0 [<-|Hi] Hc Hh Hin.
              ** left. congruence.
              ** right. eauto.
           ++ intros l1 i l2 j l3 h0 Hl Hci Hcj Hhi Hhj.
              destruct l1 as [|y l1]; simpl in Hl; inversion Hl; subst.
              ** assert (h0 = h) by congruence. subst h0.
                 right. apply (H2 j h); auto.
                 --- apply in_or_app. right. simpl. auto.
                 --- now apply set_mem_correct1 in Em.
              ** right. eapply H3; eauto.
        -- destruct (IH (set_add string_dec h hosts) el)
             as (el' & He & H1 & H2 & H3).
           exists el'. split; [|split; [|split]].
           ++ simpl. rewrite Eb, Eg, Hn, Eh, Em. exact He.
           ++ intros i [<-|Hi] Hc Hh; [congruence|]. eauto.
           ++ intros i h0 [<-|Hi] Hc Hh Hin.
              ** exfalso. assert (h0 = h) by congruence. subst h0.
                 apply (set_mem_complete1 string_dec) in Em. contradiction.
              ** apply (H2 i h0); auto. apply set_add_intro1. exact Hin.
           ++ intros l1 i l2 j l3 h0 Hl Hci Hcj Hhi Hhj.
              destruct l1 as [|y l1]; simpl in Hl; inversion Hl; subst.
              ** assert (h0 = h) by congruence. subst h0.
                 apply (H2 j h); auto.
                 --- apply in_or_app. right. simpl. auto.
                 --- apply set_add_intro2. reflexivity.
              ** eapply H3; eauto.
      * destruct (IH hosts (el ++ [UnboundNode (node_name (if_node x))])%list)
          as (el' & He & H1 & H2 & H3).
        exists (UnboundNode (node_name (if_node x)) :: el').
        split; [|split; [|split]].
        -- simpl. rewrite Eb, Eg, Hn, Eh, He. now rewrite <- app_assoc.
        -- intros i [<-|Hi] Hc Hh; [now left|]. right. eauto.
        -- intros i h0 [<-|Hi] Hc Hh Hin; [congruence|]. right. eauto.
        -- intros l1 i l2 j l3 h0 Hl Hci Hcj Hhi Hhj.
           destruct l1 as [|y l1]; simpl in Hl; inversion Hl; subst.
           ++ congruence.
           ++ right. eapply H3; eauto.
    + destruct (IH hosts el) as (el' & He & H1 & H2 & H3).
      exists el'. split; [|split; [|split]].
      * rewrite Hskip by reflexivity. exact He.
      * intros i [<-|Hi] Hc Hh; [congruence|]. eauto.
      * intros i h0 [<-|Hi] Hc Hh Hin; [congruence|]. eauto.
      * intros l1 i l2 j l3 h0 Hl Hci Hcj Hhi Hhj.
        destruct l1 as [|y l1]; simpl in Hl; inversion Hl; subst.
        -- congruence.
        -- eapply H3; eauto.
Qed.

Lemma count_nodes_per_site_of_member (interfaces : list Interface)
    (i : Interface) :
  In i interfaces ->
  PyDict.get (node_site (if_node i)) (count_nodes_per_site interfaces [])
  = Some (interfaces_at (node_site (if_node i)) interfaces).
Proof.
  intros Hi. rewrite count_nodes_per_site_get. simpl.
  replace (existsb _ interfaces) with true; [reflexivity|].
  symmetry. apply existsb_exists. exists i. split; [exact Hi|].
  apply String.eqb_refl.
Qed.

Lemma needs_host_pin_crowded (interfaces : list Interface) (i : Interface) :
  In i interfaces -> needs_host_pin interfaces i ->
  crowded (count_nodes_per_site interfaces []) i = true.
Proof.
  intros Hi [Hb Hn]. unfold crowded.
  rewrite Hb, (count_nodes_per_site_of_member interfaces i Hi). simpl.
  apply Nat.ltb_lt.
  pose proof (nodes_at_le (node_site (if_node i)) interfaces). lia.
Qed.

Lemma two_nodes_at (interfaces : list Interface) (a b : Interface) :
  In a interfaces -> In b interfaces ->
  node_is_facility (if_node a) = false ->
  node_is_facility (if_node b) = false ->
  if_node a <> if_node b ->
  node_site (if_node a) = node_site (if_node b) ->
  1 < nodes_at (node_site (if_node a)) interfaces.
Proof.
  intros Ha Hb Fa Fb Hne Hsite. unfold nodes_at.
  set (l := nodup Node_eq_dec
              (map if_node
                 (filter (at_site (node_site (if_node a))) interfaces))).
  assert (Hincl : incl [if_node a; if_node b] l).
  { intros x [<-|[<-|[]]]; apply nodup_In, in_map, filter_In;
      (split; [assumption|]); unfold at_site.
    - now rewrite Fa, String.eqb_refl.
    - rewrite Fb, <- Hsite. now rewrite String.eqb_refl. }
  apply NoDup_incl_length in Hincl; [exact Hincl|].
  constructor; [|constructor; [intros []|constructor]].
  intros [H|[]]. congruence.
Qed.

(** C3: with more than two interfaces the L2STS validator reports, in one
    exception, the site-count violation (if any) and one host violation for
    every NIC_Basic interface that needs a host pin and has none, and for
    every later one pinned to a host already taken; it succeeds only when
    that list is empty.  In particular two NIC_Basic interfaces on two
    different unpinned nodes at one site make it fail with a host-pin
    violation for both. *)
Theorem validate_l2sts_collects_violations (interfaces : list Interface) :
  2 < List.length interfaces ->
  exists l,
    __validate_nstype (Some L2STS) interfaces
    = match l with [] => Ok true | _ => Raise (Violations l) end
    /\ (distinct_sites interfaces <> 2 ->
        In (NotTwoSites (distinct_sites interfaces) (sites_of interfaces)) l)
    /\ (forall i, In i interfaces -> needs_host_pin interfaces i ->
                  node_host (if_node i) = None ->
                  In (UnboundNode (node_name (if_node i))) l)
    /\ (forall l1 i l2 j l3 h,
          interfaces = (l1 ++ i :: l2 ++ j :: l3)%list ->
          needs_host_pin interfaces i -> needs_host_pin interfaces j ->
          node_host (if_node i) = Some h -> node_host (if_node j) = Some h ->
          In (SharedHost h) l)
    /\ (forall a b,
          In a interfaces -> In b interfaces ->
          is_basic a = true -> is_basic b = true ->
          node_is_facility (if_node a) = false ->
          node_is_facility (if_node b) = false ->
          if_node a <> if_node b ->
          node_site (if_node a) = node_site (if_node b) ->
          node_host (if_node a) = None -> node_host (if_node b) = None ->
          __validate_nstype (Some L2STS) interfaces = Raise (Violations l)
          /\ In (UnboundNode (node_name (if_node a))) l
          /\ In (UnboundNode (node_name (if_node b))) l).
Proof.
  intros Hlen.
  set (nps := count_nodes_per_site interfaces []).
  set (el := if negb (List.length (sites_of interfaces) =? 2)
             then [NotTwoSites (List.length (sites_of interfaces))
                     (sites_of interfaces)]
             else []).
  assert (Hkeys : forall i, In i interfaces -> is_basic i = true ->
                            PyDict.get (node_site (if_node i)) nps <> None).
  { intros i Hi _. unfold nps.
    now rewrite (count_nodes_per_site_of_member interfaces i Hi). }
  destruct (check_hosts_collects nps interfaces Hkeys [] el)
    as (el' & He & H1 & H2 & H3).
  assert (Hun : forall i, In i interfaces -> needs_host_pin interfaces i ->
                          node_host (if_node i) = None ->
                          In (UnboundNode (node_name (if_node i)))
                             (el ++ el')%list).
  { intros i Hi Hp Hh. apply in_or_app. right. apply H1; auto.
    now apply needs_host_pin_crowded. }
  assert (Hv : __validate_nstype (Some L2STS) interfaces
               = match (el ++ el')%list with
                 | [] => Ok true
                 | _ => Raise (Violations (el ++ el')%list)
                 end).
  { unfold __validate_nstype.
    replace (List.length interfaces =? 0) with false
      by (symmetry; apply Nat.eqb_neq; lia).
    replace (2 <? List.length interfaces) with true
      by (symmetry; apply Nat.ltb_lt; lia).
    fold nps. fold el. rewrite He. simpl.
    destruct (el ++ el')%list; reflexivity. }
  exists (el ++ el')%list. split; [exact Hv|]. split; [|split; [|split]].
  - intros Hs. apply in_or_app. left. unfold el.
    rewrite sites_of_length.
    replace (distinct_sites interfaces =? 2) with false
      by (symmetry; now apply Nat.eqb_neq).
    simpl. now left.
  - exact Hun.
  - intros l1 i l2 j l3 h Hl Hpi Hpj Hhi Hhj. apply in_or_app. right.
    apply (H3 l1 i l2 j l3 h Hl); auto;
      apply needs_host_pin_crowded; auto; subst interfaces;
      apply in_or_app; right; simpl; auto.
    right. apply in_or_app. right. simpl. auto.
  - intros a b Ha Hb Ba Bb Fa Fb Hne Hsite Hha Hhb.
    assert (Hpa : needs_host_pin interfaces a)
      by (split; [exact Ba | now apply (two_nodes_at interfaces a b)]).
    assert (Hpb : needs_host_pin interfaces b).
    { split; [exact Bb|]. rewrite <- Hsite.
      now apply (two_nodes_at interfaces a b). }
    pose proof (Hun a Ha Hpa Hha) as Ina.
    pose proof (Hun b Hb Hpb Hhb) as Inb.
    split; [|split]; auto.
    rewrite Hv. destruct (el ++ el')%list; [contradiction|reflexivity].
Qed.

Lemma validate_l2sts_collects_violations_witness :
  2 < List.length scenario_abc
  /\ __validate_nstype (Some L2STS) scenario_abc
     = Raise (Violations [UnboundNode "A"; UnboundNode "B"])
  /\ exists l,
       __validate_nstype (Some L2STS) scenario_abc = Raise (Violations l)
       /\ In (UnboundNode "A") l /\ In (UnboundNode "B") l.
Proof.
  split; [exact (le_n 3)|]. split; [reflexivity|].
  destruct (validate_l2sts_collects_violations scenario_abc (le_n 3))
    as (l & _ & _ & _ & _ & Hscen).
  exists l.
  apply (Hscen (basic_interface "A" "site1") (basic_interface "B" "site1"));
    try reflexivity; simpl; auto; discriminate.
Defined.

(** ** C8: types the validator does not know *)

(** C8, as the code has it: for a type other than L2Bridge, L2PTP and L2STS
    the validator raises "Unknown network type" on every non-empty interface
    list, and accepts the empty interface list like for any other type. *)
Theorem validate_unknown_type (type : option ServiceType)
    (interfaces : list Interface) :
  type <> Some L2Bridge -> type <> Some L2PTP -> type <> Some L2STS ->
  (interfaces <> [] ->
   __validate_nstype type interfaces = Raise (UnknownNetworkType type))
  /\ __validate_nstype type [] = Ok true.
Proof.
  intros Hb Hp Hs. split; [|reflexivity].
  intros Hne. unfold __validate_nstype.
  destruct interfaces as [|i r]; [contradiction|]. simpl.
  destruct type as [[]|]; try reflexivity; contradiction.
Qed.

Lemma validate_unknown_type_witness :
  __validate_nstype (Some PortMirror) two_dedicated
  = Raise (UnknownNetworkType (Some PortMirror))
  /\ __validate_nstype (Some PortMirror) [] = Ok true.
Proof.
  destruct (validate_unknown_type (Some PortMirror) two_dedicated)
    as [H1 H2]; try discriminate.
  split; [apply H1; discriminate | exact H2].
Defined.

(** C8 as stated fails: with no interface the validator accepts a type it
    does not know instead of raising. *)
Lemma validate_unknown_type_empty_accepts :
  __validate_nstype (Some PortMirror) [] = Ok true
  /\ ~ raises (__validate_nstype (Some PortMirror) []).
Proof.
  split; [reflexivity|]. intros [e He]. discriminate He.
Qed.

(** ** The dotted text form obeys the laws of [ipaddress] *)

Example dotted_text_of_ten :
  Dotted.address_text (ten 3) = "10.0.0.3"
  /\ Dotted.network_text (ten_net 30) = "10.0.0.0/30"
  /\ Dotted.parse_network "10.0.0.0/30" = Some (ten_net 30).
Proof. vm_compute. repeat split. Qed.

Lemma undec_dec (z : Z) : Dotted.undec (Dotted.dec z) = Some z.
Proof.
  unfold Dotted.undec, Dotted.dec. rewrite NilZero.isi.
  - simpl. now rewrite DecimalZ.of_to.
  - destruct z; simpl; try discriminate.
    intros H. inversion H as [H1]. now apply Unsigned.to_uint_nonnil in H1.
  - destruct z; simpl; try discriminate.
    intros H. inversion H as [H1]. now apply Unsigned.to_uint_nonnil in H1.
Qed.

Lemma has_char_uint (c : ascii) (d : uint) :
  separator c -> Dotted.has_char c (NilEmpty.string_of_uint d) = false.
Proof.
  intros [->|[->| ->]]; induction d; simpl; auto.
Qed.

Lemma has_char_dec (c : ascii) (z : Z) :
  separator c -> Dotted.has_char c (Dotted.dec z) = false.
Proof.
  intros Hc. unfold Dotted.dec.
  assert (Hu : forall d, Dotted.has_char c (NilZero.string_of_uint d) = false).
  { intros d. destruct d; try apply (has_char_uint c _ Hc).
    destruct Hc as [->|[->| ->]]; reflexivity. }
  destruct (Z.to_int z) as [d|d]; simpl; [apply Hu|].
  rewrite Hu. destruct Hc as [->|[->| ->]]; reflexivity.
Qed.

Lemma has_char_app (c : ascii) (s t : string) :
  Dotted.has_char c (s ++ t)
  = Dotted.has_char c s || Dotted.has_char c t.
Proof.
  induction s as [|x r IH]; simpl; [reflexivity|].
  now rewrite IH, orb_assoc.
Qed.

Lemma fields_nonempty (sep : ascii) (s : string) : Dotted.fields sep s <> [].
Proof.
  destruct s as [|c r]; simpl; [discriminate|].
  destruct (Ascii.eqb c sep); [discriminate|].
  destruct (Dotted.fields sep r); discriminate.
Qed.

Lemma fields_single (sep : ascii) (s : string) :
  Dotted.has_char sep s = false -> Dotted.fields sep s = [s].
Proof.
  induction s as [|c r IH]; simpl; [reflexivity|].
  intros H. apply orb_false_iff in H. destruct H as [Hc Hr].
  rewrite Hc, (IH Hr). reflexivity.
Qed.

Lemma fields_app (sep : ascii) (s t : string) :
  Dotted.has_char sep s = false ->
  Dotted.fields sep (s ++ String sep t) = s :: Dotted.fields sep t.
Proof.
  induction s as [|c r IH]; simpl.
  - intros _. now rewrite Ascii.eqb_refl.
  - intros H. apply orb_false_iff in H. destruct H as [Hc Hr].
    rewrite Hc, (IH Hr). reflexivity.
Qed.

Lemma undotted_dotted (z : Z) : Dotted.undotted (Dotted.dotted z) = Some z.
Proof.
  unfold Dotted.undotted, Dotted.dotted.
  assert (Hdot : separator ".") by (left; reflexivity).
  cbn [append].
  rewrite !fields_app by (apply has_char_dec; exact Hdot).
  rewrite fields_single by (apply has_char_dec; exact Hdot).
  simpl. rewrite !undec_dec. f_equal.
  pose proof (Z.div_mod z 256 ltac:(lia)).
  pose proof (Z.div_mod (z / 256) 256 ltac:(lia)).
  pose proof (Z.div_mod (z / 256 / 256) 256 ltac:(lia)).
  lia.
Qed.

Lemma has_char_dotted (c : ascii) (z : Z) :
  c = ":"%char \/ c = "/"%char ->
  Dotted.has_char c (Dotted.dotted z) = false.
Proof.
  intros Hc. unfold Dotted.dotted.
  assert (Hs : separator c) by (destruct Hc; [right; left|right; right]; auto).
  cbn [append]. rewrite !has_char_app. cbn [Dotted.has_char].
  rewrite !has_char_app. cbn [Dotted.has_char].
  rewrite !has_char_app. cbn [Dotted.has_char].
  rewrite !(has_char_dec c _ Hs).
  destruct Hc as [->| ->]; reflexivity.
Qed.

Lemma parse_address_text (a : ip_address) :
  Dotted.parse_address (Dotted.address_text a) = Some a.
Proof.
  destruct a as [[] z]; unfold Dotted.address_text; simpl.
  - pose proof (has_char_dotted ":" z (or_introl eq_refl)) as Hc.
    pose proof (undotted_dotted z) as Hu.
    destruct (Dotted.dotted z) as [|c r]; [discriminate Hu|].
    assert (Hne : c <> ":"%char).
    { intros ->. simpl in Hc. discriminate Hc. }
    assert (H : Dotted.parse_address (String c r)
                = option_map
                    (fun z => {| addr_version := IPv4; addr_int := z |})
                    (Dotted.undotted (String c r))).
    { unfold Dotted.parse_address.
      destruct c as [[] [] [] [] [] [] [] []]; try reflexivity.
      contradiction Hne. reflexivity. }
    rewrite H, Hu. reflexivity.
  - now rewrite undotted_dotted.
Qed.

Lemma parse_network_text (n : ip_network) :
  Dotted.parse_network (Dotted.network_text n) = Some n.
Proof.
  unfold Dotted.parse_network, Dotted.network_text.
  cbn [append].
  rewrite fields_app.
  - rewrite fields_single by (apply has_char_dec; right; right; reflexivity).
    rewrite parse_address_text, undec_dec. simpl.
    rewrite Nat2Z.id. now destruct n.
  - unfold Dotted.address_text. destruct (addr_version (network_address n)).
    + apply has_char_dotted. now right.
    + rewrite has_char_app, has_char_dotted by now right. reflexivity.
Qed.

Lemma dotted_api_ok : text_api_ok Dotted.api.
Proof.
  split; [|split]; simpl.
  - apply parse_address_text.
  - apply parse_network_text.
  - intros n H. pose proof (parse_network_text n) as Hp.
    rewrite H in Hp. discriminate Hp.
Qed.

(** ** C9: the metadata blob is read back as written *)

Lemma get_user_data_set (s : NetworkService) (u : PyDict.t json) :
  get_user_data (set_user_data s u) = u.
Proof. reflexivity. Qed.

Lemma get_fablib_data_set (s : NetworkService) (x : PyDict.t json) :
  get_fablib_data (set_fablib_data s x) = JObj x.
Proof.
  unfold get_fablib_data, set_fablib_data. rewrite get_user_data_set.
  now rewrite dict_get_set_same.
Qed.

(** C9: [get_fablib_data] after [set_fablib_data x] returns [x], and the
    other entries of the user data are untouched. *)
Theorem fablib_data_roundtrip (s : NetworkService) (x : PyDict.t json) :
  get_fablib_data (set_fablib_data s x) = JObj x
  /\ forall k, k <> "fablib_data" ->
       PyDict.get k (get_user_data (set_fablib_data s x))
       = PyDict.get k (get_user_data s).
Proof.
  split; [apply get_fablib_data_set|].
  intros k Hk. unfold set_fablib_data. rewrite get_user_data_set.
  now apply dict_get_set_other.
Qed.

(** ** Address allocation *)

Lemma ip_address_eqb_eq (a b : ip_address) :
  ip_address_eqb a b = true <-> a = b.
Proof.
  destruct a as [va za], b as [vb zb]. unfold ip_address_eqb. simpl.
  rewrite andb_true_iff, Z.eqb_eq. split.
  - intros [Hv Hz]. destruct va, vb; try discriminate; congruence.
  - intros H. inversion H. subst. destruct vb; auto.
Qed.

Lemma existsb_ip_In (a : ip_address) (l : list ip_address) :
  existsb (ip_address_eqb a) l = true <-> In a l.
Proof.
  rewrite existsb_exists. split.
  - intros (x & Hx & He). apply ip_address_eqb_eq in He. now subst.
  - intros H. exists a. split; auto. now apply ip_address_eqb_eq.
Qed.

Lemma existsb_ip_not_In (a : ip_address) (l : list ip_address) :
  existsb (ip_address_eqb a) l = false <-> ~ In a l.
Proof.
  rewrite <- existsb_ip_In. destruct (existsb (ip_address_eqb a) l);
    split; intros H; try reflexivity; try discriminate; congruence.
Qed.

Lemma network_iter_addr_at (net : ip_network) :
  network_iter net = map (addr_at net) (seq 0 (num_addresses net)).
Proof. reflexivity. Qed.

(** The loop finds the first free address of the part of the network it is
    given, or none when there is none. *)
Lemma first_free_seq (net : ip_network) (al : list ip_address)
    (start len : nat) :
  match first_free (network_address net) al
          (map (addr_at net) (seq start len)) with
  | Some host =>
      exists k, start <= k < start + len /\ host = addr_at net k
                /\ host <> network_address net /\ ~ In host al
                /\ forall j, start <= j < k ->
                     addr_at net j = network_address net
                     \/ In (addr_at net j) al
  | None =>
      forall k, start <= k < start + len ->
                addr_at net k = network_address net \/ In (addr_at net k) al
  end.
Proof.
  revert start. induction len as [|len IH]; intros start; simpl.
  - intros k Hk. lia.
  - destruct (negb (ip_address_eqb (addr_at net start) (network_address net))
              && negb (existsb (ip_address_eqb (addr_at net start)) al))
      eqn:E.
    + apply andb_true_iff in E. destruct E as [E1 E2].
      apply negb_true_iff in E1, E2.
      exists start. repeat split; try lia.
      * intros H. apply ip_address_eqb_eq in H. congruence.
      * now apply existsb_ip_not_In.
    + assert (Hs : addr_at net start = network_address net
                   \/ In (addr_at net start) al).
      { apply andb_false_iff in E. destruct E as [E|E];
          apply negb_false_iff in E.
        - left. now apply ip_address_eqb_eq.
        - right. now apply existsb_ip_In. }
      specialize (IH (S start)).
      destruct (first_free (network_address net) al
                  (map (addr_at net) (seq (S start) len))) as [host|].
      * destruct IH as (k & Hk & Hh & Hn & Hal & Hj).
        exists k. repeat split; auto; try lia.
        intros j Hjk. destruct (Nat.eq_dec j start) as [->|Hne]; auto.
        apply Hj. lia.
      * intros k Hk. destruct (Nat.eq_dec k start) as [->|Hne]; auto.
        apply IH. lia.
Qed.

Lemma first_free_spec (net : ip_network) (al : list ip_address) :
  match first_free (network_address net) al (network_iter net) with
  | Some host => first_free_address net al host
  | None => exhausted net al
  end.
Proof.
  rewrite network_iter_addr_at.
  pose proof (first_free_seq net al 0 (num_addresses net)) as H.
  destruct (first_free (network_address net) al
              (map (addr_at net) (seq 0 (num_addresses net)))) as [host|].
  - destruct H as (k & Hk & Hh & Hn & Hal & Hj).
    exists k. repeat split; auto; try lia. intros j Hjk. apply Hj. lia.
  - intros k Hk. apply H. lia.
Qed.

Lemma remove_first_In (a x : ip_address) (l : list ip_address) :
  In x (remove_first a l) -> In x l.
Proof.
  induction l as [|y r IH]; simpl; auto.
  destruct (ip_address_eqb a y); simpl; intuition.
Qed.

Lemma remove_first_NoDup (a : ip_address) (l : list ip_address) :
  NoDup l -> NoDup (remove_first a l).
Proof.
  induction 1 as [|y r Hy Hr IH]; simpl; [constructor|].
  destruct (ip_address_eqb a y); auto.
  constructor; auto. intros H. apply Hy. eapply remove_first_In; eauto.
Qed.

Lemma NoDup_snoc (a : ip_address) (l : list ip_address) :
  NoDup l -> ~ In a l -> NoDup (l ++ [a]).
Proof.
  intros Hl Ha. apply NoDup_app; auto.
  - constructor; [intros []|constructor].
  - intros x Hx [<-|[]]. contradiction.
Qed.

Section AllocatorFacts.

Variable api : text_api.
Hypothesis api_ok : text_api_ok api.

Lemma parse_all_texts (al : list ip_address) :
  parse_all (ip_address_of api)
    (map (fun a => JStr (str_address api a)) al) = Some al.
Proof.
  destruct api_ok as [Ha _].
  induction al as [|a r IH]; simpl; [reflexivity|].
  now rewrite Ha, IH.
Qed.

Lemma get_allocated_ips_persisted (s : NetworkService)
    (al : list ip_address) :
  persisted_ips api s al -> get_allocated_ips api s = al.
Proof.
  intros (fd & sub & Hfd & Hsub & Hal).
  unfold get_allocated_ips. rewrite Hfd. simpl. rewrite Hsub. simpl.
  rewrite Hal. simpl. now rewrite parse_all_texts.
Qed.

Lemma is_instantiated_set (s : NetworkService) (fd : PyDict.t json)
    (v : json) :
  get_fablib_data s = JObj fd ->
  is_instantiated (set_fablib_data s (PyDict.set "subnet" v fd))
  = is_instantiated s.
Proof.
  intros Hfd. unfold is_instantiated.
  rewrite (get_fablib_data_set s (PyDict.set "subnet" v fd)).
  rewrite Hfd. simpl. unfold PyDict.mem.
  rewrite dict_get_set_other by discriminate. reflexivity.
Qed.

(** Rewriting the allocated list under ["subnet"] leaves [get_subnet] as it
    was. *)
Lemma get_subnet_set_allocated (s : NetworkService)
    (fd sub : PyDict.t json) (v w : json) :
  get_fablib_data s = JObj fd ->
  PyDict.get "subnet" fd = Some (JObj sub) ->
  PyDict.get "allocated_ips" sub = Some w ->
  get_subnet api
    (set_fablib_data s
       (PyDict.set "subnet" (JObj (PyDict.set "allocated_ips" v sub)) fd))
  = get_subnet api s.
Proof.
  intros Hfd Hsub Hal. unfold get_subnet.
  rewrite (is_instantiated_set s fd _ Hfd).
  destruct (is_instantiated s) as [[|]|e]; try reflexivity.
  change (get_layer (set_fablib_data s _)) with (get_layer s).
  change (sliver_subnet (set_fablib_data s _)) with (sliver_subnet s).
  assert (HL2 :
    match get_fablib_data
            (set_fablib_data s
               (PyDict.set "subnet"
                  (JObj (PyDict.set "allocated_ips" v sub)) fd)) with
    | JObj fd0 =>
        match PyDict.get "subnet" fd0 with
        | Some (JObj sub0) =>
            if truthy (JObj sub0) then
              match PyDict.get "subnet" sub0 with
              | Some v0 =>
                  if truthy v0 then
                    match ip_network_of api v0 with
                    | Some net => SubnetNet net
                    | None => SubnetNone
                    end
                  else SubnetNone
              | None => SubnetNone
              end
            else SubnetNone
        | _ => SubnetNone
        end
    | _ => SubnetNone
    end
    = match get_fablib_data s with
      | JObj fd0 =>
          match PyDict.get "subnet" fd0 with
          | Some (JObj sub0) =>
              if truthy (JObj sub0) then
                match PyDict.get "subnet" sub0 with
                | Some v0 =>
                    if truthy v0 then
                      match ip_network_of api v0 with
                      | Some net => SubnetNet net
                      | None => SubnetNone
                      end
                    else SubnetNone
                | None => SubnetNone
                end
              else SubnetNone
          | _ => SubnetNone
          end
      | _ => SubnetNone
      end).
  { rewrite (get_fablib_data_set s
               (PyDict.set "subnet"
                  (JObj (PyDict.set "allocated_ips" v sub)) fd)).
    rewrite Hfd, dict_get_set_same, Hsub.
    rewrite dict_get_set_other by discriminate.
    assert (T1 : truthy (JObj (PyDict.set "allocated_ips" v sub)) = true).
    { destruct (PyDict.set "allocated_ips" v sub) eqn:E; [|reflexivity].
      destruct sub as [|[k0 v0] r]; [discriminate E|].
      cbn [PyDict.set] in E.
      destruct (String.eqb "allocated_ips" k0); discriminate E. }
    assert (T2 : truthy (JObj sub) = true).
    { destruct sub; [discriminate Hal|reflexivity]. }
    now rewrite T1, T2. }
  destruct (get_layer s) as [[|]|]; auto.
Qed.

Lemma subnet_entry_persisted (fd sub : PyDict.t json) :
  PyDict.get "subnet" fd = Some (JObj sub) ->
  subnet_entry (JObj fd) = Ok (fd, JObj sub).
Proof.
  intros Hsub. unfold subnet_entry, PyDict.mem. rewrite Hsub. simpl.
  now rewrite Hsub.
Qed.

Lemma persisted_after_set (s : NetworkService) (fd sub : PyDict.t json)
    (l : list ip_address) :
  persisted_ips api
    (set_fablib_data s
       (PyDict.set "subnet"
          (JObj (PyDict.set "allocated_ips" (address_texts api l) sub)) fd))
    l.
Proof.
  eexists. eexists. split; [|split].
  - apply get_fablib_data_set.
  - apply dict_get_set_same.
  - apply dict_get_set_same.
Qed.

Lemma set_allocated_ip_persisted (s : NetworkService)
    (al : list ip_address) (a : ip_address) :
  persisted_ips api s al ->
  exists s1,
    set_allocated_ip api s (PyAddr a) = Ok s1
    /\ persisted_ips api s1 (al ++ [a])
    /\ get_subnet api s1 = get_subnet api s.
Proof.
  intros (fd & sub & Hfd & Hsub & Hal).
  unfold set_allocated_ip. rewrite Hfd, (subnet_entry_persisted fd sub Hsub).
  simpl. rewrite Hal. simpl.
  replace (JList (map (fun a0 => JStr (str_address api a0)) al
                  ++ [JStr (str_address api a)]))
    with (address_texts api (al ++ [a]))
    by (unfold address_texts; now rewrite map_app).
  eexists. split; [reflexivity|]. split.
  - apply persisted_after_set.
  - eapply get_subnet_set_allocated; eauto.
Qed.

Lemma set_allocated_ips_persisted (s : NetworkService)
    (al l : list ip_address) :
  persisted_ips api s al ->
  exists s1,
    set_allocated_ips api s l = Ok s1
    /\ persisted_ips api s1 l
    /\ get_subnet api s1 = get_subnet api s.
Proof.
  intros (fd & sub & Hfd & Hsub & Hal).
  unfold set_allocated_ips.
  rewrite Hfd, (subnet_entry_persisted fd sub Hsub). simpl.
  eexists. split; [reflexivity|]. split.
  - apply persisted_after_set.
  - eapply get_subnet_set_allocated; eauto.
Qed.

End AllocatorFacts.

Lemma addr_at_inj (net : ip_network) (j k : nat) :
  addr_at net j = addr_at net k -> j = k.
Proof.
  unfold addr_at. intros H. inversion H. lia.
Qed.

Lemma network_address_addr_at (net : ip_network) :
  network_address net = addr_at net 0.
Proof.
  unfold network_address, addr_at. f_equal. simpl. lia.
Qed.

Lemma In_addr_at_seq (net : ip_network) (k start len : nat) :
  In (addr_at net k) (map (addr_at net) (seq start len))
  <-> start <= k < start + len.
Proof.
  rewrite in_map_iff. split.
  - intros (j & Hj & Hin). apply addr_at_inj in Hj. subst j.
    now apply in_seq in Hin.
  - intros H. exists k. split; auto. now apply in_seq.
Qed.

(** With [10.0.0.1 .. 10.0.0.m] taken and room left, the next address is
    the first free one. *)
Lemma first_free_after_prefix (net : ip_network) (m : nat)
    (host : ip_address) :
  S m < num_addresses net ->
  first_free_address net (map (addr_at net) (seq 1 m)) host ->
  host = addr_at net (S m).
Proof.
  intros Hm (k & Hk & -> & Hn & Hal & Hj). f_equal.
  rewrite network_address_addr_at in Hn.
  rewrite In_addr_at_seq in Hal.
  assert (k <> 0) by (intros ->; now apply Hn).
  destruct (Nat.lt_ge_cases (S m) k) as [Hlt|Hge]; [|lia].
  exfalso. destruct (Hj (S m) Hlt) as [H0|H0].
  - rewrite network_address_addr_at in H0. apply addr_at_inj in H0. lia.
  - apply In_addr_at_seq in H0. lia.
Qed.

Lemma not_exhausted_after_prefix (net : ip_network) (m : nat) :
  S m < num_addresses net ->
  ~ exhausted net (map (addr_at net) (seq 1 m)).
Proof.
  intros Hm Hex. destruct (Hex (S m) Hm) as [H0|H0].
  - rewrite network_address_addr_at in H0. apply addr_at_inj in H0. lia.
  - apply In_addr_at_seq in H0. lia.
Qed.

Lemma allocate_ip_auto (api : text_api) (s : NetworkService)
    (net : ip_network) (al : list ip_address) :
  text_api_ok api ->
  get_subnet api s = SubnetNet net -> persisted_ips api s al ->
  (exhausted net al /\ allocate_ip api s PyNone = Ok (PyNone, s))
  \/ (exists host s1,
        first_free_address net al host
        /\ allocate_ip api s PyNone = Ok (PyAddr host, s1)
        /\ persisted_ips api s1 (al ++ [host])
        /\ get_subnet api s1 = SubnetNet net).
Proof.
  intros Hok Hnet Hp. unfold allocate_ip. simpl.
  rewrite Hnet, (get_allocated_ips_persisted api Hok s al Hp).
  pose proof (first_free_spec net al) as Hff.
  destruct (first_free (network_address net) al (network_iter net))
    as [host|].
  - right.
    destruct (set_allocated_ip_persisted api s al host Hp)
      as (s1 & Hs1 & Hp1 & Hsub1).
    exists host, s1. rewrite Hs1. simpl. repeat split; auto. congruence.
  - left. split; auto.
Qed.

Lemma allocate_n_from_prefix (api : text_api) (net : ip_network) (n : nat) :
  text_api_ok api ->
  forall (s : NetworkService) (m : nat),
    get_subnet api s = SubnetNet net ->
    persisted_ips api s (map (addr_at net) (seq 1 m)) ->
    m + n < num_addresses net ->
    exists s1,
      allocate_n api s n
      = Ok (map (fun k => PyAddr (addr_at net k)) (seq (S m) n), s1)
      /\ persisted_ips api s1 (map (addr_at net) (seq 1 (m + n)))
      /\ get_subnet api s1 = SubnetNet net.
Proof.
  intros Hok. induction n as [|n IH]; intros s m Hnet Hp Hm.
  - exists s. rewrite Nat.add_0_r. simpl. auto.
  - destruct (allocate_ip_auto api s net _ Hok Hnet Hp)
      as [[Hex _]|(host & s1 & Hff & Ha & Hp1 & Hnet1)].
    + exfalso. apply (not_exhausted_after_prefix net m); [lia|exact Hex].
    + apply first_free_after_prefix in Hff; [|lia]. subst host.
      assert (Hp1' : persisted_ips api s1 (map (addr_at net) (seq 1 (S m)))).
      { rewrite seq_S, map_app. exact Hp1. }
      destruct (IH s1 (S m) Hnet1 Hp1') as (s2 & Hn & Hp2 & Hnet2); [lia|].
      exists s2. cbn [allocate_n]. rewrite Ha. simpl. rewrite Hn. simpl.
      replace (m + S n) with (S m + n) by lia. auto.
Qed.

(** ** C2: automatic allocation returns the first free address *)

(** C2: called with no requested address, [allocate_ip] returns [None]
    without raising when the subnet is not a network or every address other
    than the network address is allocated; otherwise it returns the first
    address of the subnet in ascending order that is neither the network
    address nor allocated, which was not in the allocated set, and appends
    it to the persisted set.  Starting from an empty allocated set, [n]
    calls on a subnet with more than [n] addresses return the [n] addresses
    that follow the network address, in that order. *)
Theorem allocate_ip_first_free (api : text_api) (s : NetworkService) :
  text_api_ok api ->
  ((forall net, get_subnet api s <> SubnetNet net) ->
   allocate_ip api s PyNone = Ok (PyNone, s))
  /\ (forall net al,
        get_subnet api s = SubnetNet net -> persisted_ips api s al ->
        (exhausted net al /\ allocate_ip api s PyNone = Ok (PyNone, s))
        \/ (exists host s1,
              first_free_address net al host /\ ~ In host al
              /\ allocate_ip api s PyNone = Ok (PyAddr host, s1)
              /\ persisted_ips api s1 (al ++ [host])
              /\ get_allocated_ips api s1 = (al ++ [host])%list))
  /\ (forall net n,
        get_subnet api s = SubnetNet net -> persisted_ips api s [] ->
        n < num_addresses net ->
        exists s1,
          allocate_n api s n
          = Ok (map (fun k => PyAddr (addr_at net k)) (seq 1 n), s1)
          /\ get_allocated_ips api s1 = map (addr_at net) (seq 1 n)
          /\ NoDup (map (addr_at net) (seq 1 n))).
Proof.
  intros Hok. split; [|split].
  - intros Hnone. unfold allocate_ip. simpl.
    destruct (get_subnet api s) as [net| |p]; try reflexivity.
    now destruct (Hnone net).
  - intros net al Hnet Hp.
    destruct (allocate_ip_auto api s net al Hok Hnet Hp)
      as [H|(host & s1 & Hff & Ha & Hp1 & Hnet1)]; [now left|].
    right. exists host, s1. repeat split; auto.
    + destruct Hff as (k & _ & _ & _ & Hal & _). exact Hal.
    + now apply get_allocated_ips_persisted.
  - intros net n Hnet Hp Hn.
    destruct (allocate_n_from_prefix api net n Hok s 0 Hnet Hp)
      as (s1 & Ha & Hp1 & _); [lia|].
    exists s1. repeat split; auto.
    + now apply get_allocated_ips_persisted.
    + apply Injective_map_NoDup; [|apply seq_NoDup].
      intros j k. apply addr_at_inj.
Qed.

Lemma allocate_ip_first_free_witness :
  get_subnet Dotted.api (service_with_subnet (ten_net 29))
  = SubnetNet (ten_net 29)
  /\ exists s1,
       allocate_n Dotted.api (service_with_subnet (ten_net 29)) 3
       = Ok ([PyAddr (ten 1); PyAddr (ten 2); PyAddr (ten 3)], s1)
       /\ get_allocated_ips Dotted.api s1 = [ten 1; ten 2; ten 3].
Proof.
  split; [vm_compute; reflexivity|].
  destruct (allocate_ip_first_free Dotted.api
              (service_with_subnet (ten_net 29)) dotted_api_ok)
    as (_ & _ & Hn).
  destruct (Hn (ten_net 29) 3) as (s1 & Ha & Hg & _).
  - vm_compute. reflexivity.
  - eexists. eexists. vm_compute. repeat split.
  - vm_compute. lia.
  - exists s1. split; [exact Ha | exact Hg].
Defined.

(** ** C6: what holds of the allocated set after any calls *)

Lemma is_instantiated_of_dict (s : NetworkService) (fd : PyDict.t json) :
  get_fablib_data s = JObj fd ->
  is_instantiated s
  = Ok (match PyDict.get "instantiated" fd with
        | Some (JStr t) => String.eqb t "True"
        | _ => false
        end).
Proof.
  intros Hfd. unfold is_instantiated. rewrite Hfd. simpl. unfold PyDict.mem.
  destruct (PyDict.get "instantiated" fd); reflexivity.
Qed.

Lemma subnet_entry_inv (j : json) (fd1 : PyDict.t json) (sub : json) :
  subnet_entry j = Ok (fd1, sub) ->
  exists fd, j = JObj fd
             /\ PyDict.get "instantiated" fd1 = PyDict.get "instantiated" fd
             /\ PyDict.get "subnet" fd1 = Some sub.
Proof.
  destruct j as [| | | | |fd]; try discriminate. unfold subnet_entry.
  intros H. exists fd. split; [reflexivity|].
  unfold PyDict.mem in H.
  destruct (PyDict.get "subnet" fd) as [v|] eqn:E.
  - simpl in H. rewrite E in H. inversion H. subst. auto.
  - simpl in H. rewrite dict_get_set_same in H. inversion H. subst.
    split; [|apply dict_get_set_same].
    apply dict_get_set_other. discriminate.
Qed.

Lemma set_subnet_persisted (api : text_api) (s s1 : NetworkService)
    (net : ip_network) :
  set_subnet api s net = Ok s1 -> persisted_ips api s1 [].
Proof.
  unfold set_subnet.
  destruct (subnet_entry (get_fablib_data s)) as [[fd1 sub]|e];
    [|discriminate].
  simpl. destruct sub; try discriminate. intros H. inversion H. subst s1.
  eexists. eexists. split; [apply get_fablib_data_set|].
  split; apply dict_get_set_same.
Qed.

Lemma set_subnet_get_subnet (api : text_api) (s s1 : NetworkService)
    (net : ip_network) :
  text_api_ok api -> set_subnet api s net = Ok s1 ->
  is_instantiated s = Ok true -> get_layer s <> Some L3 ->
  get_subnet api s1 = SubnetNet net.
Proof.
  intros (_ & Hn & Hne) Hset Hinst Hl. unfold set_subnet in Hset.
  destruct (subnet_entry (get_fablib_data s)) as [[fd1 sub]|e] eqn:E;
    [|discriminate].
  destruct (subnet_entry_inv _ _ _ E) as (fd & Hfd & Hi & _).
  simpl in Hset. destruct sub as [| | | | |sub]; try discriminate.
  set (sub2 := PyDict.set "allocated_ips" (JList [])
                 (PyDict.set "subnet" (JStr (str_network api net)) sub)).
  assert (Hs1 : s1 = set_fablib_data s (PyDict.set "subnet" (JObj sub2) fd1))
    by (unfold sub2; congruence).
  clear Hset.
  assert (Hfd1 : get_fablib_data s1
                 = JObj (PyDict.set "subnet" (JObj sub2) fd1)).
  { rewrite Hs1. apply get_fablib_data_set. }
  unfold get_subnet.
  rewrite (is_instantiated_of_dict s1 _ Hfd1).
  rewrite dict_get_set_other by discriminate. rewrite Hi.
  rewrite (is_instantiated_of_dict s fd Hfd) in Hinst.
  injection Hinst as Hi2.
  assert (Hlayer : get_layer s1 = get_layer s) by (rewrite Hs1; reflexivity).
  rewrite Hlayer, Hfd1. cbv beta iota. rewrite dict_get_set_same.
  assert (T : truthy (JObj sub2) = true).
  { unfold sub2.
    destruct (PyDict.set "allocated_ips" (JList [])
                (PyDict.set "subnet" (JStr (str_network api net)) sub))
      eqn:E2; [|reflexivity].
    destruct (PyDict.set "subnet" (JStr (str_network api net)) sub)
      as [|[k0 v0] r]; [discriminate E2|].
    cbn [PyDict.set] in E2.
    destruct (String.eqb "allocated_ips" k0); discriminate E2. }
  rewrite T. unfold sub2.
  rewrite dict_get_set_other by discriminate. rewrite dict_get_set_same.
  assert (T2 : truthy (JStr (str_network api net)) = true).
  { simpl. apply negb_true_iff. apply String.eqb_neq. apply Hne. }
  rewrite T2, Hn.
  destruct (get_layer s) as [[|]|]; rewrite ?Hi2; try reflexivity.
  now destruct Hl.
Qed.

Lemma parse_all_snoc (A B : Type) (f : A -> option B) (l : list A)
    (ys : list B) (x : A) (y : B) :
  parse_all f l = Some ys -> f x = Some y ->
  parse_all f (l ++ [x])%list = Some (ys ++ [y])%list.
Proof.
  revert ys. induction l as [|z r IH]; intros ys Hl Hx; simpl in *.
  - injection Hl as <-. now rewrite Hx.
  - destruct (f z) as [w|]; [|discriminate].
    destruct (parse_all f r) as [ws|]; [|discriminate].
    injection Hl as <-. now rewrite (IH ws eq_refl Hx).
Qed.

Lemma parse_all_In (A B : Type) (f : A -> option B) (l : list A)
    (ys : list B) (y : B) :
  parse_all f l = Some ys -> In y ys ->
  exists x, In x l /\ f x = Some y.
Proof.
  revert ys. induction l as [|z r IH]; intros ys Hl Hy; simpl in *.
  - injection Hl as <-. destruct Hy.
  - destruct (f z) as [w|] eqn:Ez; [|discriminate].
    destruct (parse_all f r) as [ws|]; [|discriminate].
    injection Hl as <-. destruct Hy as [<-|Hy].
    + exists z. auto.
    + destruct (IH ws eq_refl Hy) as (x & Hx & Hf). exists x. auto.
Qed.

Lemma parse_all_NoDup (A B : Type) (f : A -> option B) (l : list A)
    (ys : list B) :
  parse_all f l = Some ys -> NoDup ys -> NoDup l.
Proof.
  revert ys. induction l as [|z r IH]; intros ys Hl Hnd; simpl in *.
  - constructor.
  - destruct (f z) as [w|] eqn:Ez; [|discriminate].
    destruct (parse_all f r) as [ws|] eqn:Er; [|discriminate].
    injection Hl as <-. inversion Hnd as [|? ? Hw Hws]; subst.
    constructor; [|now apply (IH ws)].
    intros Hin. apply Hw. clear IH Hnd Hws Hw.
    revert ws Er. induction r as [|u r IH]; intros ws Er; [destruct Hin|].
    simpl in Er. destruct (f u) as [t|] eqn:Eu; [|discriminate].
    destruct (parse_all f r) as [ts|]; [|discriminate].
    injection Er as <-. destruct Hin as [->|Hin].
    + left. congruence.
    + right. now apply IH.
Qed.

Lemma persisted_ips_listed (api : text_api) (s : NetworkService)
    (al : list ip_address) :
  persisted_ips api s al
  <-> listed s (map (fun a => JStr (str_address api a)) al).
Proof. reflexivity. Qed.

Lemma get_allocated_ips_listed (api : text_api) (s : NetworkService)
    (l : list json) :
  listed s l ->
  get_allocated_ips api s
  = match parse_all (ip_address_of api) l with
    | Some al => al
    | None => []
    end.
Proof.
  intros (fd & sub & Hfd & Hsub & Hal).
  unfold get_allocated_ips. rewrite Hfd. simpl. rewrite Hsub. simpl.
  rewrite Hal. reflexivity.
Qed.

Lemma set_allocated_ip_listed (api : text_api) (s : NetworkService)
    (l : list json) (v : pyval) :
  listed s l ->
  exists s1,
    set_allocated_ip api s v = Ok s1
    /\ listed s1 (l ++ [JStr (py_str api v)])%list
    /\ get_subnet api s1 = get_subnet api s.
Proof.
  intros (fd & sub & Hfd & Hsub & Hal).
  unfold set_allocated_ip. rewrite Hfd, (subnet_entry_persisted fd sub Hsub).
  simpl. rewrite Hal. simpl.
  eexists. split; [reflexivity|]. split.
  - eexists. eexists. split; [|split].
    + apply get_fablib_data_set.
    + apply dict_get_set_same.
    + apply dict_get_set_same.
  - eapply get_subnet_set_allocated; eauto.
Qed.

(** One call on a service that holds an allocated list: it does not raise,
    the subnet stays, and the list changes as the call says. *)
Lemma run_op_listed (api : text_api) (s : NetworkService) (l : list json)
    (op : alloc_op) :
  listed s l ->
  exists s1 l1,
    run_op api s op = Ok s1
    /\ listed s1 l1
    /\ get_subnet api s1 = get_subnet api s
    /\ match op with
       | AllocateIp v =>
           if py_truthy v then
             if py_in v (get_allocated_ips api s) then l1 = l
             else l1 = (l ++ [JStr (py_str api v)])%list
           else
             l1 = l
             \/ exists host,
                  subnet_member api s host
                  /\ ~ In host (get_allocated_ips api s)
                  /\ l1 = (l ++ [JStr (str_address api host)])%list
       | FreeIp addr =>
           exists al1,
             l1 = map (fun a => JStr (str_address api a)) al1
             /\ (forall x, In x al1 -> In x (get_allocated_ips api s))
             /\ (NoDup (get_allocated_ips api s) -> NoDup al1)
       end.
Proof.
  intros Hl. destruct op as [v|addr].
  - unfold run_op, allocate_ip.
    destruct (py_truthy v) eqn:Tv.
    + destruct (py_in v (get_allocated_ips api s)) eqn:Ein; simpl.
      * exists s, l. auto.
      * destruct (set_allocated_ip_listed api s l v Hl)
          as (s1 & Hs1 & Hl1 & Hsub).
        rewrite Hs1. simpl. exists s1, (l ++ [JStr (py_str api v)])%list.
        auto.
    + destruct (get_subnet api s) as [net| |p] eqn:Enet;
        [|exists s, l; simpl; auto..].
      pose proof (first_free_spec net (get_allocated_ips api s)) as Hff.
      destruct (first_free (network_address net) (get_allocated_ips api s)
                  (network_iter net)) as [host|].
      * destruct (set_allocated_ip_listed api s l (PyAddr host) Hl)
          as (s1 & Hs1 & Hl1 & Hsub).
        rewrite Hs1. simpl.
        exists s1, (l ++ [JStr (str_address api host)])%list.
        repeat split; auto; [congruence|].
        right. exists host.
        destruct Hff as (k & Hk & Hh & Hn & Hal & _).
        repeat split; auto. exists net. repeat split; auto. exists k. auto.
      * exists s, l. simpl. auto.
  - unfold run_op, free_ip.
    set (al := get_allocated_ips api s).
    set (al1 := match addr with
                | Some a =>
                    if existsb (ip_address_eqb a) al
                    then remove_first a al else al
                | None => al
                end).
    destruct Hl as (fd & sub & Hfd & Hsub & Hal).
    unfold set_allocated_ips.
    rewrite Hfd, (subnet_entry_persisted fd sub Hsub). simpl.
    eexists. exists (map (fun a => JStr (str_address api a)) al1).
    split; [reflexivity|]. split; [|split].
    + eexists. eexists. split; [|split].
      * apply get_fablib_data_set.
      * apply dict_get_set_same.
      * apply dict_get_set_same.
    + eapply get_subnet_set_allocated; eauto.
    + exists al1. split; [reflexivity|]. split.
      * unfold al1. destruct addr as [a|]; auto.
        destruct (existsb (ip_address_eqb a) al); auto.
        intros x. apply remove_first_In.
      * unfold al1. destruct addr as [a|]; auto.
        destruct (existsb (ip_address_eqb a) al); auto.
        now apply remove_first_NoDup.
Qed.

Lemma subnet_member_transport (api : text_api) (s s1 : NetworkService)
    (a : ip_address) :
  get_subnet api s1 = get_subnet api s ->
  subnet_member api s a -> subnet_member api s1 a.
Proof.
  intros Hs (net & Hn & Hi). exists net. split; auto. congruence.
Qed.

Lemma entry_ok_transport (api : text_api) (s s1 : NetworkService)
    (ops : list alloc_op) (e : json) :
  get_subnet api s1 = get_subnet api s ->
  entry_ok api s ops e -> entry_ok api s1 ops e.
Proof.
  intros Hs [H|(a & He & [H|H])].
  - now left.
  - right. exists a. auto.
  - right. exists a. split; auto. right.
    now apply (subnet_member_transport api s).
Qed.

(** The address an entry stands for is a requested one or one of the
    subnet. *)
Lemma entry_ok_address (api : text_api) (s : NetworkService)
    (ops : list alloc_op) (e : json) (a : ip_address) :
  text_api_ok api ->
  entry_ok api s ops e -> ip_address_of api e = Some a ->
  requested_address api ops a \/ subnet_member api s a.
Proof.
  intros (Ha & _) [(v & Hv & ->)|(b & -> & Hb)] He.
  - left. exists v. auto.
  - rewrite Ha in He. injection He as <-. exact Hb.
Qed.

Lemma run_op_entries (api : text_api) (all : list alloc_op)
    (s : NetworkService) (l : list json) (op : alloc_op) :
  text_api_ok api -> In op all ->
  listed s l -> (forall e, In e l -> entry_ok api s all e) ->
  exists s1 l1,
    run_op api s op = Ok s1
    /\ listed s1 l1
    /\ get_subnet api s1 = get_subnet api s
    /\ (forall e, In e l1 -> entry_ok api s1 all e).
Proof.
  intros Hok Hop Hl He.
  destruct (run_op_listed api s l op Hl) as (s1 & l1 & Hr & Hl1 & Hs & Hc).
  exists s1, l1. repeat split; auto.
  assert (Hold : forall e, In e l -> entry_ok api s1 all e).
  { intros e Hin. apply (entry_ok_transport api s); auto. }
  destruct op as [v|addr].
  - destruct (py_truthy v) eqn:Tv.
    + destruct (py_in v (get_allocated_ips api s)); subst l1; auto.
      intros e Hin. apply in_app_or in Hin. destruct Hin as [Hin|[<-|[]]].
      * auto.
      * left. exists v. split; [split|]; auto.
    + destruct Hc as [->|(host & Hm & _ & ->)]; auto.
      intros e Hin. apply in_app_or in Hin. destruct Hin as [Hin|[<-|[]]].
      * auto.
      * right. exists host. split; auto. right.
        now apply (subnet_member_transport api s).
  - destruct Hc as (al1 & -> & Hsub & _).
    intros e Hin. apply in_map_iff in Hin. destruct Hin as (a & <- & Ha).
    right. exists a. split; auto.
    apply Hsub in Ha. rewrite (get_allocated_ips_listed api s l Hl) in Ha.
    destruct (parse_all (ip_address_of api) l) as [al|] eqn:Ep;
      [|destruct Ha].
    destruct (parse_all_In _ _ _ _ _ _ Ep Ha) as (x & Hx & Hf).
    destruct (entry_ok_address api s all x a Hok (He x Hx) Hf) as [H|H];
      auto.
    right. now apply (subnet_member_transport api s).
Qed.

Lemma run_ops_entries (api : text_api) (all ops : list alloc_op) :
  text_api_ok api -> (forall op, In op ops -> In op all) ->
  forall (s : NetworkService) (l : list json),
    listed s l -> (forall e, In e l -> entry_ok api s all e) ->
    exists s1 l1,
      run_ops api s ops = Ok s1
      /\ listed s1 l1
      /\ get_subnet api s1 = get_subnet api s
      /\ (forall e, In e l1 -> entry_ok api s1 all e).
Proof.
  intros Hok. induction ops as [|op r IH]; intros Hall s l Hl He.
  - exists s, l. simpl. auto.
  - destruct (run_op_entries api all s l op Hok (Hall op (or_introl eq_refl))
                Hl He) as (s1 & l1 & Hr & Hl1 & Hs1 & He1).
    destruct (IH (fun o H => Hall o (or_intror H)) s1 l1 Hl1 He1)
      as (s2 & l2 & Hr2 & Hl2 & Hs2 & He2).
    exists s2, l2. simpl. rewrite Hr. simpl.
    repeat split; auto. congruence.
Qed.

Lemma run_op_fresh (api : text_api) (s s1 : NetworkService)
    (l l1 : list json) (al : list ip_address) (op : alloc_op) :
  text_api_ok api ->
  listed s l -> parse_all (ip_address_of api) l = Some al -> NoDup al ->
  fresh_request api s op = true ->
  run_op api s op = Ok s1 -> listed s1 l1 ->
  exists al1, parse_all (ip_address_of api) l1 = Some al1 /\ NoDup al1.
Proof.
  intros Hok Hl Hp Hnd Hf Hr Hl1.
  destruct (run_op_listed api s l op Hl) as (s1' & l1' & Hr' & Hl1' & _ & Hc).
  rewrite Hr in Hr'. injection Hr' as <-.
  assert (l1' = l1) as ->.
  { destruct Hl1 as (fd & sub & Hfd & Hsub & Hal).
    destruct Hl1' as (fd' & sub' & Hfd' & Hsub' & Hal').
    congruence. }
  pose proof (get_allocated_ips_listed api s l Hl) as Hg. rewrite Hp in Hg.
  rewrite Hg in Hc. destruct Hok as (Ha & _).
  destruct op as [v|addr].
  - destruct (py_truthy v) eqn:Tv.
    + destruct v as [|a|j]; [discriminate Tv| |].
      * simpl in Hc. destruct (existsb (ip_address_eqb a) al) eqn:E.
        -- subst l1. eauto.
        -- subst l1. exists (al ++ [a])%list. split.
           ++ apply parse_all_snoc; [exact Hp|apply Ha].
           ++ apply NoDup_snoc; [exact Hnd|]. now apply existsb_ip_not_In.
      * simpl in Hc, Hf, Tv. rewrite Tv in Hf. subst l1.
        destruct (ip_address_of api (JStr (str_json api j))) as [a|] eqn:Ea;
          [|discriminate Hf].
        rewrite Hg in Hf. apply negb_true_iff in Hf.
        exists (al ++ [a])%list. split.
        -- now apply parse_all_snoc.
        -- apply NoDup_snoc; [exact Hnd|]. now apply existsb_ip_not_In.
    + destruct Hc as [->|(host & _ & Hn & ->)]; [eauto|].
      exists (al ++ [host])%list. split.
      * apply parse_all_snoc; [exact Hp|apply Ha].
      * now apply NoDup_snoc.
  - destruct Hc as (al1 & -> & _ & Hn). exists al1. split; auto.
    clear - Ha. induction al1 as [|a r IH]; simpl; [reflexivity|].
    now rewrite Ha, IH.
Qed.

Lemma run_ops_fresh (api : text_api) (ops : list alloc_op) :
  text_api_ok api ->
  forall (s s1 : NetworkService) (l l1 : list json) (al : list ip_address),
    listed s l -> parse_all (ip_address_of api) l = Some al -> NoDup al ->
    fresh_requests api s ops = true ->
    run_ops api s ops = Ok s1 -> listed s1 l1 ->
    exists al1, parse_all (ip_address_of api) l1 = Some al1 /\ NoDup al1.
Proof.
  intros Hok. induction ops as [|op r IH];
    intros s s1 l l1 al Hl Hp Hnd Hf Hr Hl1.
  - simpl in Hr. injection Hr as <-. exists al.
    assert (l1 = l) as ->; auto.
    destruct Hl1 as (fd & sub & Hfd & Hsub & Hal).
    destruct Hl as (fd' & sub' & Hfd' & Hsub' & Hal').
    congruence.
  - simpl in Hf, Hr. apply andb_true_iff in Hf. destruct Hf as [Hf1 Hf2].
    destruct (run_op_listed api s l op Hl) as (s0 & l0 & Hr0 & Hl0 & _ & _).
    rewrite Hr0 in Hf2, Hr. simpl in Hr.
    destruct (run_op_fresh api s s0 l l0 al op Hok Hl Hp Hnd Hf1 Hr0 Hl0)
      as (al0 & Hp0 & Hnd0).
    apply (IH s0 s1 l0 l1 al0); auto.
Qed.

(** Calls that pass no text are handled as meant. *)
Lemma fresh_requests_objects (api : text_api) (ops : list alloc_op) :
  (forall j, In (AllocateIp (PyJson j)) ops -> truthy j = false) ->
  forall (s : NetworkService) (l : list json),
    listed s l -> fresh_requests api s ops = true.
Proof.
  induction ops as [|op r IH]; intros Hj s l Hl; [reflexivity|].
  simpl. apply andb_true_iff. split.
  - destruct op as [[|a|j]|addr]; try reflexivity.
    simpl. now rewrite (Hj j (or_introl eq_refl)).
  - destruct (run_op_listed api s l op Hl) as (s0 & l0 & Hr0 & Hl0 & _ & _).
    rewrite Hr0. apply (IH (fun j H => Hj j (or_intror H)) s0 l0 Hl0).
Qed.

(** C6, as the code has it: after [set_subnet] and any sequence of
    [allocate_ip] and [free_ip] calls, none of which raises, the service
    reports the subnet it reported before, and every entry of the persisted
    allocated list is the text of a requested value as it was passed, or the
    text of an address that was requested or that lies in that subnet and is
    not its network address; so is every address [get_allocated_ips] reads
    back.  When no call passes as text an address that is allocated at that
    time, or a text that is no address, every entry is the text of an
    address and neither the addresses nor the entries repeat; that is so in
    particular when every requested address is an address object.  On an
    instantiated L2 service the subnet is the one given to [set_subnet]. *)
Theorem allocated_ips_invariant (api : text_api) (s s1 : NetworkService)
    (net : ip_network) (ops : list alloc_op) :
  text_api_ok api -> set_subnet api s net = Ok s1 ->
  (is_instantiated s = Ok true -> get_layer s <> Some L3 ->
   get_subnet api s1 = SubnetNet net)
  /\ ((forall j, In (AllocateIp (PyJson j)) ops -> truthy j = false) ->
      fresh_requests api s1 ops = true)
  /\ exists s2 l,
       run_ops api s1 ops = Ok s2
       /\ get_subnet api s2 = get_subnet api s1
       /\ listed s2 l
       /\ (forall e, In e l -> entry_ok api s2 ops e)
       /\ (forall a, In a (get_allocated_ips api s2) ->
                     requested_address api ops a \/ subnet_member api s2 a)
       /\ (fresh_requests api s1 ops = true ->
           parse_all (ip_address_of api) l = Some (get_allocated_ips api s2)
           /\ NoDup (get_allocated_ips api s2) /\ NoDup l).
Proof.
  intros Hok Hset.
  pose proof (set_subnet_persisted api s s1 net Hset) as Hp.
  apply persisted_ips_listed in Hp. simpl in Hp.
  split; [now apply set_subnet_get_subnet|].
  split; [intros Hj; now apply (fresh_requests_objects api ops Hj s1 [])|].
  destruct (run_ops_entries api ops ops Hok (fun _ H => H) s1 [] Hp)
    as (s2 & l & Hr & Hl & Hs & He); [intros e []|].
  exists s2, l. pose proof (get_allocated_ips_listed api s2 l Hl) as Hg.
  split; [exact Hr|]. split; [exact Hs|]. split; [exact Hl|].
  split; [exact He|]. split.
  - intros a Ha. rewrite Hg in Ha.
    destruct (parse_all (ip_address_of api) l) as [al|] eqn:Ep;
      [|destruct Ha].
    destruct (parse_all_In _ _ _ _ _ _ Ep Ha) as (x & Hx & Hf).
    apply (entry_ok_address api s2 ops x a Hok (He x Hx) Hf).
  - intros Hf.
    destruct (run_ops_fresh api ops Hok s1 s2 [] l [] Hp eq_refl
                (NoDup_nil _) Hf Hr Hl) as (al & Hpa & Hnd).
    rewrite Hg, Hpa. split; [reflexivity|]. split; [exact Hnd|].
    now apply (parse_all_NoDup _ _ _ _ _ Hpa).
Qed.

Lemma allocated_ips_invariant_witness :
  exists s2,
    run_ops Dotted.api (service_with_subnet (ten_net 30))
      [AllocateIp PyNone; AllocateIp (PyJson (JStr "10.0.0.2"));
       FreeIp (Some (ten 1))] = Ok s2
    /\ NoDup (get_allocated_ips Dotted.api s2)
    /\ members_ok Dotted.api s2 (get_allocated_ips Dotted.api s2).
Proof.
  destruct (allocated_ips_invariant Dotted.api instantiated_l2
              (service_with_subnet (ten_net 30)) (ten_net 30)
              [AllocateIp PyNone; AllocateIp (PyJson (JStr "10.0.0.2"));
               FreeIp (Some (ten 1))]
              dotted_api_ok)
    as (Hnet & _ & s2 & l & Hr & Hs & _ & _ & Hm & Hnd).
  - vm_compute. reflexivity.
  - exists s2. split; [exact Hr|]. split.
    + apply Hnd. vm_compute. reflexivity.
    + intros a Ha. destruct (Hm a Ha) as [(v & (Hin & Hv) & Hpa)|Hsub];
        [|exact Hsub].
      exists (ten_net 30). split.
      { rewrite Hs. apply Hnet; [vm_compute; reflexivity|].
        vm_compute. discriminate. }
      destruct Hin as [Hin|[Hin|[Hin|[]]]]; try discriminate Hin.
      * injection Hin as <-. discriminate Hv.
      * injection Hin as <-. vm_compute in Hpa. injection Hpa as <-.
        split; [|vm_compute; discriminate].
        exists 2. split; [vm_compute; lia|reflexivity].
Defined.

(** C6 as stated fails on both halves.  On the subnet 10.0.0.0/30 three
    automatic allocations record 10.0.0.3, the broadcast address, and a
    requested address is recorded without any check that it belongs to the
    subnet.  An address passed as text, as [add_interface] passes it, is
    recorded again when it is allocated already; and a text that is no
    address hides the allocated list from the next automatic allocation,
    which records 10.0.0.1 a second time. *)
Lemma allocated_ips_leave_host_range :
  get_subnet Dotted.api (service_with_subnet (ten_net 30))
  = SubnetNet (ten_net 30)
  /\ (exists s2,
        run_ops Dotted.api (service_with_subnet (ten_net 30))
          [AllocateIp PyNone; AllocateIp PyNone; AllocateIp PyNone] = Ok s2
        /\ get_allocated_ips Dotted.api s2 = [ten 1; ten 2; ten 3]
        /\ broadcast_address (ten_net 30) = ten 3)
  /\ (exists s3,
        run_ops Dotted.api (service_with_subnet (ten_net 30))
          [AllocateIp (PyAddr far_address)] = Ok s3
        /\ get_allocated_ips Dotted.api s3 = [far_address]
        /\ ~ in_network (ten_net 30) far_address)
  /\ (exists s4,
        run_ops Dotted.api (service_with_subnet (ten_net 30))
          [AllocateIp (PyJson (JStr "10.0.0.1"));
           AllocateIp (PyJson (JStr "10.0.0.1"))] = Ok s4
        /\ listed s4 [JStr "10.0.0.1"; JStr "10.0.0.1"]
        /\ get_allocated_ips Dotted.api s4 = [ten 1; ten 1]
        /\ ~ NoDup (get_allocated_ips Dotted.api s4))
  /\ (exists s5,
        run_ops Dotted.api (service_with_subnet (ten_net 30))
          [AllocateIp PyNone; AllocateIp (PyJson (JStr "gateway"));
           AllocateIp PyNone] = Ok s5
        /\ listed s5 [JStr "10.0.0.1"; JStr "gateway"; JStr "10.0.0.1"]
        /\ get_allocated_ips Dotted.api s5 = []).
Proof.
  split; [vm_compute; reflexivity|]. split; [|split; [|split]].
  - eexists. split; [vm_compute; reflexivity|].
    split; vm_compute; reflexivity.
  - eexists. split; [vm_compute; reflexivity|].
    split; [vm_compute; reflexivity|].
    intros (k & Hk & He). unfold far_address, addr_at in He.
    apply (f_equal addr_int) in He.
    change (num_addresses (ten_net 30)) with 4 in Hk.
    cbn [net_int ten_net addr_int] in He. lia.
  - eexists. split; [vm_compute; reflexivity|]. split; [|split].
    + eexists. eexists. split; [|split]; vm_compute; reflexivity.
    + vm_compute. reflexivity.
    + intros Hnd. vm_compute in Hnd. inversion Hnd as [|? ? Hin _].
      apply Hin. now left.
  - eexists. split; [vm_compute; reflexivity|]. split.
    + eexists. eexists. split; [|split]; vm_compute; reflexivity.
    + vm_compute. reflexivity.
Qed.

(** ** Frame facts of the facade *)

Lemma get_interfaces_fim (s : NetworkService) :
  fim_network_service (snd (get_interfaces s)) = fim_network_service s.
Proof.
  unfold get_interfaces. destruct (self_interfaces s) as [[|i r]|]; reflexivity.
Qed.

Lemma get_interfaces_cached (s : NetworkService) (i : Interface)
    (r : list Interface) :
  self_interfaces s = Some (i :: r) -> get_interfaces s = (i :: r, s).
Proof.
  intros H. unfold get_interfaces. now rewrite H.
Qed.

Lemma disconnect_all_frame (l : list Interface) (f : FimNetworkService) :
  let f1 := fold_left (fun f i => disconnect_interface f (if_name i)) l f in
  fim_user_data f1 = fim_user_data f /\ fim_name f1 = fim_name f.
Proof.
  revert f. induction l as [|i r IH]; intros f; simpl; [auto|].
  destruct (IH (disconnect_interface f (if_name i))) as [H1 H2].
  split; [rewrite H1 | rewrite H2]; reflexivity.
Qed.

(** What a migration leaves behind. *)
Lemma replace_network_service_spec (s : NetworkService) (t : ServiceType)
    (i : Interface) (r : list Interface) :
  self_interfaces s = Some (i :: r) ->
  exists s1,
    __replace_network_service s (Some t) = Ok s1
    /\ get_type s1 = t
    /\ get_name s1 = get_name s
    /\ get_layer s1 = layer_of t
    /\ fim_interface_list (fim_network_service s1) = map if_name (i :: r)
    /\ self_interfaces s1 = Some (i :: r)
    /\ get_user_data s1 = get_user_data s.
Proof.
  intros Hc. unfold __replace_network_service.
  rewrite (get_interfaces_cached s i r Hc).
  eexists. split; [reflexivity|].
  repeat split; try reflexivity; try exact Hc.
  unfold get_user_data. simpl.
  destruct (disconnect_all_frame (i :: r) (fim_network_service s)) as [H _].
  simpl in H. now rewrite H.
Qed.

Lemma set_fablib_data_frame (s : NetworkService) (d : PyDict.t json) :
  get_type (set_fablib_data s d) = get_type s
  /\ get_layer (set_fablib_data s d) = get_layer s
  /\ fim_interface_list (fim_network_service (set_fablib_data s d))
     = fim_interface_list (fim_network_service s)
  /\ self_interfaces (set_fablib_data s d) = self_interfaces s.
Proof. repeat split. Qed.

Lemma set_allocated_ip_frame (api : text_api) (s s1 : NetworkService)
    (v : pyval) :
  set_allocated_ip api s v = Ok s1 -> same_topology s s1.
Proof.
  unfold set_allocated_ip.
  destruct (subnet_entry (get_fablib_data s)) as [[fd sub]|e];
    [|discriminate].
  simpl. destruct (json_getitem sub "allocated_ips") as [al|e];
    [|discriminate].
  simpl. destruct al; try discriminate. destruct sub; try discriminate.
  intros H. injection H as <-. apply set_fablib_data_frame.
Qed.

Lemma allocate_ip_frame (api : text_api) (s : NetworkService) (v : pyval)
    (r : pyval * NetworkService) :
  allocate_ip api s v = Ok r -> same_topology s (snd r).
Proof.
  assert (Hrefl : same_topology s s) by (repeat split).
  unfold allocate_ip. destruct (py_truthy v).
  - destruct (negb (py_in v (get_allocated_ips api s))).
    + destruct (set_allocated_ip api s v) as [s1|e] eqn:E; [|discriminate].
      simpl. intros H. injection H as <-. simpl.
      now apply (set_allocated_ip_frame api s s1 v).
    + intros H. injection H as <-. exact Hrefl.
  - destruct (get_subnet api s) as [net| |p].
    + destruct (first_free _ _ _) as [host|].
      * destruct (set_allocated_ip api s (PyAddr host)) as [s1|e] eqn:E;
          [|discriminate].
        simpl. intros H. injection H as <-. simpl.
        now apply (set_allocated_ip_frame api s s1 (PyAddr host)).
      * intros H. injection H as <-. exact Hrefl.
    + intros H. injection H as <-. exact Hrefl.
    + intros H. injection H as <-. exact Hrefl.
Qed.

Lemma assign_address_frame (api : text_api) (s : NetworkService)
    (d : PyDict.t json) (p : PyDict.t json * NetworkService) :
  assign_address api s d = Ok p -> same_topology s (snd p).
Proof.
  assert (Hrefl : same_topology s s) by (repeat split).
  unfold assign_address.
  destruct (subnet_truthy (get_subnet api s)).
  - destruct (py_truthy _).
    + destruct (allocate_ip api s _) as [r|e] eqn:E; [|discriminate].
      simpl. intros Hr. injection Hr as <-. simpl.
      eapply allocate_ip_frame; eauto.
    + destruct (match PyDict.get "auto" d with
                | Some v => truthy v | None => false end).
      * destruct (allocate_ip api s PyNone) as [r|e] eqn:E; [|discriminate].
        simpl. intros Hr. injection Hr as <-. simpl.
        eapply allocate_ip_frame; eauto.
      * intros Hr. injection Hr as <-. exact Hrefl.
  - intros Hr. injection Hr as <-. exact Hrefl.
Qed.

Lemma add_interface_addr_keeps (api : text_api) (s s1 : NetworkService)
    (i i1 : Interface) :
  add_interface_addr api s i = Ok (s1, i1) ->
  self_interfaces s1 = self_interfaces s
  /\ get_type s1 = get_type s
  /\ if_vlan i1 = if_vlan i /\ if_name i1 = if_name i.
Proof.
  unfold add_interface_addr. intros H.
  destruct (assign_address api s (if_fablib_data i)) as [p|e] eqn:E;
    [|discriminate].
  apply assign_address_frame in E. destruct E as (Ht & Hl & Hf & Hc).
  simpl in H.
  destruct (get_layer (snd p)) as [[|]|]; injection H as <- <-;
    repeat split; auto.
Qed.

Lemma add_interface_addr_frame (api : text_api) (s s1 : NetworkService)
    (i i1 : Interface) :
  add_interface_addr api s i = Ok (s1, i1) ->
  get_layer s = Some L2 ->
  same_topology s s1 /\ if_vlan i1 = if_vlan i /\ if_name i1 = if_name i.
Proof.
  unfold add_interface_addr. intros H Hl.
  destruct (assign_address api s (if_fablib_data i)) as [p|e] eqn:E;
    [|discriminate].
  apply assign_address_frame in E. destruct E as (Ht & Hl1 & Hf & Hc).
  simpl in H. rewrite Hl1, Hl in H. injection H as <- <-.
  repeat split; auto.
Qed.

(** ** C4: adding a third interface migrates the service *)

(** C4: on an L2PTP service with two interfaces [a] and [b],
    [add_interface c], when the resolver computes L2STS for the three,
    migrates the service: after the migration step it has the type L2STS, the
    three interfaces attached and the user data it had before; the rest of
    [add_interface] keeps the type and the interfaces, and keeps the user
    data too when the interface asks for no address. *)
Theorem add_interface_migrates (api : text_api) (s : NetworkService)
    (a b c : Interface) :
  get_type s = L2PTP -> get_layer s = Some L2 ->
  fst (get_interfaces s) = [a; b] ->
  __calculate_l2_nstype [a; b; c] (fim_ero (fim_network_service s))
  = Ok (Some L2STS) ->
  exists s1,
    add_interface_retype s c = Ok s1
    /\ get_type s1 = L2STS
    /\ fim_interface_list (fim_network_service s1) = map if_name [a; b; c]
    /\ self_interfaces s1 = Some [a; b; c]
    /\ get_user_data s1 = get_user_data s
    /\ add_interface api s c = add_interface_addr api s1 c
    /\ (forall s2 c1, add_interface api s c = Ok (s2, c1) ->
                      get_type s2 = L2STS
                      /\ fim_interface_list (fim_network_service s2)
                         = map if_name [a; b; c])
    /\ (PyDict.get "addr" (if_fablib_data c) = None ->
        PyDict.get "auto" (if_fablib_data c) = None ->
        exists c1, add_interface api s c = Ok (s1, c1)).
Proof.
  intros Ht Hl Hi Hcalc.
  destruct (get_interfaces s) as [got s0] eqn:Eg. simpl in Hi. subst got.
  assert (Hfim : fim_network_service s0 = fim_network_service s).
  { pose proof (get_interfaces_fim s) as H. now rewrite Eg in H. }
  set (s2 := with_interfaces s0 [a; b; c]).
  destruct (replace_network_service_spec s2 L2STS a [b; c] eq_refl)
    as (s1 & Hr & Ht1 & Hn1 & Hl1 & Hf1 & Hc1 & Hu1).
  assert (Hretype : add_interface_retype s c = Ok s1).
  { unfold add_interface_retype. rewrite Ht, Eg. simpl.
    fold s2. unfold get_layer, get_type. simpl. rewrite Hfim.
    fold (get_layer s). rewrite Hl.
    rewrite Hcalc. simpl. fold (get_type s). rewrite Ht. simpl. exact Hr. }
  assert (Hadd : add_interface api s c = add_interface_addr api s1 c).
  { unfold add_interface. now rewrite Hretype. }
  exists s1. repeat split; auto.
  - rewrite Hu1. unfold get_user_data, s2. simpl. now rewrite Hfim.
  - rewrite Hadd in H.
    apply add_interface_addr_frame in H; [|now rewrite Hl1].
    destruct H as ((Ht2 & _) & _). now rewrite Ht2.
  - rewrite Hadd in H.
    apply add_interface_addr_frame in H; [|now rewrite Hl1].
    destruct H as ((_ & _ & Hf2 & _) & _). now rewrite Hf2.
  - intros Ha Hau. rewrite Hadd. unfold add_interface_addr, assign_address.
    rewrite Ha, Hau. simpl.
    destruct (subnet_truthy (get_subnet api s1)); simpl;
      rewrite Hl1; simpl; eexists; reflexivity.
Qed.

Lemma add_interface_migrates_witness :
  get_type ptp_service = L2PTP
  /\ exists s1,
       add_interface_retype ptp_service if_c = Ok s1
       /\ get_type s1 = L2STS
       /\ fim_interface_list (fim_network_service s1) = ["a"; "f"; "c"]
       /\ get_user_data s1 = get_user_data ptp_service
       /\ exists c1, add_interface Dotted.api ptp_service if_c = Ok (s1, c1).
Proof.
  split; [reflexivity|].
  destruct (add_interface_migrates Dotted.api ptp_service
              (set_vlan if_a (Some "100")) (set_vlan if_f (Some "100")) if_c)
    as (s1 & Hr & Ht & Hf & _ & Hu & _ & _ & Hadd);
    try (vm_compute; reflexivity).
  exists s1. repeat split; auto.
Defined.

(** ** C10: where the VLAN tags of a point-to-point service are paired *)

Lemma add_interface_retype_interfaces (s s1 : NetworkService)
    (i : Interface) :
  add_interface_retype s i = Ok s1 ->
  self_interfaces s1 = Some (fst (get_interfaces s) ++ [i])%list.
Proof.
  unfold add_interface_retype.
  destruct (ServiceType_eqb (get_type s) PortMirror); [discriminate|].
  destruct (get_interfaces s) as [got s0]. simpl.
  destruct (got ++ [i])%list as [|x r] eqn:E.
  { apply app_eq_nil in E. destruct E as [_ E]. discriminate E. }
  set (s2 := with_interfaces s0 (x :: r)).
  destruct (get_layer s2) as [[|]|].
  - destruct (__calculate_l2_nstype _ _) as [new|e]; [|discriminate]. simpl.
    destruct (nstype_neqb (get_type s2) new).
    + destruct new as [t|]; [|discriminate].
      destruct (replace_network_service_spec s2 t x r eq_refl)
        as (s3 & Hr & _ & _ & _ & _ & Hc & _).
      rewrite Hr. intros H. injection H as <-. exact Hc.
    + intros H. injection H as <-. reflexivity.
  - destruct (is_instantiated s2) as [[|]|e]; simpl; try discriminate.
    + destruct (sliver_site s0) as [site|]; [|discriminate].
      destruct (String.eqb (if_site i) site); [|discriminate].
      intros H. injection H as <-. reflexivity.
    + intros H. injection H as <-. reflexivity.
  - intros H. injection H as <-. reflexivity.
Qed.

Lemma set_vlan_in_head (x i0 : Interface) (v : option string)
    (l : list Interface) :
  exists j0 l1,
    set_vlan_in x v (i0 :: l) = j0 :: l1
    /\ l1 = set_vlan_in x v l
    /\ if_name j0 = if_name i0
    /\ if_vlan j0 = (if same_interface x i0 then v else if_vlan i0).
Proof.
  eexists. eexists. split; [reflexivity|]. split; [reflexivity|].
  destruct (same_interface x i0); split; reflexivity.
Qed.

(** C10, as the code has it: the VLAN tags are paired by [new_l2network],
    when it creates an L2PTP service from a non-empty interface list, on the
    first two interfaces: both get "100" when neither has a tag, and the
    untagged one gets the tag of the other when exactly one has a tag.
    [add_interface] sets no VLAN tag: the interface it is given and the
    interfaces the service holds keep theirs. *)
Theorem new_l2network_pairs_vlans (slice : list Interface) (name : string)
    (i0 i1 : Interface) (rest : list Interface) (type : option string)
    (user_data : PyDict.t json) (ifs : list Interface)
    (svc : NetworkService) :
  new_l2network slice name (i0 :: i1 :: rest) type user_data = Ok (ifs, svc) ->
  get_type svc = L2PTP ->
  (exists j0 j1 rest1,
     ifs = j0 :: j1 :: rest1
     /\ if_name j0 = if_name i0 /\ if_name j1 = if_name i1
     /\ match if_vlan i0, if_vlan i1 with
        | None, None => if_vlan j0 = Some "100" /\ if_vlan j1 = Some "100"
        | None, Some v => if_vlan j0 = Some v /\ if_vlan j1 = Some v
        | Some v, None => if_vlan j0 = Some v /\ if_vlan j1 = Some v
        | Some v0, Some v1 => if_vlan j0 = Some v0 /\ if_vlan j1 = Some v1
        end)
  /\ (forall api s i s1 i1',
        add_interface api s i = Ok (s1, i1') ->
        if_vlan i1' = if_vlan i
        /\ self_interfaces s1 = Some (fst (get_interfaces s) ++ [i])%list).
Proof.
  intros Hnew Htype. split.
  - unfold new_l2network in Hnew.
    destruct (match type with
              | Some t => _ | None => _ end) as [nstype|e]; [|discriminate].
    cbn [bind] in Hnew.
    destruct (__validate_nstype nstype (i0 :: i1 :: rest)); [|discriminate].
    cbn [bind] in Hnew. destruct nstype as [t|]; [|discriminate].
    destruct (if ServiceType_eqb t L2PTP
                 && negb (List.length (i0 :: i1 :: rest) =? 0)
              then vlan_defaults (i0 :: i1 :: rest) else Ok [])
      as [calls|e] eqn:Ec; [|discriminate].
    cbn [bind] in Hnew. injection Hnew as Hifs Hsvc.
    assert (Ht : t = L2PTP) by (rewrite <- Hsvc in Htype; exact Htype).
    subst t. cbn in Ec. subst ifs.
    destruct (if_vlan i0) as [v0|] eqn:E0;
      destruct (if_vlan i1) as [v1|] eqn:E1;
      injection Ec as <-;
      unfold set_vlans, set_vlan_in, same_interface;
      cbn [map fold_left fst snd];
      (eexists; eexists; eexists; split; [reflexivity|]);
      repeat (rewrite ?String.eqb_refl; cbn [if_name if_vlan set_vlan];
              try match goal with
                  | |- context [String.eqb (if_name ?x) (if_name ?y)] =>
                      is_var x; is_var y;
                      destruct (String.eqb (if_name x) (if_name y))
                  end);
      auto.
  - intros api s i s1 i1' Hadd. unfold add_interface in Hadd.
    destruct (add_interface_retype s i) as [s0|e] eqn:E; [|discriminate].
    simpl in Hadd. apply add_interface_addr_keeps in Hadd.
    destruct Hadd as (Hc & _ & Hv & _). split; [exact Hv|].
    rewrite Hc. now apply add_interface_retype_interfaces.
Qed.

Lemma new_l2network_pairs_vlans_witness :
  exists ifs svc,
    new_l2network [if_a; if_f; if_c] "net1" [if_a; if_f] None []
    = Ok (ifs, svc)
    /\ get_type svc = L2PTP
    /\ map if_vlan ifs = [Some "100"; Some "100"].
Proof.
  assert (Hnew : new_l2network [if_a; if_f; if_c] "net1" [if_a; if_f] None []
                 = Ok (set_vlans [(if_a, Some "100"); (if_f, Some "100")]
                         [if_a; if_f],
                       ptp_service))
    by (vm_compute; reflexivity).
  destruct (new_l2network_pairs_vlans _ _ _ _ _ _ _ _ _ Hnew eq_refl)
    as [(j0 & j1 & rest1 & Hifs & _ & _ & Hv0 & Hv1) _].
  eexists. eexists. split; [exact Hnew|]. split; [reflexivity|].
  rewrite Hifs. simpl. rewrite Hv0, Hv1.
  vm_compute in Hifs. injection Hifs as _ _ <-. reflexivity.
Defined.

(** C10 as stated fails: [add_interface] of the facility interface [f] to
    the bridge service holding the untagged interface [a] forms an L2PTP
    service, and both interfaces are still untagged afterwards. *)
Lemma add_interface_leaves_vlans_unset :
  get_type bridge_service = L2Bridge
  /\ if_vlan if_a = None /\ if_vlan if_f = None
  /\ exists s1 f1,
       add_interface Dotted.api bridge_service if_f = Ok (s1, f1)
       /\ get_type s1 = L2PTP
       /\ self_interfaces s1 = Some [if_a; if_f]
       /\ option_map (map if_vlan) (self_interfaces s1) = Some [None; None]
       /\ if_vlan f1 = None.
Proof.
  repeat split.
  eexists. eexists. split; [vm_compute; reflexivity|].
  repeat split.
Qed.

(** ** C7: the interfaces of a PortMirror service *)

(** [add_interface] refuses a PortMirror service before touching it. *)
Lemma add_interface_portmirror_raises (api : text_api) (s : NetworkService)
    (i : Interface) :
  get_type s = PortMirror -> add_interface api s i = Raise PortMirrorAttach.
Proof.
  intros H. unfold add_interface, add_interface_retype. now rewrite H.
Qed.

(** [remove_interface] ends by disconnecting the interface, whatever the
    type of the service. *)
Lemma remove_interface_detaches (api : text_api) (s s1 : NetworkService)
    (i : Interface) :
  remove_interface api s i = Ok s1 ->
  ~ In (if_name i) (fim_interface_list (fim_network_service s1)).
Proof.
  unfold remove_interface.
  destruct (free_ip api s (if_ip_addr i)) as [s0|e]; [|discriminate].
  cbn [bind]. destruct (get_interfaces s0) as [got s2].
  destruct (match get_layer _ with Some L2 => _ | _ => _ end) as [s4|e];
    [|discriminate].
  cbn [bind]. intros H. injection H as <-. simpl. apply remove_In.
Qed.

(** C7 fails on the code: a PortMirror service refuses [add_interface], but
    [remove_interface] of its receiving interface succeeds, detaches the
    interface and even replaces the service by an L2Bridge service. *)
Lemma portmirror_remove_interface_detaches :
  get_type mirror_service = PortMirror
  /\ fim_interface_list (fim_network_service mirror_service) = ["r"]
  /\ add_interface Dotted.api mirror_service if_c = Raise PortMirrorAttach
  /\ exists s1,
       remove_interface Dotted.api mirror_service if_r = Ok s1
       /\ fim_interface_list (fim_network_service s1) = []
       /\ get_type s1 = L2Bridge.
Proof.
  repeat split.
  eexists. split; [vm_compute; reflexivity|]. repeat split.
Qed.

(** ** The resolver and the validator together *)

Lemma distinct_sites_perm (l l' : list Interface) :
  Permutation l l' -> distinct_sites l = distinct_sites l'.
Proof.
  intros H. unfold distinct_sites. apply NoDup_same_length.
  - apply NoDup_nodup.
  - apply NoDup_nodup.
  - intros x. rewrite !nodup_In. 
    split; apply Permutation_in; [|symmetry]; now apply Permutation_map.
Qed.

Lemma filter_length_perm (f : Interface -> bool) (l l' : list Interface) :
  Permutation l l' ->
  List.length (filter f l) = List.length (filter f l').
Proof.
  induction 1; simpl; try congruence.
  - destruct (f x); simpl; congruence.
  - destruct (f x), (f y); reflexivity.
Qed.

(** X1: the resolver does not depend on the order of the interfaces: on a
    permutation of the list it returns the same type, and it raises on the
    one exactly when it raises on the other. *)
Theorem calculate_l2_nstype_order (l l' : list Interface) (ero : bool) :
  Permutation l l' ->
  (forall t, __calculate_l2_nstype l ero = Ok t
             <-> __calculate_l2_nstype l' ero = Ok t)
  /\ (raises (__calculate_l2_nstype l ero)
      <-> raises (__calculate_l2_nstype l' ero)).
Proof.
  intros H. rewrite !calculate_l2_nstype_spec.
  unfold facility_count, basic_count.
  rewrite (distinct_sites_perm l l' H).
  rewrite (filter_length_perm is_facility l l' H).
  rewrite (filter_length_perm is_basic l l' H).
  destruct (distinct_sites l' <=? 1); [split; [tauto|]|].
  - split; intros [e He]; discriminate.
  - destruct (distinct_sites l' =? 2).
    + split; [tauto|]. tauto.
    + split.
      * intros t. split; discriminate.
      * split; intros _; eexists; reflexivity.
Qed.

Lemma calculate_l2_nstype_order_witness :
  __calculate_l2_nstype (List.rev scenario_abc) false = Ok (Some L2STS).
Proof.
  apply (proj1 (calculate_l2_nstype_order scenario_abc (List.rev scenario_abc)
                  false (Permutation_rev scenario_abc))).
  vm_compute. reflexivity.
Defined.

Lemma nics_of_basic (l : list Interface) :
  set_mem string_dec NIC_Basic (nics_of l) = negb (basic_count l =? 0).
Proof.
  unfold nics_of, basic_count.
  destruct (set_mem string_dec NIC_Basic _) eqn:E.
  - apply set_mem_correct1 in E. apply set_add_fold_In in E.
    destruct E as [[]|E]. apply in_map_iff in E. destruct E as (i & Hi & Hin).
    assert (In i (filter is_basic l)).
    { apply filter_In. split; auto. unfold is_basic. now apply String.eqb_eq. }
    destruct (filter is_basic l); [contradiction|reflexivity].
  - apply set_mem_complete1 in E.
    destruct (filter is_basic l) as [|i r] eqn:F; [reflexivity|].
    exfalso. apply E. apply set_add_fold_In. right.
    assert (Hi : In i (filter is_basic l)) by (rewrite F; now left).
    apply filter_In in Hi. destruct Hi as [Hin Hb].
    apply in_map_iff. exists i. split; auto.
    unfold is_basic in Hb. now apply String.eqb_eq in Hb.
Qed.

(** The validator on L2Bridge and L2PTP, in closed form. *)
Lemma validate_bridge_ptp (interfaces : list Interface) :
  interfaces <> [] ->
  __validate_nstype (Some L2Bridge) interfaces
  = (if distinct_sites interfaces <=? 1 then Ok true
     else Raise (BridgeSites (distinct_sites interfaces) (sites_of interfaces)))
  /\ __validate_nstype (Some L2PTP) interfaces
     = (if negb (distinct_sites interfaces =? 2)
        then Raise (PtpSites (distinct_sites interfaces) (sites_of interfaces))
        else if basic_count interfaces =? 0 then Ok true
        else Raise PtpBasicNic).
Proof.
  intros Hne. unfold __validate_nstype.
  destruct interfaces as [|i r]; [contradiction|].
  cbn [List.length Nat.eqb]. rewrite nics_of_basic, sites_of_length.
  set (n := distinct_sites (i :: r)). split.
  - destruct (n <=? 1) eqn:E.
    + apply Nat.leb_le in E.
      replace (1 <? n) with false by (symmetry; apply Nat.ltb_ge; lia).
      reflexivity.
    + apply Nat.leb_gt in E.
      replace (1 <? n) with true by (symmetry; apply Nat.ltb_lt; lia).
      reflexivity.
  - destruct (negb (n =? 2)); [reflexivity|].
    destruct (basic_count (i :: r) =? 0); reflexivity.
Qed.

(** X2: the validator accepts L2Bridge exactly when the interfaces lie at
    one site at most, and L2PTP exactly when there is no interface or the
    interfaces span two sites and none is a NIC_Basic; the NIC_Basic failure
    of L2PTP is reported only when the sites are two. *)
Theorem validate_accepts (interfaces : list Interface) :
  (__validate_nstype (Some L2Bridge) interfaces = Ok true
   <-> distinct_sites interfaces <= 1)
  /\ (__validate_nstype (Some L2PTP) interfaces = Ok true
      <-> interfaces = []
          \/ (distinct_sites interfaces = 2 /\ basic_count interfaces = 0))
  /\ (__validate_nstype (Some L2PTP) interfaces = Raise PtpBasicNic
      <-> distinct_sites interfaces = 2 /\ 0 < basic_count interfaces).
Proof.
  destruct interfaces as [|i r].
  { cbn. split; [split; [lia|reflexivity]|].
    split; [split; [now left|reflexivity]|].
    split; [discriminate|]. intros [H _]. discriminate H. }
  assert (Hne : i :: r <> []) by discriminate.
  destruct (validate_bridge_ptp (i :: r) Hne) as [-> ->].
  set (l := i :: r) in *. split; [|split].
  - destruct (distinct_sites l <=? 1) eqn:E.
    + apply Nat.leb_le in E. tauto.
    + apply Nat.leb_gt in E. split; [discriminate|lia].
  - destruct (distinct_sites l =? 2) eqn:E; cbn [negb].
    + apply Nat.eqb_eq in E. destruct (basic_count l =? 0) eqn:B.
      * apply Nat.eqb_eq in B. tauto.
      * apply Nat.eqb_neq in B. split; [discriminate|].
        intros [H|[_ H]]; [contradiction|lia].
    + apply Nat.eqb_neq in E. split; [discriminate|].
      intros [H|[H _]]; [contradiction|lia].
  - destruct (distinct_sites l =? 2) eqn:E; cbn [negb].
    + apply Nat.eqb_eq in E. destruct (basic_count l =? 0) eqn:B.
      * apply Nat.eqb_eq in B. split; [discriminate|lia].
      * apply Nat.eqb_neq in B. split; [intros _; lia|reflexivity].
    + apply Nat.eqb_neq in E. split; [discriminate|lia].
Qed.

Lemma check_hosts_shape (nps : PyDict.t nat) (interfaces : list Interface) :
  forall hosts el,
    (exists k, check_hosts nps interfaces hosts el = Raise (KeyError k))
    \/ exists el', check_hosts nps interfaces hosts el = Ok (el ++ el')%list
                   /\ Forall host_violation el'.
Proof.
  induction interfaces as [|i r IH]; intros hosts el; simpl.
  - right. exists []. rewrite app_nil_r. split; auto.
  - destruct (is_basic i); [|apply IH].
    destruct (PyDict.get _ nps) as [n|]; [|left; eauto].
    destruct (1 <? n); [|apply IH].
    destruct (node_host (if_node i)) as [h|].
    + destruct (set_mem string_dec h hosts); [|apply IH].
      destruct (IH hosts (el ++ [SharedHost h])%list) as [[k Hk]|(el' & He & Hf)].
      * left; eauto.
      * right. exists (SharedHost h :: el'). rewrite He, <- app_assoc.
        split; [reflexivity|]. constructor; simpl; auto.
    + destruct (IH hosts (el ++ [UnboundNode (node_name (if_node i))])%list)
        as [[k Hk]|(el' & He & Hf)].
      * left; eauto.
      * right. eexists (_ :: el'). rewrite He, <- app_assoc.
        split; [reflexivity|]. constructor; simpl; auto.
Qed.

Lemma check_hosts_no_basic (nps : PyDict.t nat) (interfaces : list Interface) :
  basic_count interfaces = 0 ->
  forall hosts el, check_hosts nps interfaces hosts el = Ok el.
Proof.
  unfold basic_count.
  induction interfaces as [|i r IH]; intros H hosts el; simpl; auto.
  simpl in H. destruct (is_basic i); [discriminate|]. now apply IH.
Qed.

Lemma check_hosts_keys (interfaces : list Interface) (hosts : list string)
    (el : list violation) :
  exists el',
    check_hosts (count_nodes_per_site interfaces []) interfaces hosts el
    = Ok (el ++ el')%list
    /\ Forall host_violation el'.
Proof.
  destruct (check_hosts_collects (count_nodes_per_site interfaces []) interfaces)
    with (hosts := hosts) (el := el) as (el1 & H1 & _).
  { intros i Hi _. rewrite count_nodes_per_site_of_member by assumption.
    discriminate. }
  destruct (check_hosts_shape (count_nodes_per_site interfaces []) interfaces
              hosts el) as [[k Hk]|H]; [congruence|exact H].
Qed.

Lemma validate_sts_shape (interfaces : list Interface) :
  interfaces <> [] ->
  exists el',
    Forall host_violation el'
    /\ (basic_count interfaces = 0 \/ List.length interfaces <= 2 -> el' = [])
    /\ __validate_nstype (Some L2STS) interfaces
       = match ((if negb (distinct_sites interfaces =? 2)
                 then [NotTwoSites (distinct_sites interfaces)
                         (sites_of interfaces)]
                 else []) ++ el')%list with
         | [] => Ok true
         | vs => Raise (Violations vs)
         end.
Proof.
  intros Hne. unfold __validate_nstype.
  destruct interfaces as [|i r]; [contradiction|].
  cbn [List.length Nat.eqb]. rewrite sites_of_length.
  set (l := i :: r) in *. fold (List.length l).
  set (pre := if negb (distinct_sites l =? 2) then _ else _).
  destruct (2 <? S (List.length r)) eqn:E.
  - destruct (check_hosts_keys l [] pre) as (el' & He & Hf).
    exists el'. split; [exact Hf|]. split.
    + intros [Hb|Hl].
      * rewrite (check_hosts_no_basic _ l Hb) in He.
        injection He as He. rewrite <- (app_nil_r pre) in He at 1.
        now apply app_inv_head in He.
      * apply Nat.ltb_lt in E. subst l. simpl in Hl. lia.
    + rewrite He. cbn [bind].
      destruct (pre ++ el')%list; reflexivity.
  - exists []. split; [constructor|]. split; [reflexivity|].
    cbn [bind]. rewrite app_nil_r. destruct pre; reflexivity.
Qed.

(** X3: whatever the type and the interfaces, the validator returns [True]
    or raises one of its own exceptions: the lookups in the dictionary of
    nodes per site never raise [KeyError]. *)
Theorem validate_nstype_outcomes (type : option ServiceType)
    (interfaces : list Interface) :
  __validate_nstype type interfaces = Ok true
  \/ exists e, __validate_nstype type interfaces = Raise e
               /\ validation_error e.
Proof.
  destruct interfaces as [|i r]; [now left|].
  assert (Hne : i :: r <> []) by discriminate.
  destruct type as [[]|];
    try (right; eexists; split; [reflexivity|exact I]).
  - destruct (validate_bridge_ptp (i :: r) Hne) as [-> _].
    destruct (_ <=? 1); [now left|right; eexists; split; [reflexivity|exact I]].
  - destruct (validate_bridge_ptp (i :: r) Hne) as [_ ->].
    destruct (negb _); [right; eexists; split; [reflexivity|exact I]|].
    destruct (_ =? 0); [now left|right; eexists; split; [reflexivity|exact I]].
  - destruct (validate_sts_shape (i :: r) Hne) as (el' & _ & _ & ->).
    destruct (_ ++ el')%list; [now left|].
    right; eexists; split; [reflexivity|exact I].
Qed.

(** X4: on interfaces none of which is a NIC_Basic, or on one or two
    interfaces, L2STS is accepted exactly when the sites are two; the failure
    names the sites. *)
Theorem validate_sts_without_host_check (interfaces : list Interface) :
  interfaces <> [] ->
  basic_count interfaces = 0 \/ List.length interfaces <= 2 ->
  __validate_nstype (Some L2STS) interfaces
  = if distinct_sites interfaces =? 2 then Ok true
    else Raise (Violations [NotTwoSites (distinct_sites interfaces)
                              (sites_of interfaces)]).
Proof.
  intros Hne H.
  destruct (validate_sts_shape interfaces Hne) as (el' & _ & He & ->).
  rewrite (He H), app_nil_r.
  destruct (distinct_sites interfaces =? 2); reflexivity.
Qed.

Lemma validate_sts_without_host_check_witness :
  __validate_nstype (Some L2STS) two_dedicated = Ok true.
Proof.
  rewrite (validate_sts_without_host_check two_dedicated).
  - reflexivity.
  - discriminate.
  - left. reflexivity.
Defined.

(** X5: the type the resolver returns passes the validator when it is
    L2Bridge or L2PTP; when it is L2STS the validator can only object to the
    hosts of NIC_Basic interfaces, never to the sites.  The resolver returns
    no other type. *)
Theorem resolved_type_validates (interfaces : list Interface) (ero : bool)
    (t : option ServiceType) :
  __calculate_l2_nstype interfaces ero = Ok t ->
  match t with
  | Some L2Bridge | Some L2PTP => __validate_nstype t interfaces = Ok true
  | Some L2STS =>
      __validate_nstype t interfaces = Ok true
      \/ exists vs, __validate_nstype t interfaces = Raise (Violations vs)
                    /\ vs <> [] /\ Forall host_violation vs
  | _ => False
  end.
Proof.
  rewrite calculate_l2_nstype_spec.
  destruct interfaces as [|i r].
  { simpl. intros H. injection H as <-. reflexivity. }
  assert (Hne : i :: r <> []) by discriminate.
  set (l := i :: r) in *.
  destruct (distinct_sites l <=? 1) eqn:E1.
  - intros H. injection H as <-.
    destruct (validate_bridge_ptp l Hne) as [-> _]. now rewrite E1.
  - destruct (distinct_sites l =? 2) eqn:E2; [|discriminate].
    destruct ((_ || ero) && (basic_count l =? 0)) eqn:E3;
      intros H; injection H as <-.
    + destruct (validate_bridge_ptp l Hne) as [_ ->]. rewrite E2. simpl.
      apply andb_true_iff in E3. destruct E3 as [_ ->]. reflexivity.
    + destruct (validate_sts_shape l Hne) as (el' & Hf & _ & ->).
      rewrite E2. simpl. destruct el' as [|v vs]; [now left|].
      right. eexists. split; [reflexivity|]. split; [discriminate|exact Hf].
Qed.

Lemma resolved_type_validates_witness :
  __calculate_l2_nstype [if_a; if_f] false = Ok (Some L2PTP)
  /\ __validate_nstype (Some L2PTP) [if_a; if_f] = Ok true.
Proof.
  split; [reflexivity|].
  apply (resolved_type_validates [if_a; if_f] false (Some L2PTP)).
  reflexivity.
Defined.

(** ** Creating an L2 service *)

Lemma set_vlans_names (calls : list (Interface * option string))
    (l : list Interface) :
  map if_name (set_vlans calls l) = map if_name l.
Proof.
  unfold set_vlans. revert l.
  induction calls as [|c r IH]; intros l; simpl; auto.
  rewrite IH. unfold set_vlan_in. rewrite map_map. apply map_ext.
  intros i. now destruct (same_interface (fst c) i).
Qed.

Lemma l2_type_names (t : string) :
  existsb (String.eqb t) fim_l2network_service_types = true ->
  exists ty, network_service_map t = Some ty
             /\ (ty = L2Bridge \/ ty = L2PTP \/ ty = L2STS).
Proof.
  unfold fim_l2network_service_types, network_service_map. cbn [existsb].
  destruct (String.eqb t "L2Bridge"); [eauto|].
  destruct (String.eqb t "L2PTP"); [eauto|].
  destruct (String.eqb t "L2STS"); [eauto 6|]. discriminate.
Qed.

Lemma resolved_l2_type (interfaces : list Interface) (ero : bool)
    (t : option ServiceType) :
  __calculate_l2_nstype interfaces ero = Ok t ->
  exists ty, t = Some ty /\ (ty = L2Bridge \/ ty = L2PTP \/ ty = L2STS).
Proof.
  rewrite calculate_l2_nstype_spec.
  destruct (_ <=? 1); [intros H; injection H as <-; eauto|].
  destruct (_ =? 2); [|discriminate].
  destruct (_ && _); intros H; injection H as <-; eauto 6.
Qed.

Lemma validate_ptp_two (interfaces : list Interface) :
  interfaces <> [] ->
  __validate_nstype (Some L2PTP) interfaces = Ok true ->
  2 <= List.length interfaces.
Proof.
  intros Hne H. destruct (validate_bridge_ptp interfaces Hne) as [_ Hp].
  rewrite Hp in H. destruct (distinct_sites interfaces =? 2) eqn:E;
    [|discriminate].
  apply Nat.eqb_eq in E. pose proof (distinct_sites_le interfaces). lia.
Qed.

Lemma validate_l2_outcomes (ty : ServiceType) (interfaces : list Interface) :
  ty = L2Bridge \/ ty = L2PTP \/ ty = L2STS ->
  __validate_nstype (Some ty) interfaces = Ok true
  \/ exists e, __validate_nstype (Some ty) interfaces = Raise e
               /\ creation_error e.
Proof.
  intros Hty. destruct interfaces as [|i r]; [now left|].
  assert (Hne : i :: r <> []) by discriminate.
  destruct Hty as [-> | [-> | ->]].
  - destruct (validate_bridge_ptp (i :: r) Hne) as [-> _].
    destruct (_ <=? 1); [now left|right; eexists; split; [reflexivity|exact I]].
  - destruct (validate_bridge_ptp (i :: r) Hne) as [_ ->].
    destruct (negb _); [right; eexists; split; [reflexivity|exact I]|].
    destruct (_ =? 0); [now left|right; eexists; split; [reflexivity|exact I]].
  - destruct (validate_sts_shape (i :: r) Hne) as (el' & _ & _ & ->).
    destruct (_ ++ el')%list; [now left|].
    right; eexists; split; [reflexivity|exact I].
Qed.

(** X6: [new_l2network] refuses a type name outside L2Bridge, L2PTP and
    L2STS before anything else, and raises nothing but the resolver's and the
    validator's exceptions: the VLAN defaults never fail on a missing second
    interface. *)
Theorem new_l2network_errors (slice : list Interface) (name : string)
    (interfaces : list Interface) (type : option string)
    (user_data : PyDict.t json) (e : exn) :
  (forall t, type = Some t ->
             existsb (String.eqb t) fim_l2network_service_types = false ->
             new_l2network slice name interfaces type user_data
             = Raise (InvalidL2Type t))
  /\ (new_l2network slice name interfaces type user_data = Raise e ->
      creation_error e).
Proof.
  split.
  - intros t -> Ht. unfold new_l2network. now rewrite Ht.
  - unfold new_l2network.
    destruct (match type with Some t => _ | None => _ end) as [nstype|e0] eqn:Et.
    + cbn [bind].
      assert (Hty : exists ty, nstype = Some ty
                               /\ (ty = L2Bridge \/ ty = L2PTP \/ ty = L2STS)).
      { destruct type as [t|].
        - destruct (existsb _ _) eqn:Ex; [|discriminate].
          injection Et as <-. now apply l2_type_names.
        - now apply resolved_l2_type in Et. }
      destruct Hty as (ty & -> & Hty).
      destruct (validate_l2_outcomes ty interfaces Hty)
        as [Hv|(e1 & Hv & He1)]; rewrite Hv; cbn [bind].
      * destruct (ServiceType_eqb ty L2PTP
                  && negb (List.length interfaces =? 0)) eqn:Ep.
        -- apply andb_true_iff in Ep. destruct Ep as [Ep Hl].
           unfold ServiceType_eqb in Ep.
           destruct (ServiceType_eq_dec ty L2PTP) as [-> | ?]; [|discriminate].
           assert (Hne : interfaces <> []).
           { intros ->. discriminate. }
           pose proof (validate_ptp_two interfaces Hne Hv) as H2.
           destruct interfaces as [|i0 [|i1 r]]; simpl in H2; try lia.
           cbn [vlan_defaults].
           destruct (if_vlan i0), (if_vlan i1); cbn [bind]; discriminate.
        -- cbn [bind]. discriminate.
      * intros H. injection H as <-. exact He1.
    + cbn [bind]. intros H. injection H as <-.
      destruct type as [t|].
      * destruct (existsb _ _); [discriminate|]. injection Et as <-. exact I.
      * rewrite calculate_l2_nstype_spec in Et.
        destruct (_ <=? 1); [discriminate|].
        destruct (_ =? 2); [destruct (_ && _); discriminate|].
        injection Et as <-. exact I.
Qed.

Lemma new_network_service_facts (api : text_api) (slice : list Interface)
    (name : string) (t : ServiceType) (interfaces : list Interface)
    (user_data : PyDict.t json) :
  let svc := __new_network_service slice name t interfaces user_data in
  get_name svc = name
  /\ get_type svc = t
  /\ get_layer svc = layer_of t
  /\ fim_interface_list (fim_network_service svc) = map if_name interfaces
  /\ get_fablib_data svc
     = JObj [("instantiated", JStr "False"); ("mode", JStr "manual")]
  /\ is_instantiated svc = Ok false
  /\ get_subnet api svc = SubnetName (name ++ ".subnet")
  /\ get_allocated_ips api svc = []
  /\ (forall k, k <> "fablib_data" ->
        PyDict.get k (get_user_data svc) = PyDict.get k user_data).
Proof.
  intros svc.
  assert (Hfd : get_fablib_data svc
                = JObj [("instantiated", JStr "False"); ("mode", JStr "manual")]).
  { apply get_fablib_data_set. }
  assert (Hi : is_instantiated svc = Ok false).
  { rewrite (is_instantiated_of_dict svc _ Hfd). reflexivity. }
  repeat split; auto.
  - unfold get_subnet. now rewrite Hi.
  - unfold get_allocated_ips. now rewrite Hfd.
  - intros k Hk. unfold svc, __new_network_service, init_fablib_data,
      set_fablib_data. rewrite !get_user_data_set.
    now apply dict_get_set_other.
Qed.

(** X7: the service [new_l2network] returns has the name given, the type
    asked for or resolved, which the validator accepted, the layer L2 and the
    interfaces given attached by name; it is not instantiated, its subnet is
    the placeholder [<name>.subnet], no address is allocated, and the other
    entries of the user data are those given. *)
Theorem new_l2network_service (api : text_api) (slice : list Interface)
    (name : string) (interfaces : list Interface) (type : option string)
    (user_data : PyDict.t json) (ifs : list Interface)
    (svc : NetworkService) :
  new_l2network slice name interfaces type user_data = Ok (ifs, svc) ->
  get_name svc = name
  /\ (get_type svc = L2Bridge \/ get_type svc = L2PTP \/ get_type svc = L2STS)
  /\ match type with
     | Some t => network_service_map t = Some (get_type svc)
     | None => __calculate_l2_nstype interfaces false = Ok (Some (get_type svc))
     end
  /\ __validate_nstype (Some (get_type svc)) interfaces = Ok true
  /\ get_layer svc = Some L2
  /\ map if_name ifs = map if_name interfaces
  /\ fim_interface_list (fim_network_service svc) = map if_name interfaces
  /\ is_instantiated svc = Ok false
  /\ get_subnet api svc = SubnetName (name ++ ".subnet")
  /\ get_allocated_ips api svc = []
  /\ (forall k, k <> "fablib_data" ->
        PyDict.get k (get_user_data svc) = PyDict.get k user_data).
Proof.
  unfold new_l2network.
  destruct (match type with Some t => _ | None => _ end) as [nstype|e0] eqn:Et;
    [|discriminate].
  cbn [bind].
  destruct (__validate_nstype nstype interfaces) as [b|] eqn:Hv;
    [|discriminate].
  cbn [bind]. destruct nstype as [ty|]; [|discriminate].
  match goal with
  | |- context [bind ?c _] => destruct c as [calls|]; [|discriminate]
  end.
  cbn [bind]. intros H. injection H as <- <-.
  destruct (new_network_service_facts api (set_vlans calls slice) name ty
              (set_vlans calls interfaces) user_data)
    as (Hn & Hty & Hl & Hil & _ & Hi & Hs & Ha & Hu).
  rewrite set_vlans_names in Hil. rewrite Hty.
  assert (H3 : ty = L2Bridge \/ ty = L2PTP \/ ty = L2STS).
  { destruct type as [t|].
    - destruct (existsb _ _) eqn:Ex; [|discriminate]. injection Et as Et.
      destruct (l2_type_names t Ex) as (ty' & Hm & H3). congruence.
    - apply resolved_l2_type in Et. destruct Et as (ty' & He & H3).
      congruence. }
  assert (Hm : match type with
               | Some t => network_service_map t = Some ty
               | None => __calculate_l2_nstype interfaces false = Ok (Some ty)
               end).
  { destruct type as [t|]; [|exact Et].
    destruct (existsb _ _); [|discriminate]. now injection Et. }
  assert (Hv1 : __validate_nstype (Some ty) interfaces = Ok true).
  { destruct (validate_l2_outcomes ty interfaces H3) as [H|(e & H & _)];
      [exact H|congruence]. }
  assert (Hl2 : layer_of ty = Some L2).
  { destruct H3 as [-> | [-> | ->]]; reflexivity. }
  rewrite Hl2 in Hl. pose proof (set_vlans_names calls interfaces) as Hnames.
  repeat split; assumption.
Qed.

Lemma new_l2network_service_witness :
  get_name ptp_service = "net1"
  /\ is_instantiated ptp_service = Ok false
  /\ get_subnet Dotted.api ptp_service = SubnetName "net1.subnet".
Proof.
  assert (Hnew : new_l2network [if_a; if_f; if_c] "net1" [if_a; if_f] None []
                 = Ok (set_vlans [(if_a, Some "100"); (if_f, Some "100")]
                         [if_a; if_f],
                       ptp_service))
    by (vm_compute; reflexivity).
  destruct (new_l2network_service Dotted.api _ _ _ _ _ _ _ Hnew)
    as (Hn & _ & _ & _ & _ & _ & _ & Hi & Hs & _).
  repeat split; assumption.
Defined.

(** ** The instantiated flag, the subnet and the gateway *)

(** X8: [set_instantiated] succeeds exactly when the blob is a dictionary;
    [is_instantiated] then returns the flag written, and the other entries of
    the blob, the allocated addresses and the topology are untouched. *)
Theorem set_instantiated_roundtrip (api : text_api) (s : NetworkService)
    (instantiated : bool) :
  ((exists fd, get_fablib_data s = JObj fd)
   <-> exists s1, set_instantiated s instantiated = Ok s1)
  /\ forall s1,
       set_instantiated s instantiated = Ok s1 ->
       is_instantiated s1 = Ok instantiated
       /\ (exists fd fd1,
             get_fablib_data s = JObj fd /\ get_fablib_data s1 = JObj fd1
             /\ forall k, k <> "instantiated" ->
                          PyDict.get k fd1 = PyDict.get k fd)
       /\ get_allocated_ips api s1 = get_allocated_ips api s
       /\ same_topology s s1.
Proof.
  unfold set_instantiated. split.
  - split.
    + intros [fd ->]. eauto.
    + intros [s1 H]. destruct (get_fablib_data s); try discriminate. eauto.
  - intros s1 H. destruct (get_fablib_data s) as [| | | | |fd] eqn:Hfd;
      try discriminate.
    injection H as <-.
    set (fd1 := PyDict.set "instantiated" _ fd).
    assert (Hfd1 : get_fablib_data (set_fablib_data s fd1) = JObj fd1)
      by apply get_fablib_data_set.
    split; [|split; [|split]].
    + rewrite (is_instantiated_of_dict _ _ Hfd1). unfold fd1.
      rewrite dict_get_set_same. now destruct instantiated.
    + exists fd, fd1. repeat split; auto.
      intros k Hk. now apply dict_get_set_other.
    + unfold get_allocated_ips. rewrite Hfd1, Hfd. unfold json_getitem, fd1.
      rewrite dict_get_set_other by discriminate. reflexivity.
    + repeat split.
Qed.

Lemma subnet_entry_fields (s : NetworkService) (fd1 sub0 : PyDict.t json) :
  subnet_entry (get_fablib_data s) = Ok (fd1, JObj sub0) ->
  (forall k, PyDict.get k sub0 = subnet_field s k)
  /\ PyDict.get "instantiated" fd1
     = match get_fablib_data s with
       | JObj fd => PyDict.get "instantiated" fd
       | _ => None
       end.
Proof.
  unfold subnet_field, subnet_entry.
  destruct (get_fablib_data s) as [| | | | |fd]; try discriminate.
  unfold PyDict.mem.
  destruct (PyDict.get "subnet" fd) as [v|] eqn:E; cbn [bind json_getitem].
  - rewrite E. intros H. injection H as <- ->. split; auto.
  - rewrite dict_get_set_same. intros H. injection H as <- <-. split.
    + reflexivity.
    + now rewrite dict_get_set_other by discriminate.
Qed.

Lemma subnet_field_updated (s : NetworkService) (fd1 sub : PyDict.t json) :
  let s1 := set_fablib_data s (PyDict.set "subnet" (JObj sub) fd1) in
  (forall k, subnet_field s1 k = PyDict.get k sub)
  /\ is_instantiated s1
     = Ok (match PyDict.get "instantiated" fd1 with
           | Some (JStr t) => String.eqb t "True"
           | _ => false
           end)
  /\ same_topology s s1.
Proof.
  intros s1.
  assert (H : get_fablib_data s1 = JObj (PyDict.set "subnet" (JObj sub) fd1))
    by apply get_fablib_data_set.
  split; [|split].
  - intros k. unfold subnet_field. now rewrite H, dict_get_set_same.
  - rewrite (is_instantiated_of_dict _ _ H).
    now rewrite dict_get_set_other by discriminate.
  - repeat split.
Qed.

Lemma is_instantiated_entry (s : NetworkService) (fd1 : PyDict.t json)
    (sub : json) :
  subnet_entry (get_fablib_data s) = Ok (fd1, sub) ->
  is_instantiated s
  = Ok (match PyDict.get "instantiated" fd1 with
        | Some (JStr t) => String.eqb t "True"
        | _ => false
        end).
Proof.
  intros H. destruct (subnet_entry_inv _ _ _ H) as (fd & Hfd & Hi & _).
  rewrite (is_instantiated_of_dict s fd Hfd). now rewrite Hi.
Qed.

(** The readers in terms of the fields of the ["subnet"] entry. *)
Lemma get_allocated_ips_field (api : text_api) (s : NetworkService) :
  get_allocated_ips api s
  = match subnet_field s "allocated_ips" with
    | Some al =>
        match json_iter al with
        | Ok items =>
            match parse_all (ip_address_of api) items with
            | Some l => l
            | None => []
            end
        | Raise _ => []
        end
    | None => []
    end.
Proof.
  unfold get_allocated_ips, subnet_field, json_getitem.
  destruct (get_fablib_data s) as [| | | | |fd]; try reflexivity.
  destruct (PyDict.get "subnet" fd) as [[| | | | |sub]|]; try reflexivity.
  cbn [bind]. destruct (PyDict.get "allocated_ips" sub); reflexivity.
Qed.

Lemma get_gateway_field (api : text_api) (sg : option ip_address)
    (s : NetworkService) :
  get_gateway api sg s
  = match is_instantiated s with
    | Raise _ => GatewayNone
    | Ok false => GatewayName (get_name s ++ ".gateway")
    | Ok true =>
        match get_layer s with
        | Some L3 =>
            match sg with Some a => GatewayAddr a | None => GatewayNone end
        | _ =>
            match subnet_field s "gateway" with
            | Some v =>
                match ip_address_of api v with
                | Some a => GatewayAddr a
                | None => GatewayNone
                end
            | None => GatewayNone
            end
        end
    end.
Proof.
  unfold get_gateway, subnet_field, json_getitem.
  destruct (is_instantiated s) as [[|]|]; try reflexivity.
  destruct (get_layer s) as [[|]|]; try reflexivity;
  (destruct (get_fablib_data s) as [| | | | |fd]; try reflexivity;
   destruct (PyDict.get "subnet" fd) as [[| | | | |sub]|]; try reflexivity;
   cbn [bind]; destruct (PyDict.get "gateway" sub); reflexivity).
Qed.

Lemma get_subnet_field (api : text_api) (s : NetworkService) :
  get_subnet api s
  = match is_instantiated s with
    | Raise _ => SubnetNone
    | Ok false => SubnetName (get_name s ++ ".subnet")
    | Ok true =>
        match get_layer s with
        | Some L3 =>
            match sliver_subnet s with
            | Some net => SubnetNet net
            | None => SubnetNone
            end
        | _ =>
            match subnet_field s "subnet" with
            | Some v =>
                if truthy v then
                  match ip_network_of api v with
                  | Some net => SubnetNet net
                  | None => SubnetNone
                  end
                else SubnetNone
            | None => SubnetNone
            end
        end
    end.
Proof.
  unfold get_subnet, subnet_field.
  destruct (is_instantiated s) as [[|]|]; try reflexivity.
  destruct (get_layer s) as [[|]|]; try reflexivity;
  (destruct (get_fablib_data s) as [| | | | |fd]; try reflexivity;
   destruct (PyDict.get "subnet" fd) as [[| | | | |sub]|]; try reflexivity;
   destruct sub; reflexivity).
Qed.

Lemma subnet_setter (s : NetworkService) (fd1 sub0 : PyDict.t json)
    (key : string) (v : json) :
  subnet_entry (get_fablib_data s) = Ok (fd1, JObj sub0) ->
  let s1 :=
    set_fablib_data s
      (PyDict.set "subnet" (JObj (PyDict.set key v sub0)) fd1) in
  is_instantiated s1 = is_instantiated s
  /\ forall k, subnet_field s1 k
               = if String.eqb k key then Some v else subnet_field s k.
Proof.
  intros He s1.
  destruct (subnet_field_updated s fd1 (PyDict.set key v sub0))
    as (Hf & Hi & _).
  destruct (subnet_entry_fields s fd1 sub0 He) as (Hs & _).
  split.
  - fold s1 in Hi. rewrite Hi. symmetry. eapply is_instantiated_entry; eauto.
  - intros k. fold s1 in Hf. rewrite Hf.
    destruct (String.eqb k key) eqn:E.
    + apply String.eqb_eq in E. subst. apply dict_get_set_same.
    + apply String.eqb_neq in E. rewrite dict_get_set_other by assumption.
      apply Hs.
Qed.

(** X9: [set_subnet] forgets every allocated address, records the text of
    the subnet, and keeps the gateway and the instantiated flag. *)
Theorem set_subnet_resets_allocations (api : text_api)
    (sg : option ip_address) (s s1 : NetworkService) (net : ip_network) :
  set_subnet api s net = Ok s1 ->
  get_allocated_ips api s1 = []
  /\ subnet_field s1 "subnet" = Some (JStr (str_network api net))
  /\ get_gateway api sg s1 = get_gateway api sg s
  /\ is_instantiated s1 = is_instantiated s
  /\ same_topology s s1.
Proof.
  unfold set_subnet.
  destruct (subnet_entry (get_fablib_data s)) as [[fd1 sub]|] eqn:He;
    [|discriminate].
  cbn [bind fst snd]. destruct sub as [| | | | |sub0]; try discriminate.
  intros H. injection H as <-.
  set (sub1 := PyDict.set "subnet" _ sub0).
  destruct (subnet_setter s fd1 sub0 "subnet"
              (JStr (str_network api net)) He) as (Hi1 & Hf1).
  fold sub1 in Hi1, Hf1.
  destruct (subnet_field_updated s fd1
              (PyDict.set "allocated_ips" (JList []) sub1)) as (Hf & Hi & Ht).
  destruct (subnet_field_updated s fd1 sub1) as (Hf' & Hi' & _).
  assert (Hinst : is_instantiated
                    (set_fablib_data s
                       (PyDict.set "subnet"
                          (JObj (PyDict.set "allocated_ips" (JList []) sub1))
                          fd1))
                  = is_instantiated s) by congruence.
  split; [|split; [|split; [|split]]]; auto.
  - rewrite get_allocated_ips_field, Hf, dict_get_set_same. reflexivity.
  - rewrite Hf, dict_get_set_other by discriminate.
    rewrite <- Hf', Hf1. reflexivity.
  - rewrite !get_gateway_field, Hinst.
    replace (subnet_field _ "gateway") with (subnet_field s "gateway"); auto.
    rewrite Hf, dict_get_set_other by discriminate.
    rewrite <- Hf', Hf1. reflexivity.
Qed.

Lemma persisted_allocated_service :
  persisted_ips Dotted.api allocated_service [ten 1; ten 2].
Proof.
  eexists. eexists. split; [vm_compute; reflexivity|].
  split; vm_compute; reflexivity.
Defined.

Lemma set_subnet_resets_allocations_witness :
  get_allocated_ips Dotted.api allocated_service = [ten 1; ten 2]
  /\ exists s1,
       set_subnet Dotted.api allocated_service (ten_net 30) = Ok s1
       /\ get_allocated_ips Dotted.api s1 = [].
Proof.
  split; [vm_compute; reflexivity|].
  destruct (set_subnet Dotted.api allocated_service (ten_net 30)) as [s1|e]
    eqn:E; [|vm_compute in E; discriminate E].
  exists s1. split; [reflexivity|].
  exact (proj1 (set_subnet_resets_allocations Dotted.api None
                  allocated_service s1 (ten_net 30) E)).
Defined.

(** X10: [get_gateway] of an instantiated service that is not an L3 service
    returns the address [set_gateway] wrote; [set_gateway] leaves the subnet,
    the allocated addresses and the instantiated flag alone. *)
Theorem set_gateway_roundtrip (api : text_api) (sg : option ip_address)
    (s s1 : NetworkService) (gateway : ip_address) :
  text_api_ok api ->
  set_gateway api s gateway = Ok s1 ->
  (is_instantiated s = Ok true -> get_layer s <> Some L3 ->
   get_gateway api sg s1 = GatewayAddr gateway)
  /\ get_subnet api s1 = get_subnet api s
  /\ get_allocated_ips api s1 = get_allocated_ips api s
  /\ is_instantiated s1 = is_instantiated s.
Proof.
  intros (Hok & _ & _). unfold set_gateway.
  destruct (subnet_entry (get_fablib_data s)) as [[fd1 sub]|] eqn:He;
    [|discriminate].
  cbn [bind fst snd]. destruct sub as [| | | | |sub0]; try discriminate.
  intros H. injection H as <-.
  destruct (subnet_setter s fd1 sub0 "gateway"
              (JStr (str_address api gateway)) He) as (Hi & Hf).
  split; [|split; [|split]]; auto.
  - intros Hinst Hl. rewrite get_gateway_field, Hi, Hinst, Hf. simpl.
    rewrite Hok.
    change (get_layer (set_fablib_data s _)) with (get_layer s).
    destruct (get_layer s) as [[|]|]; auto. congruence.
  - rewrite !get_subnet_field, Hi, Hf. reflexivity.
  - rewrite !get_allocated_ips_field, Hf. reflexivity.
Qed.

Lemma set_gateway_roundtrip_witness :
  exists s1,
    set_gateway Dotted.api (service_with_subnet (ten_net 29)) (ten 1) = Ok s1
    /\ get_gateway Dotted.api None s1 = GatewayAddr (ten 1).
Proof.
  destruct (set_gateway Dotted.api (service_with_subnet (ten_net 29)) (ten 1))
    as [s1|e] eqn:E; [|vm_compute in E; discriminate E].
  exists s1. split; [reflexivity|].
  apply (proj1 (set_gateway_roundtrip Dotted.api None
                  (service_with_subnet (ten_net 29)) s1 (ten 1)
                  dotted_api_ok E)).
  - vm_compute. reflexivity.
  - vm_compute. discriminate.
Defined.

(** ** Requested addresses and released addresses *)

Lemma remove_first_snoc (a : ip_address) (l : list ip_address) :
  ~ In a l -> remove_first a (l ++ [a]) = l.
Proof.
  induction l as [|x r IH]; intros H; simpl.
  - replace (ip_address_eqb a a) with true; auto.
    symmetry. now apply ip_address_eqb_eq.
  - destruct (ip_address_eqb a x) eqn:E.
    + apply ip_address_eqb_eq in E. subst. exfalso. apply H. now left.
    + f_equal. apply IH. intros Hin. apply H. now right.
Qed.

Lemma remove_first_not_In (a : ip_address) (l : list ip_address) :
  NoDup l -> ~ In a (remove_first a l).
Proof.
  induction 1 as [|x r Hx Hnd IH]; simpl; auto.
  destruct (ip_address_eqb a x) eqn:E.
  - apply ip_address_eqb_eq in E. now subst.
  - intros [->|Hin]; [|now apply IH].
    assert (ip_address_eqb a a = true) by now apply ip_address_eqb_eq.
    congruence.
Qed.

Lemma remove_first_other (a b : ip_address) (l : list ip_address) :
  a <> b -> In b l -> In b (remove_first a l).
Proof.
  intros Hab. induction l as [|x r IH]; simpl; auto.
  destruct (ip_address_eqb a x) eqn:E.
  - apply ip_address_eqb_eq in E. subst. intros [H|H]; [congruence|exact H].
  - intros [->|H]; [now left|right; auto].
Qed.

(** X11: [allocate_ip(addr)] with a requested address returns [None] and
    changes nothing when the address is allocated already; otherwise it
    returns the address and appends it to the allocated list, whatever the
    subnet is. *)
Theorem allocate_ip_requested (api : text_api) (s : NetworkService)
    (al : list ip_address) (a : ip_address) :
  text_api_ok api -> persisted_ips api s al ->
  (In a al -> allocate_ip api s (PyAddr a) = Ok (PyNone, s))
  /\ (~ In a al ->
      exists s1,
        allocate_ip api s (PyAddr a) = Ok (PyAddr a, s1)
        /\ get_allocated_ips api s1 = (al ++ [a])%list
        /\ get_subnet api s1 = get_subnet api s).
Proof.
  intros Hok Hp. unfold allocate_ip. cbn [py_truthy py_in].
  rewrite (get_allocated_ips_persisted api Hok s al Hp). split.
  - intros Hin. apply existsb_ip_In in Hin. now rewrite Hin.
  - intros Hin. apply existsb_ip_not_In in Hin. rewrite Hin. cbn [negb].
    destruct (set_allocated_ip_persisted api s al a Hp) as (s1 & Hs & Hp1 & Hn).
    rewrite Hs. cbn [bind]. exists s1. repeat split; auto.
    now apply get_allocated_ips_persisted.
Qed.

Lemma allocate_ip_requested_witness :
  allocate_ip Dotted.api allocated_service (PyAddr (ten 2))
  = Ok (PyNone, allocated_service)
  /\ exists s1,
       allocate_ip Dotted.api allocated_service (PyAddr (ten 5))
       = Ok (PyAddr (ten 5), s1)
       /\ get_allocated_ips Dotted.api s1 = [ten 1; ten 2; ten 5].
Proof.
  destruct (allocate_ip_requested Dotted.api allocated_service
              [ten 1; ten 2] (ten 2) dotted_api_ok
              persisted_allocated_service) as [Hin _].
  destruct (allocate_ip_requested Dotted.api allocated_service
              [ten 1; ten 2] (ten 5) dotted_api_ok
              persisted_allocated_service) as [_ Hout].
  split.
  - apply Hin. right. left. reflexivity.
  - destruct Hout as (s1 & Ha & Hal & _).
    + intros [H|[H|[]]]; discriminate H.
    + exists s1. split; assumption.
Defined.

(** X12: [free_ip(addr)] never raises on a service with an allocated list;
    afterwards the address is not allocated and every other address is
    allocated exactly when it was; [free_ip(None)] keeps the list. *)
Theorem free_ip_releases (api : text_api) (s : NetworkService)
    (al : list ip_address) (a : ip_address) :
  text_api_ok api -> persisted_ips api s al -> NoDup al ->
  (exists s1,
     free_ip api s (Some a) = Ok s1
     /\ ~ In a (get_allocated_ips api s1)
     /\ (forall b, b <> a ->
                   (In b (get_allocated_ips api s1) <-> In b al))
     /\ NoDup (get_allocated_ips api s1)
     /\ get_subnet api s1 = get_subnet api s)
  /\ (exists s1,
        free_ip api s None = Ok s1 /\ get_allocated_ips api s1 = al).
Proof.
  intros Hok Hp Hnd. unfold free_ip.
  rewrite (get_allocated_ips_persisted api Hok s al Hp). split.
  - set (al1 := if existsb _ al then remove_first a al else al).
    destruct (set_allocated_ips_persisted api s al al1 Hp)
      as (s1 & Hs & Hp1 & Hn).
    exists s1. rewrite (get_allocated_ips_persisted api Hok s1 al1 Hp1).
    split; [exact Hs|]. unfold al1.
    destruct (existsb (ip_address_eqb a) al) eqn:E.
    + split; [now apply remove_first_not_In|].
      split; [|split; [now apply remove_first_NoDup|exact Hn]].
      intros b Hb. split; [apply remove_first_In|].
      apply remove_first_other. congruence.
    + apply existsb_ip_not_In in E.
      split; [exact E|]. split; [tauto|]. split; assumption.
  - destruct (set_allocated_ips_persisted api s al al Hp)
      as (s1 & Hs & Hp1 & Hn).
    exists s1. split; auto. now apply get_allocated_ips_persisted.
Qed.

Lemma NoDup_ten_1_2 : NoDup [ten 1; ten 2].
Proof.
  constructor.
  - intros [H|[]]. discriminate H.
  - constructor; [intros []|constructor].
Defined.

Lemma free_ip_releases_witness :
  exists s1,
    free_ip Dotted.api allocated_service (Some (ten 1)) = Ok s1
    /\ ~ In (ten 1) (get_allocated_ips Dotted.api s1)
    /\ In (ten 2) (get_allocated_ips Dotted.api s1).
Proof.
  destruct (free_ip_releases Dotted.api allocated_service [ten 1; ten 2]
              (ten 1) dotted_api_ok persisted_allocated_service
              NoDup_ten_1_2)
    as [(s1 & Hf & Hout & Hb & _) _].
  exists s1. split; [exact Hf|]. split; [exact Hout|].
  apply Hb; [discriminate|]. right. left. reflexivity.
Defined.

(** X13: an address [allocate_ip] returned was not allocated before, and
    [free_ip] of it gives back the allocated list and the subnet there were
    before the allocation. *)
Theorem free_ip_undoes_allocate_ip (api : text_api) (s s1 : NetworkService)
    (al : list ip_address) (addr : pyval) (host : ip_address) :
  text_api_ok api -> persisted_ips api s al ->
  allocate_ip api s addr = Ok (PyAddr host, s1) ->
  ~ In host al
  /\ get_allocated_ips api s1 = (al ++ [host])%list
  /\ exists s2,
       free_ip api s1 (Some host) = Ok s2
       /\ get_allocated_ips api s2 = al
       /\ get_subnet api s2 = get_subnet api s.
Proof.
  intros Hok Hp Ha.
  assert (H : ~ In host al
              /\ persisted_ips api s1 (al ++ [host])
              /\ get_subnet api s1 = get_subnet api s).
  { destruct (py_truthy addr) eqn:Et.
    - unfold allocate_ip in Ha. rewrite Et in Ha.
      destruct (negb (py_in addr (get_allocated_ips api s))) eqn:Ein;
        [|discriminate].
      destruct (set_allocated_ip api s addr) as [s'|] eqn:Hs;
        cbn [bind] in Ha; [|discriminate].
      injection Ha as -> ->.
      cbn [py_in] in Ein.
      rewrite (get_allocated_ips_persisted api Hok s al Hp) in Ein.
      apply negb_true_iff, existsb_ip_not_In in Ein.
      destruct (set_allocated_ip_persisted api s al host Hp)
        as (s' & Hs' & Hp1 & Hn).
      assert (s' = s1) by congruence. subst s'. auto.
    - assert (Hauto : allocate_ip api s addr = allocate_ip api s PyNone).
      { unfold allocate_ip. now rewrite Et. }
      rewrite Hauto in Ha.
      destruct (get_subnet api s) as [net| |p] eqn:Enet.
      + destruct (allocate_ip_auto api s net al Hok Enet Hp)
          as [[_ Hx]|(h & s' & Hff & Hx & Hp1 & Hn1)]; rewrite Hx in Ha.
        * discriminate.
        * injection Ha as -> ->.
          destruct Hff as (k & _ & _ & _ & Hnin & _). auto.
      + unfold allocate_ip in Ha. rewrite Enet in Ha. discriminate.
      + unfold allocate_ip in Ha. rewrite Enet in Ha. discriminate. }
  destruct H as (Hnin & Hp1 & Hn1).
  split; [exact Hnin|]. split.
  - now apply get_allocated_ips_persisted.
  - unfold free_ip.
    rewrite (get_allocated_ips_persisted api Hok s1 _ Hp1).
    assert (E : existsb (ip_address_eqb host) (al ++ [host]) = true).
    { apply existsb_ip_In, in_or_app. right. now left. }
    rewrite E, remove_first_snoc by assumption.
    destruct (set_allocated_ips_persisted api s1 _ al Hp1)
      as (s2 & Hs & Hp2 & Hn2).
    exists s2. split; [exact Hs|]. split.
    + now apply get_allocated_ips_persisted.
    + congruence.
Qed.

Lemma free_ip_undoes_allocate_ip_witness :
  exists s1 s2,
    allocate_ip Dotted.api allocated_service PyNone = Ok (PyAddr (ten 3), s1)
    /\ free_ip Dotted.api s1 (Some (ten 3)) = Ok s2
    /\ get_allocated_ips Dotted.api s2 = [ten 1; ten 2].
Proof.
  destruct (allocate_ip Dotted.api allocated_service PyNone) as [[v s1]|e]
    eqn:E; [|vm_compute in E; discriminate E].
  assert (Hv : v = PyAddr (ten 3)).
  { vm_compute in E. injection E as <- _. reflexivity. }
  subst v.
  destruct (free_ip_undoes_allocate_ip Dotted.api allocated_service s1
              [ten 1; ten 2] PyNone (ten 3) dotted_api_ok
              persisted_allocated_service E)
    as (_ & _ & s2 & Hf & Hal & _).
  exists s1, s2. repeat split; assumption.
Defined.

Lemma set_allocated_ip_keyerror (api : text_api) (s : NetworkService)
    (v : pyval) :
  no_allocated_list s ->
  set_allocated_ip api s v = Raise (KeyError "allocated_ips").
Proof.
  intros [(fd1 & sub0 & He) Hf]. unfold set_allocated_ip. rewrite He.
  cbn [bind snd json_getitem].
  destruct (subnet_entry_fields s fd1 sub0 He) as (Hs & _).
  now rewrite Hs, Hf.
Qed.

Lemma get_allocated_ips_none (api : text_api) (s : NetworkService) :
  subnet_field s "allocated_ips" = None -> get_allocated_ips api s = [].
Proof. intros H. now rewrite get_allocated_ips_field, H. Qed.

(** X14: while the blob holds no allocated list, which is so until
    [set_subnet] is called, [allocate_ip(addr)] with a requested address
    raises [KeyError]; after [set_subnet] it records the address. *)
Theorem allocate_ip_requested_before_set_subnet (api : text_api)
    (s : NetworkService) (addr : pyval) :
  no_allocated_list s -> py_truthy addr = true ->
  allocate_ip api s addr = Raise (KeyError "allocated_ips")
  /\ get_allocated_ips api s = []
  /\ (forall net s1, set_subnet api s net = Ok s1 ->
                     text_api_ok api ->
                     forall a, exists s2,
                       allocate_ip api s1 (PyAddr a) = Ok (PyAddr a, s2)
                       /\ get_allocated_ips api s2 = [a]).
Proof.
  intros Hn Ht. split; [|split].
  - unfold allocate_ip. rewrite Ht.
    rewrite (get_allocated_ips_none api s (proj2 Hn)).
    replace (py_in addr []) with false by (now destruct addr).
    cbn [negb]. now rewrite (set_allocated_ip_keyerror api s addr Hn).
  - apply get_allocated_ips_none, Hn.
  - intros net s1 Hs Hok a.
    pose proof (set_subnet_persisted api s s1 net Hs) as Hp.
    destruct (set_allocated_ip_persisted api s1 [] a Hp) as (s2 & Hs2 & Hp2 & _).
    exists s2. unfold allocate_ip. cbn [py_truthy py_in].
    rewrite (get_allocated_ips_persisted api Hok s1 [] Hp). cbn [existsb negb].
    rewrite Hs2. split; [reflexivity|].
    now apply get_allocated_ips_persisted.
Qed.

Lemma fresh_l2_no_allocated_list : no_allocated_list fresh_l2.
Proof.
  split; [|vm_compute; reflexivity].
  eexists. eexists. vm_compute. reflexivity.
Defined.

Lemma allocate_ip_requested_before_set_subnet_witness :
  allocate_ip Dotted.api fresh_l2 (PyAddr (ten 5))
  = Raise (KeyError "allocated_ips").
Proof.
  apply (allocate_ip_requested_before_set_subnet Dotted.api fresh_l2
           (PyAddr (ten 5)) fresh_l2_no_allocated_list).
  reflexivity.
Defined.

(** ** Available addresses and configuration *)

(** [set_subnet] and [set_gateway] are [set_subnet_str] and
    [set_gateway_str] on the text of a network and of an address. *)
Lemma set_subnet_str_network (api : text_api) (s : NetworkService)
    (net : ip_network) :
  set_subnet api s net = set_subnet_str s (str_network api net).
Proof. reflexivity. Qed.

Lemma set_gateway_str_address (api : text_api) (s : NetworkService)
    (g : ip_address) :
  set_gateway api s g = set_gateway_str s (str_address api g).
Proof. reflexivity. Qed.

Lemma parse_all_map (A B : Type) (f : A -> option B) (h : A -> B)
    (l : list A) :
  (forall x, In x l -> f x = Some (h x)) -> parse_all f l = Some (map h l).
Proof.
  induction l as [|x r IH]; intros H; simpl; auto.
  rewrite (H x) by now left. rewrite IH; auto.
  intros y Hy. apply H. now right.
Qed.

Lemma parse_all_none (A B : Type) (f : A -> option B) (l : list A) (x : A) :
  In x l -> f x = None -> parse_all f l = None.
Proof.
  induction l as [|y r IH]; intros Hin Hx; simpl; [contradiction|].
  destruct Hin as [->|Hin].
  - now rewrite Hx.
  - destruct (f y); auto. now rewrite IH.
Qed.

(** X15: [get_available_ips(count)] is the empty list for a count that is
    not positive; for a positive count it is [None] unless the gateway is an
    address, and then it is the [count] addresses that follow the gateway,
    whatever is allocated, or [None] when they run past the last address of
    the version. *)
Theorem get_available_ips_spec (api : text_api) (sg : option ip_address)
    (s : NetworkService) (count : Z) :
  ((count <= 0)%Z -> get_available_ips api sg s count = Some [])
  /\ ((0 < count)%Z ->
      (forall g, get_gateway api sg s <> GatewayAddr g) ->
      get_available_ips api sg s count = None)
  /\ (forall g,
        get_gateway api sg s = GatewayAddr g ->
        (0 <= addr_int g)%Z -> (0 < count)%Z ->
        get_available_ips api sg s count
        = if (addr_int g + count <=? all_ones (addr_version g))%Z
          then Some (map (fun i => address_after g (Z.of_nat i + 1))
                       (seq 0 (Z.to_nat count)))
          else None).
Proof.
  unfold get_available_ips. split; [|split].
  - intros H. replace (Z.to_nat count) with 0 by lia. reflexivity.
  - intros H Hg.
    apply parse_all_none with (x := 0).
    + apply in_seq. lia.
    + destruct (get_gateway api sg s); auto. now destruct (Hg a).
  - intros g -> Hg0 Hc.
    destruct (addr_int g + count <=? all_ones (addr_version g))%Z eqn:E.
    + apply Z.leb_le in E. apply parse_all_map.
      intros i Hi. apply in_seq in Hi. unfold address_add. cbn [addr_int addr_version].
      replace ((0 <=? addr_int g + Z.of_nat i)
               && (addr_int g + Z.of_nat i <=? all_ones (addr_version g)))%Z
        with true by (symmetry; apply andb_true_iff; split; apply Z.leb_le; lia).
      cbn [addr_int addr_version].
      replace ((0 <=? addr_int g + Z.of_nat i + 1)
               && (addr_int g + Z.of_nat i + 1 <=? all_ones (addr_version g)))%Z
        with true by (symmetry; apply andb_true_iff; split; apply Z.leb_le; lia).
      unfold address_after. f_equal. f_equal. lia.
    + apply Z.leb_gt in E. apply parse_all_none with (x := Z.to_nat count - 1).
      * apply in_seq. lia.
      * unfold address_add. cbn [addr_int addr_version].
        destruct ((0 <=? addr_int g + Z.of_nat (Z.to_nat count - 1))
                  && (addr_int g + Z.of_nat (Z.to_nat count - 1)
                      <=? all_ones (addr_version g)))%Z; auto.
        cbn [addr_int addr_version].
        replace (addr_int g + Z.of_nat (Z.to_nat count - 1) + 1
                 <=? all_ones (addr_version g))%Z with false
          by (symmetry; apply Z.leb_gt; lia).
        now rewrite andb_false_r.
Qed.

Lemma subnet_entry_ok_updated (s : NetworkService) (fd1 sub : PyDict.t json) :
  subnet_entry_ok (set_fablib_data s (PyDict.set "subnet" (JObj sub) fd1)).
Proof.
  unfold subnet_entry_ok. rewrite get_fablib_data_set.
  exists (PyDict.set "subnet" (JObj sub) fd1), sub.
  apply subnet_entry_persisted. apply dict_get_set_same.
Qed.

Lemma set_instantiated_fields (s s1 : NetworkService) (b : bool) :
  set_instantiated s b = Ok s1 ->
  is_instantiated s1 = Ok b
  /\ (forall k, subnet_field s1 k = subnet_field s k)
  /\ (subnet_entry_ok s -> subnet_entry_ok s1)
  /\ s1 = set_fablib_data s
            match get_fablib_data s1 with JObj d => d | _ => [] end.
Proof.
  unfold set_instantiated.
  destruct (get_fablib_data s) as [| | | | |fd] eqn:Hfd; try discriminate.
  intros H. injection H as <-.
  set (fd1 := PyDict.set "instantiated" _ fd).
  assert (Hfd1 : get_fablib_data (set_fablib_data s fd1) = JObj fd1)
    by apply get_fablib_data_set.
  split; [|split; [|split]].
  - rewrite (is_instantiated_of_dict _ _ Hfd1). unfold fd1.
    rewrite dict_get_set_same. now destruct b.
  - intros k. unfold subnet_field. rewrite Hfd1, Hfd. unfold fd1.
    now rewrite dict_get_set_other by discriminate.
  - unfold subnet_entry_ok. rewrite Hfd1, Hfd. unfold subnet_entry, PyDict.mem.
    unfold fd1. rewrite dict_get_set_other by discriminate.
    intros (f & sub0 & H).
    destruct (PyDict.get "subnet" fd) as [v|] eqn:E; cbn [bind json_getitem] in *.
    + rewrite dict_get_set_other by discriminate. rewrite E in *.
      cbn [bind] in *. injection H as _ ->. eauto.
    + rewrite dict_get_set_same. cbn [bind]. eauto.
  - now rewrite Hfd1.
Qed.

(** X16: [config] on a service that is not an L3 service only raises the
    instantiated flag: the ["subnet"] entry, the allocated addresses and
    the topology stay, and a second [config] changes nothing. *)
Theorem config_l2 (api : text_api) (sg : option ip_address)
    (s : NetworkService) :
  get_layer s <> Some L3 ->
  (exists fd, get_fablib_data s = JObj fd) ->
  exists s1,
    config api sg s = Ok s1
    /\ is_instantiated s1 = Ok true
    /\ (forall k, subnet_field s1 k = subnet_field s k)
    /\ get_allocated_ips api s1 = get_allocated_ips api s
    /\ same_topology s s1
    /\ config api sg s1 = Ok s1.
Proof.
  intros Hl [fd Hfd]. unfold config.
  rewrite (is_instantiated_of_dict s fd Hfd). cbn [bind].
  set (inst := match PyDict.get "instantiated" fd with
               | Some (JStr t) => String.eqb t "True"
               | _ => false
               end).
  assert (Hinst : is_instantiated s = Ok inst)
    by apply (is_instantiated_of_dict s fd Hfd).
  assert (Hdone : forall s1, is_instantiated s1 = Ok true ->
                             get_layer s1 <> Some L3 ->
                             config api sg s1 = Ok s1).
  { intros s1 Hi Hl1. unfold config. rewrite Hi. cbn [bind negb].
    destruct (get_layer s1) as [[|]|]; auto. congruence. }
  destruct inst; cbn [negb].
  - cbn [bind]. exists s.
    destruct (get_layer s) as [[|]|] eqn:El; try congruence;
      (split; [reflexivity|]; split; [exact Hinst|]; split; [reflexivity|];
       split; [reflexivity|]; split; [repeat split|];
       apply Hdone; [exact Hinst|congruence]).
  - destruct (set_instantiated s true) as [s1|] eqn:Hs.
    2:{ unfold set_instantiated in Hs. rewrite Hfd in Hs. discriminate. }
    cbn [bind]. destruct (set_instantiated_fields s s1 true Hs)
      as (Hi & Hf & _ & Heq).
    assert (Hl1 : get_layer s1 = get_layer s) by (rewrite Heq; reflexivity).
    exists s1. rewrite Hl1.
    split; [destruct (get_layer s) as [[|]|]; try reflexivity; congruence|].
    split; [exact Hi|]. split; [exact Hf|]. split.
    + now rewrite !get_allocated_ips_field, Hf.
    + split; [rewrite Heq; repeat split|].
      apply Hdone; [exact Hi|congruence].
Qed.

Lemma config_l2_witness :
  is_instantiated fresh_l2 = Ok false
  /\ exists s1,
       config Dotted.api None fresh_l2 = Ok s1
       /\ is_instantiated s1 = Ok true
       /\ config Dotted.api None s1 = Ok s1.
Proof.
  split; [vm_compute; reflexivity|].
  destruct (config_l2 Dotted.api None fresh_l2)
    as (s1 & Hc & Hi & _ & _ & _ & Hagain).
  - vm_compute. discriminate.
  - eexists. vm_compute. reflexivity.
  - exists s1. repeat split; assumption.
Defined.

Lemma get_subnet_net_instantiated (api : text_api) (s : NetworkService)
    (net : ip_network) :
  get_subnet api s = SubnetNet net -> is_instantiated s = Ok true.
Proof.
  unfold get_subnet. destruct (is_instantiated s) as [[|]|]; auto; discriminate.
Qed.

(** X17: [config] on an L3 service whose sliver reports a subnet and a
    gateway records both, and leaves the gateway as the only allocated
    address, whatever was allocated before. *)
Theorem config_l3 (api : text_api) (s : NetworkService) (net : ip_network)
    (g : ip_address) :
  text_api_ok api ->
  get_layer s = Some L3 -> sliver_subnet s = Some net -> subnet_entry_ok s ->
  exists s1,
    config api (Some g) s = Ok s1
    /\ is_instantiated s1 = Ok true
    /\ get_subnet api s1 = SubnetNet net
    /\ get_gateway api (Some g) s1 = GatewayAddr g
    /\ get_allocated_ips api s1 = [g]
    /\ subnet_field s1 "subnet" = Some (JStr (str_network api net))
    /\ subnet_field s1 "gateway" = Some (JStr (str_address api g)).
Proof.
  intros Hok Hl Hnet Hentry.
  (* the instantiated flag *)
  assert (H1 : exists s1,
             (inst <- is_instantiated s ;;
              if negb inst then set_instantiated s true else Ok s) = Ok s1
             /\ is_instantiated s1 = Ok true /\ subnet_entry_ok s1
             /\ get_layer s1 = Some L3 /\ sliver_subnet s1 = Some net).
  { destruct Hentry as (fd1 & sub0 & He).
    destruct (subnet_entry_inv _ _ _ He) as (fd & Hfd & _).
    rewrite (is_instantiated_of_dict s fd Hfd). cbn [bind].
    destruct (match PyDict.get "instantiated" fd with
              | Some (JStr t) => String.eqb t "True"
              | _ => false
              end) eqn:Einst; cbn [negb].
    - exists s. repeat split; auto.
      + now rewrite (is_instantiated_of_dict s fd Hfd), Einst.
      + now exists fd1, sub0.
    - destruct (set_instantiated s true) as [s1|] eqn:Hs.
      2:{ unfold set_instantiated in Hs. rewrite Hfd in Hs. discriminate. }
      destruct (set_instantiated_fields s s1 true Hs) as (Hi & _ & Hent & Heq).
      exists s1. split; [reflexivity|]. split; [exact Hi|].
      split; [apply Hent; now exists fd1, sub0|].
      rewrite Heq. split; assumption. }
  destruct H1 as (s1 & Hc1 & Hi1 & (fd1 & sub0 & He1) & Hl1 & Hn1).
  assert (Hsub1 : get_subnet api s1 = SubnetNet net).
  { rewrite get_subnet_field, Hi1, Hl1, Hn1. reflexivity. }
  (* set_subnet *)
  set (sub2 := PyDict.set "allocated_ips" (JList [])
                 (PyDict.set "subnet" (JStr (str_network api net)) sub0)).
  set (fd2 := PyDict.set "subnet" (JObj sub2) fd1).
  set (s2 := set_fablib_data s1 fd2).
  assert (Hs2 : set_subnet_str s1 (str_subnet_value api (get_subnet api s1))
                = Ok s2).
  { unfold set_subnet_str. rewrite He1, Hsub1. reflexivity. }
  destruct (subnet_field_updated s1 fd1 sub2) as (Hf2 & Hi2 & _).
  fold fd2 in Hf2, Hi2. fold s2 in Hf2, Hi2.
  rewrite <- (is_instantiated_entry s1 fd1 (JObj sub0) He1), Hi1 in Hi2.
  assert (Hg2 : get_gateway api (Some g) s2 = GatewayAddr g).
  { rewrite get_gateway_field, Hi2.
    change (get_layer s2) with (get_layer s1). now rewrite Hl1. }
  (* set_gateway *)
  assert (He2 : subnet_entry (get_fablib_data s2) = Ok (fd2, JObj sub2)).
  { unfold s2. rewrite get_fablib_data_set. apply subnet_entry_persisted.
    apply dict_get_set_same. }
  set (sub3 := PyDict.set "gateway" (JStr (str_address api g)) sub2).
  set (fd3 := PyDict.set "subnet" (JObj sub3) fd2).
  set (s3 := set_fablib_data s2 fd3).
  assert (Hs3 : set_gateway_str s2
                  (py_str api (gateway_pyval (get_gateway api (Some g) s2)))
                = Ok s3).
  { unfold set_gateway_str. rewrite He2, Hg2. reflexivity. }
  destruct (subnet_setter s2 fd2 sub2 "gateway"
              (JStr (str_address api g)) He2) as (Hi3 & Hf3).
  fold sub3 in Hi3, Hf3. fold fd3 in Hi3, Hf3. fold s3 in Hi3, Hf3.
  rewrite Hi2 in Hi3.
  assert (Hg3 : get_gateway api (Some g) s3 = GatewayAddr g).
  { rewrite get_gateway_field, Hi3.
    change (get_layer s3) with (get_layer s1). now rewrite Hl1. }
  assert (Hp3 : persisted_ips api s3 []).
  { exists fd3, sub3. unfold s3. rewrite get_fablib_data_set.
    split; [reflexivity|]. split; [apply dict_get_set_same|].
    unfold sub3, sub2. rewrite dict_get_set_other by discriminate.
    apply dict_get_set_same. }
  assert (Hsub3 : get_subnet api s3 = SubnetNet net).
  { rewrite get_subnet_field, Hi3.
    change (get_layer s3) with (get_layer s1).
    change (sliver_subnet s3) with (sliver_subnet s1).
    now rewrite Hl1, Hn1. }
  (* set_allocated_ip *)
  destruct (set_allocated_ip_persisted api s3 [] g Hp3)
    as (s4 & Hs4 & Hp4 & Hsub4).
  pose proof (set_allocated_ip_frame api s3 s4 (PyAddr g) Hs4)
    as (_ & Hl4 & _).
  rewrite Hsub3 in Hsub4.
  pose proof (get_subnet_net_instantiated api s4 net Hsub4) as Hi4.
  assert (Hf4 : forall k, k <> "allocated_ips" ->
                          subnet_field s4 k = subnet_field s3 k).
  { intros k Hk. revert Hs4. unfold set_allocated_ip.
    assert (He3 : subnet_entry (get_fablib_data s3) = Ok (fd3, JObj sub3)).
    { unfold s3. rewrite get_fablib_data_set. apply subnet_entry_persisted.
      apply dict_get_set_same. }
    rewrite He3. cbn [bind snd fst json_getitem].
    destruct (PyDict.get "allocated_ips" sub3) as [[| | | |l|]|];
      try discriminate.
    intros H. injection H as <-.
    destruct (subnet_setter s3 fd3 sub3 "allocated_ips"
                (JList (l ++ [JStr (py_str api (PyAddr g))])) He3) as (_ & Hf).
    rewrite Hf. apply String.eqb_neq in Hk. now rewrite Hk. }
  exists s4. split; [|split; [|split; [|split; [|split; [|split]]]]].
  - unfold config.
    destruct (is_instantiated s) as [inst|]; [|discriminate].
    cbn [bind] in *. rewrite Hc1. cbn [bind]. rewrite Hl1, Hs2. cbn [bind].
    rewrite Hs3. cbn [bind]. rewrite Hg3. exact Hs4.
  - exact Hi4.
  - exact Hsub4.
  - rewrite get_gateway_field, Hi4, Hl4.
    change (get_layer s3) with (get_layer s1). now rewrite Hl1.
  - now apply get_allocated_ips_persisted.
  - rewrite Hf4, Hf3 by discriminate. cbn [String.eqb Ascii.eqb Bool.eqb].
    rewrite Hf2. unfold sub2. rewrite dict_get_set_other by discriminate.
    apply dict_get_set_same.
  - rewrite Hf4, Hf3 by discriminate. now rewrite String.eqb_refl.
Qed.

Lemma config_l3_witness :
  exists s1,
    config Dotted.api (Some (ten 1)) l3_service = Ok s1
    /\ get_subnet Dotted.api s1 = SubnetNet (ten_net 24)
    /\ get_allocated_ips Dotted.api s1 = [ten 1].
Proof.
  destruct (config_l3 Dotted.api l3_service (ten_net 24) (ten 1)
              dotted_api_ok)
    as (s1 & Hc & _ & Hs & _ & Ha & _).
  - reflexivity.
  - reflexivity.
  - eexists. eexists. vm_compute. reflexivity.
  - exists s1. repeat split; assumption.
Defined.

(** ** Adding and removing interfaces *)

Lemma get_interfaces_frame (s : NetworkService) :
  let s1 := snd (get_interfaces s) in
  fim_network_service s1 = fim_network_service s
  /\ slice_interfaces s1 = slice_interfaces s
  /\ sliver_subnet s1 = sliver_subnet s
  /\ sliver_site s1 = sliver_site s.
Proof.
  unfold get_interfaces.
  destruct (self_interfaces s) as [[|i r]|]; repeat split.
Qed.

Lemma replace_network_service_frame (s s1 : NetworkService)
    (t : option ServiceType) :
  __replace_network_service s t = Ok s1 ->
  slice_interfaces s1 = slice_interfaces s
  /\ sliver_subnet s1 = sliver_subnet s
  /\ sliver_site s1 = sliver_site s.
Proof.
  unfold __replace_network_service.
  pose proof (get_interfaces_frame s) as (_ & H1 & H2 & H3).
  destruct (get_interfaces s) as [l s0]. simpl in *.
  destruct t; [|discriminate]. intros H. injection H as <-.
  repeat split; assumption.
Qed.

Lemma nstype_neqb_false (curr t : ServiceType) :
  nstype_neqb curr (Some t) = false <-> curr = t.
Proof.
  unfold nstype_neqb, ServiceType_eqb.
  destruct (ServiceType_eq_dec curr t); simpl; split; congruence.
Qed.

Lemma add_interface_retype_l2 (s : NetworkService) (i : Interface) :
  get_layer s = Some L2 -> get_type s <> PortMirror ->
  match __calculate_l2_nstype (held s ++ [i])
          (fim_ero (fim_network_service s)) with
  | Raise e => add_interface_retype s i = Raise e
  | Ok None => False
  | Ok (Some t) =>
      exists s1,
        add_interface_retype s i = Ok s1
        /\ get_type s1 = t
        /\ get_layer s1 = Some L2
        /\ get_name s1 = get_name s
        /\ get_user_data s1 = get_user_data s
        /\ self_interfaces s1 = Some (held s ++ [i])%list
        /\ fim_interface_list (fim_network_service s1)
           = (if ServiceType_eqb (get_type s) t
              then fim_interface_list (fim_network_service s) ++ [if_name i]
              else map if_name (held s ++ [i]))%list
        /\ slice_interfaces s1 = slice_interfaces s
        /\ sliver_subnet s1 = sliver_subnet s
        /\ fim_ero (fim_network_service s1)
           = (if ServiceType_eqb (get_type s) t
              then fim_ero (fim_network_service s) else false)
  end.
Proof.
  intros Hl Ht. unfold add_interface_retype, held.
  replace (ServiceType_eqb (get_type s) PortMirror) with false.
  2:{ unfold ServiceType_eqb.
      destruct (ServiceType_eq_dec (get_type s) PortMirror); congruence. }
  pose proof (get_interfaces_frame s) as (Hf & Hs1 & Hs2 & _).
  destruct (get_interfaces s) as [got s0]. cbn [fst snd] in *.
  set (s2 := with_interfaces s0 (got ++ [i])).
  assert (Hf2 : fim_network_service s2 = fim_network_service s) by exact Hf.
  assert (Hl2 : get_layer s2 = Some L2)
    by (unfold get_layer; now rewrite Hf2).
  assert (Ht2 : get_type s2 = get_type s)
    by (unfold get_type; now rewrite Hf2).
  rewrite Hl2, Hf2, Ht2.
  destruct (__calculate_l2_nstype (got ++ [i]) _) as [new|e] eqn:Ec;
    [|reflexivity].
  cbn [bind].
  destruct (resolved_l2_type _ _ _ Ec) as (t & -> & H3).
  destruct (nstype_neqb (get_type s) (Some t)) eqn:En.
  - assert (Hc2 : exists x r, self_interfaces s2 = Some (x :: r)
                              /\ (got ++ [i])%list = x :: r).
    { unfold s2. cbn. destruct (got ++ [i])%list as [|x r] eqn:E; eauto.
      apply app_eq_nil in E. destruct E as [_ E]. discriminate E. }
    destruct Hc2 as (x & r & Hc2 & Hxr).
    destruct (replace_network_service_spec s2 t x r Hc2)
      as (s1 & Hr & Ht1 & Hn1 & Hl1 & Hi1 & Hc1 & Hu1).
    destruct (replace_network_service_frame _ _ _ Hr) as (Hx1 & Hx2 & _).
    exists s1. split; [exact Hr|]. split; [exact Ht1|].
    split; [rewrite Hl1; destruct H3 as [-> | [-> | ->]]; reflexivity|].
    split; [rewrite Hn1; unfold get_name; now rewrite Hf2|].
    split; [rewrite Hu1; unfold get_user_data; now rewrite Hf2|].
    split; [now rewrite Hc1, Hxr|]. split.
    + rewrite Hi1, Hxr. unfold ServiceType_eqb.
      destruct (ServiceType_eq_dec (get_type s) t) as [Heq|Hne];
        [|reflexivity].
      apply nstype_neqb_false in Heq. congruence.
    + split; [rewrite Hx1; assumption|].
      split; [rewrite Hx2; assumption|].
      replace (ServiceType_eqb (get_type s) t) with false.
      * revert Hr. unfold __replace_network_service.
        destruct (get_interfaces s2). intros Hr. injection Hr as <-.
        reflexivity.
      * unfold ServiceType_eqb.
        destruct (ServiceType_eq_dec (get_type s) t) as [Heq|Hne];
          [|reflexivity].
        apply nstype_neqb_false in Heq. congruence.
  - apply nstype_neqb_false in En.
    eexists. split; [reflexivity|].
    replace (ServiceType_eqb (get_type s) t) with true
      by (unfold ServiceType_eqb;
          destruct (ServiceType_eq_dec (get_type s) t); congruence).
    repeat split; auto; cbn; now rewrite Hf2.
Qed.

Lemma endswith_refl (s : string) : endswith s s = true.
Proof. destruct s; simpl; [reflexivity|]. now rewrite Ascii.eqb_refl, String.eqb_refl. Qed.

Lemma has_interface_attached (s : NetworkService) (i : Interface) :
  In (if_name i) (fim_interface_list (fim_network_service s)) ->
  has_interface s i = true.
Proof.
  intros H. unfold has_interface. apply existsb_exists.
  exists (if_name i). split; [exact H|apply endswith_refl].
Qed.

Lemma held_cached (s : NetworkService) (l : list Interface) :
  l <> [] -> self_interfaces s = Some l -> held s = l.
Proof.
  intros Hne H. unfold held. destruct l as [|x r]; [contradiction|].
  now rewrite (get_interfaces_cached s x r H).
Qed.

Lemma add_interface_addr_plain (api : text_api) (s : NetworkService)
    (i : Interface) :
  PyDict.get "addr" (if_fablib_data i) = None ->
  PyDict.get "auto" (if_fablib_data i) = None ->
  get_layer s = Some L2 ->
  add_interface_addr api s i = Ok (s, set_if_fablib_data i (if_fablib_data i)).
Proof.
  intros Ha Hb Hl. unfold add_interface_addr, assign_address.
  rewrite Ha, Hb. cbn [py_truthy].
  destruct (subnet_truthy (get_subnet api s)); cbn [bind fst snd];
    now rewrite Hl.
Qed.

Lemma calculate_small (l : list Interface) (ero : bool) :
  distinct_sites l <= 1 -> __calculate_l2_nstype l ero = Ok (Some L2Bridge).
Proof.
  intros H. rewrite calculate_l2_nstype_spec.
  now replace (distinct_sites l <=? 1) with true
    by (symmetry; now apply Nat.leb_le).
Qed.

Lemma calculate_ok_sites (l : list Interface) (ero : bool)
    (t : option ServiceType) :
  __calculate_l2_nstype l ero = Ok t -> distinct_sites l <= 2.
Proof.
  rewrite calculate_l2_nstype_spec.
  destruct (_ <=? 1) eqn:E1; [apply Nat.leb_le in E1; lia|].
  destruct (_ =? 2) eqn:E2; [apply Nat.eqb_eq in E2; lia|discriminate].
Qed.

Lemma calculate_total (l : list Interface) (ero : bool) :
  distinct_sites l <= 2 ->
  exists t, __calculate_l2_nstype l ero = Ok (Some t)
            /\ (t = L2Bridge \/ t = L2PTP \/ t = L2STS).
Proof.
  intros H. rewrite calculate_l2_nstype_spec.
  destruct (_ <=? 1) eqn:E1; [eauto|].
  apply Nat.leb_gt in E1.
  replace (distinct_sites l =? 2) with true
    by (symmetry; apply Nat.eqb_eq; lia).
  destruct (_ && _); eauto 6.
Qed.

Lemma set_allocated_ip_shape (api : text_api) (s s1 : NetworkService)
    (v : pyval) :
  set_allocated_ip api s v = Ok s1 -> blob_update s s1.
Proof.
  unfold set_allocated_ip.
  destruct (subnet_entry (get_fablib_data s)) as [[fd1 sub]|]; [|discriminate].
  cbn [bind snd fst].
  destruct (json_getitem sub "allocated_ips") as [al|]; [|discriminate].
  cbn [bind]. destruct al; try discriminate. destruct sub; try discriminate.
  intros H. injection H as <-. right. eauto.
Qed.

Lemma allocate_ip_shape (api : text_api) (s : NetworkService) (v : pyval)
    (r : pyval * NetworkService) :
  allocate_ip api s v = Ok r -> blob_update s (snd r).
Proof.
  unfold allocate_ip. destruct (py_truthy v).
  - destruct (negb _).
    + destruct (set_allocated_ip api s v) as [s1|] eqn:E; [|discriminate].
      cbn [bind]. intros H. injection H as <-.
      now apply set_allocated_ip_shape in E.
    + intros H. injection H as <-. now left.
  - destruct (get_subnet api s); try (intros H; injection H as <-; now left).
    destruct (first_free _ _ _) as [h|];
      [|intros H; injection H as <-; now left].
    destruct (set_allocated_ip api s (PyAddr h)) as [s1|] eqn:E;
      [|discriminate].
    cbn [bind]. intros H. injection H as <-.
    now apply set_allocated_ip_shape in E.
Qed.

Lemma add_interface_addr_shape (api : text_api) (s s1 : NetworkService)
    (i i1 : Interface) :
  add_interface_addr api s i = Ok (s1, i1) -> get_layer s = Some L2 ->
  blob_update s s1.
Proof.
  unfold add_interface_addr, assign_address. intros H Hl.
  destruct (subnet_truthy _).
  - destruct (py_truthy _).
    + destruct (allocate_ip api s _) as [r|] eqn:E; [|discriminate].
      apply allocate_ip_shape in E. cbn [bind fst snd] in H.
      assert (Hl1 : get_layer (snd r) = Some L2).
      { destruct E as [->|(fd1 & sub & ->)]; exact Hl. }
      rewrite Hl1 in H. injection H as <- _. exact E.
    + destruct (match PyDict.get "auto" _ with Some v => truthy v | None => false end).
      * destruct (allocate_ip api s _) as [r|] eqn:E; [|discriminate].
        apply allocate_ip_shape in E. cbn [bind fst snd] in H.
        assert (Hl1 : get_layer (snd r) = Some L2).
        { destruct E as [->|(fd1 & sub & ->)]; exact Hl. }
        rewrite Hl1 in H. injection H as <- _. exact E.
      * cbn [bind fst snd] in H. rewrite Hl in H. injection H as <- _.
        now left.
  - cbn [bind fst snd] in H. rewrite Hl in H. injection H as <- _. now left.
Qed.

Lemma blob_update_entry_ok (s s1 : NetworkService) :
  blob_update s s1 -> subnet_entry_ok s -> subnet_entry_ok s1.
Proof.
  intros [->|(fd1 & sub & ->)] H; [exact H|apply subnet_entry_ok_updated].
Qed.

Lemma blob_update_ero (s s1 : NetworkService) :
  blob_update s s1 ->
  fim_ero (fim_network_service s1) = fim_ero (fim_network_service s).
Proof. intros [->|(fd1 & sub & ->)]; reflexivity. Qed.

Lemma entry_ok_user_data (s s1 : NetworkService) :
  get_user_data s1 = get_user_data s -> subnet_entry_ok s ->
  subnet_entry_ok s1.
Proof.
  unfold subnet_entry_ok, get_fablib_data. now intros ->.
Qed.

(** What a successful [add_interface] leaves of an L2 service. *)
Lemma add_interface_l2_result (api : text_api) (s s1 : NetworkService)
    (i i1 : Interface) :
  get_layer s = Some L2 -> get_type s <> PortMirror ->
  add_interface api s i = Ok (s1, i1) ->
  __calculate_l2_nstype (held s ++ [i])
    (fim_ero (fim_network_service s)) = Ok (Some (get_type s1))
  /\ held s1 = (held s ++ [i])%list
  /\ fim_interface_list (fim_network_service s1)
     = (if ServiceType_eqb (get_type s) (get_type s1)
        then fim_interface_list (fim_network_service s) ++ [if_name i]
        else map if_name (held s ++ [i]))%list
  /\ get_layer s1 = Some L2
  /\ if_name i1 = if_name i
  /\ fim_ero (fim_network_service s1)
     = (if ServiceType_eqb (get_type s) (get_type s1)
        then fim_ero (fim_network_service s) else false)
  /\ (subnet_entry_ok s -> subnet_entry_ok s1).
Proof.
  intros Hl Ht. pose proof (add_interface_retype_l2 s i Hl Ht) as H.
  unfold add_interface.
  destruct (__calculate_l2_nstype (held s ++ [i]) _) as [[t|]|e] eqn:Ec;
    try contradiction.
  - destruct H as (s0 & Hr & Ht0 & Hl0 & Hn0 & Hu0 & Hc0 & Hi0 & _ & _ & He0).
    rewrite Hr. cbn [bind]. intros Ha.
    destruct (add_interface_addr_frame api s0 s1 i i1 Ha Hl0)
      as ((Ht1 & Hl1 & Hi1 & Hc1) & _ & Hn1).
    pose proof (add_interface_addr_shape api s0 s1 i i1 Ha Hl0) as Hshape.
    assert (Hne : (held s ++ [i])%list <> []).
    { intros E. apply app_eq_nil in E. destruct E as [_ E]. discriminate. }
    rewrite Ht1, Ht0.
    split; [reflexivity|].
    split; [apply held_cached; [exact Hne|congruence]|].
    split; [congruence|]. split; [congruence|]. split; [exact Hn1|].
    split; [rewrite (blob_update_ero _ _ Hshape); exact He0|].
    intros Hent. apply (blob_update_entry_ok _ _ Hshape).
    now apply (entry_ok_user_data s s0).
  - rewrite H. discriminate.
Qed.

(** X18: [add_interface] on an L2 service that is not a PortMirror raises
    when the interfaces held and the new one span more than two sites; when
    it returns, the type of the service is the one the resolver gives for
    them, the facade holds the new interface last, [has_interface] finds it,
    and a facade that agreed with the FIM object still does; with at most
    two sites and no address asked for it returns, the user data unchanged. *)
Theorem add_interface_l2 (api : text_api) (s : NetworkService)
    (i : Interface) :
  get_layer s = Some L2 -> get_type s <> PortMirror ->
  (2 < distinct_sites (held s ++ [i]) ->
   exists sites, add_interface api s i = Raise (TooManySites sites))
  /\ (forall s1 i1,
        add_interface api s i = Ok (s1, i1) ->
        __calculate_l2_nstype (held s ++ [i])
          (fim_ero (fim_network_service s)) = Ok (Some (get_type s1))
        /\ held s1 = (held s ++ [i])%list
        /\ has_interface s1 i = true
        /\ (consistent s -> consistent s1)
        /\ get_layer s1 = Some L2
        /\ if_name i1 = if_name i)
  /\ (distinct_sites (held s ++ [i]) <= 2 ->
      PyDict.get "addr" (if_fablib_data i) = None ->
      PyDict.get "auto" (if_fablib_data i) = None ->
      exists s1 i1, add_interface api s i = Ok (s1, i1)
                    /\ get_user_data s1 = get_user_data s).
Proof.
  intros Hl Ht. split; [|split].
  - intros Hd. pose proof (add_interface_retype_l2 s i Hl Ht) as H.
    unfold add_interface.
    destruct (__calculate_l2_nstype (held s ++ [i]) _) as [[t|]|e] eqn:Ec;
      try contradiction.
    + apply calculate_ok_sites in Ec. lia.
    + rewrite H. cbn [bind]. rewrite calculate_l2_nstype_spec in Ec.
      destruct (_ <=? 1); [discriminate|].
      destruct (_ =? 2); [destruct (_ && _); discriminate|].
      injection Ec as <-. eauto.
  - intros s1 i1 Ha.
    destruct (add_interface_l2_result api s s1 i i1 Hl Ht Ha)
      as (Hc & Hh & Hi & Hl1 & Hn & _).
    assert (Hin : In (if_name i) (fim_interface_list (fim_network_service s1))).
    { rewrite Hi. destruct (ServiceType_eqb _ _).
      - apply in_or_app. right. now left.
      - rewrite map_app. apply in_or_app. right. now left. }
    split; [exact Hc|]. split; [exact Hh|].
    split; [now apply has_interface_attached|].
    split; [|split; assumption].
    unfold consistent. intros Hcons. rewrite Hh, Hi.
    destruct (ServiceType_eqb _ _); [|reflexivity].
    now rewrite map_app, Hcons.
  - intros Hd Ha Hb. pose proof (add_interface_retype_l2 s i Hl Ht) as H.
    destruct (calculate_total (held s ++ [i])
                (fim_ero (fim_network_service s)) Hd) as (t & Hc & _).
    rewrite Hc in H.
    destruct H as (s0 & Hr & _ & Hl0 & _ & Hu0 & _).
    unfold add_interface. rewrite Hr. cbn [bind].
    rewrite (add_interface_addr_plain api s0 i Ha Hb Hl0). eauto.
Qed.

Lemma add_interface_l2_witness :
  held bridge_service = [if_a]
  /\ get_type bridge_service = L2Bridge
  /\ exists s1 f1,
       add_interface Dotted.api bridge_service if_f = Ok (s1, f1)
       /\ get_type s1 = L2PTP
       /\ held s1 = [if_a; if_f]
       /\ has_interface s1 if_f = true.
Proof.
  split; [reflexivity|]. split; [reflexivity|].
  destruct (add_interface_l2 Dotted.api bridge_service if_f)
    as (_ & Hres & Hok).
  - reflexivity.
  - discriminate.
  - destruct Hok as (s1 & f1 & Ha & _).
    + vm_compute. lia.
    + reflexivity.
    + reflexivity.
    + destruct (Hres s1 f1 Ha) as (Hc & Hh & Hhas & _).
      exists s1, f1. split; [exact Ha|]. split; [|split; assumption].
      vm_compute in Hc. now injection Hc.
Defined.

Lemma remove_interface_from_incl (i x : Interface) (l : list Interface) :
  In x (remove_interface_from i l) -> In x l.
Proof.
  induction l as [|y r IH]; simpl; auto.
  destruct (same_interface i y); [now right|].
  intros [->|H]; [now left|right; auto].
Qed.

Lemma without_incl (i x : Interface) (l : list Interface) :
  In x (without i l) -> In x l.
Proof.
  unfold without. destruct (existsb _ l); auto.
  apply remove_interface_from_incl.
Qed.

Lemma distinct_sites_incl (l l' : list Interface) :
  (forall x, In x l -> In x l') -> distinct_sites l <= distinct_sites l'.
Proof.
  intros H. unfold distinct_sites. apply NoDup_incl_length.
  - apply NoDup_nodup.
  - intros x Hx. apply nodup_In in Hx. apply nodup_In.
    apply in_map_iff in Hx. destruct Hx as (y & <- & Hy).
    apply in_map. auto.
Qed.

Lemma remove_names (i : Interface) (l : list Interface) :
  NoDup (map if_name l) ->
  List.remove string_dec (if_name i) (map if_name l)
  = map if_name (without i l).
Proof.
  unfold without, same_interface.
  induction l as [|x r IH]; intros Hnd; [reflexivity|].
  inversion Hnd as [|? ? Hx Hr]; subst. specialize (IH Hr).
  cbn [map List.remove existsb remove_interface_from]. unfold same_interface.
  destruct (string_dec (if_name i) (if_name x)) as [E|E].
  - rewrite (proj2 (String.eqb_eq _ _) E). cbn [orb].
    rewrite notin_remove; [reflexivity|]. now rewrite E.
  - rewrite (proj2 (String.eqb_neq _ _) E). cbn [orb].
    rewrite IH.
    destruct (existsb (fun b => String.eqb (if_name i) (if_name b)) r);
      reflexivity.
Qed.

Lemma free_ip_frame (api : text_api) (s s1 : NetworkService)
    (a : option ip_address) :
  free_ip api s a = Ok s1 ->
  exists d, s1 = set_fablib_data s d.
Proof.
  unfold free_ip, set_allocated_ips.
  destruct (subnet_entry (get_fablib_data s)) as [[fd1 sub]|]; [|discriminate].
  cbn [bind snd fst]. destruct sub; try discriminate.
  intros H. injection H as <-. eauto.
Qed.

Lemma free_ip_succeeds (api : text_api) (s : NetworkService)
    (a : option ip_address) :
  subnet_entry_ok s -> exists s1, free_ip api s a = Ok s1.
Proof.
  intros (fd1 & sub0 & He). unfold free_ip, set_allocated_ips.
  rewrite He. cbn [bind snd fst]. eauto.
Qed.

Lemma held_set_fablib_data (s : NetworkService) (d : PyDict.t json) :
  get_interfaces (set_fablib_data s d)
  = (held s, set_fablib_data (snd (get_interfaces s)) d).
Proof.
  unfold held, get_interfaces. cbn.
  destruct (self_interfaces s) as [[|x r]|]; reflexivity.
Qed.

Lemma without_nil_sites (i : Interface) (l : list Interface) :
  without i l = [] -> distinct_sites l <= 1.
Proof.
  unfold without. destruct l as [|x [|y r]]; cbn; intros H.
  - cbv. lia.
  - unfold distinct_sites. cbn. lia.
  - exfalso. destruct (same_interface i x); cbn in H; [discriminate|].
    destruct (same_interface i y); cbn in H; [discriminate|].
    destruct (existsb (same_interface i) r); discriminate.
Qed.

(** [remove_interface] once [free_ip] has returned. *)
Lemma remove_interface_l2_spec (api : text_api) (s s' : NetworkService)
    (i : Interface) :
  free_ip api s (if_ip_addr i) = Ok s' -> get_layer s = Some L2 ->
  __calculate_l2_nstype (held s) (fim_ero (fim_network_service s))
  = Ok (Some (get_type s)) ->
  exists s1,
    remove_interface api s i = Ok s1
    /\ __calculate_l2_nstype (without i (held s))
         (fim_ero (fim_network_service s)) = Ok (Some (get_type s1))
    /\ self_interfaces s1 = Some (without i (held s))
    /\ get_layer s1 = Some L2
    /\ ~ In (if_name i) (fim_interface_list (fim_network_service s1))
    /\ (consistent s -> NoDup (map if_name (held s)) ->
        fim_interface_list (fim_network_service s1)
        = map if_name (without i (held s))
        /\ held s1 = without i (held s)
        /\ consistent s1).
Proof.
  intros Hfree Hl Htype.
  destruct (free_ip_frame api s s' _ Hfree) as (d & ->).
  unfold remove_interface. rewrite Hfree. cbn [bind].
  rewrite held_set_fablib_data.
  pose proof (get_interfaces_frame s) as (Hf & _).
  set (s0 := snd (get_interfaces s)) in *.
  fold (without i (held s)). set (rest := without i (held s)).
  set (s3 := with_interfaces (set_fablib_data s0 d) rest).
  assert (Hl3 : get_layer s3 = Some L2)
    by (unfold get_layer; cbn; rewrite Hf; exact Hl).
  assert (Ht3 : get_type s3 = get_type s)
    by (unfold get_type; cbn; now rewrite Hf).
  assert (He3 : fim_ero (fim_network_service s3)
                = fim_ero (fim_network_service s))
    by (cbn; now rewrite Hf).
  assert (Hi3 : fim_interface_list (fim_network_service s3)
                = fim_interface_list (fim_network_service s))
    by (cbn; now rewrite Hf).
  rewrite Hl3, He3, Ht3.
  assert (Hsites : distinct_sites rest <= 2).
  { apply calculate_ok_sites in Htype.
    pose proof (distinct_sites_incl rest (held s)
                  (fun x => without_incl i x (held s))). lia. }
  destruct (calculate_total rest (fim_ero (fim_network_service s)) Hsites)
    as (t & Hc & H3).
  rewrite Hc. cbn [bind].
  assert (Hnames : consistent s -> NoDup (map if_name (held s)) ->
                   List.remove string_dec (if_name i)
                     (fim_interface_list (fim_network_service s))
                   = map if_name rest
                   /\ List.remove string_dec (if_name i) (map if_name rest)
                      = map if_name rest).
  { intros Hcons Hnd. unfold consistent in Hcons. rewrite <- Hcons.
    pose proof (remove_names i (held s) Hnd) as Hr. fold rest in Hr.
    split; [exact Hr|]. apply notin_remove. rewrite <- Hr. apply remove_In. }
  assert (Hfinal : forall s4,
             get_type s4 = t -> get_layer s4 = Some L2 ->
             self_interfaces s4 = Some rest ->
             (consistent s -> NoDup (map if_name (held s)) ->
              List.remove string_dec (if_name i)
                (fim_interface_list (fim_network_service s4))
              = map if_name rest) ->
             let s1 := with_fim s4 (disconnect_interface
                                      (fim_network_service s4) (if_name i)) in
             __calculate_l2_nstype rest (fim_ero (fim_network_service s))
             = Ok (Some (get_type s1))
             /\ self_interfaces s1 = Some rest
             /\ get_layer s1 = Some L2
             /\ ~ In (if_name i) (fim_interface_list (fim_network_service s1))
             /\ (consistent s -> NoDup (map if_name (held s)) ->
                 fim_interface_list (fim_network_service s1) = map if_name rest
                 /\ held s1 = rest /\ consistent s1)).
  { intros s4 Ht4 Hl4 Hc4 Hn4 s1.
    assert (Hlist : consistent s -> NoDup (map if_name (held s)) ->
                    fim_interface_list (fim_network_service s1)
                    = map if_name rest) by exact Hn4.
    split; [unfold s1, get_type; cbn; fold (get_type s4); now rewrite Ht4|].
    split; [exact Hc4|]. split; [exact Hl4|].
    split; [cbn; apply remove_In|].
    intros Hcons Hnd. specialize (Hlist Hcons Hnd).
    assert (Hh : held s1 = rest).
    { destruct rest as [|x r] eqn:Er.
      - unfold held, get_interfaces.
        replace (self_interfaces s1) with (Some (@nil Interface)) by
          (symmetry; exact Hc4).
        rewrite Hlist. reflexivity.
      - apply held_cached; [discriminate|exact Hc4]. }
    split; [exact Hlist|]. split; [exact Hh|].
    unfold consistent. now rewrite Hh, Hlist. }
  rewrite Hc in Hfinal.
  destruct (nstype_neqb (get_type s) (Some t)) eqn:En.
  - (* the type changes *)
    destruct rest as [|x r] eqn:Er.
    { exfalso. pose proof (without_nil_sites i (held s) Er) as Hs1.
      rewrite (calculate_small _ _ Hs1) in Htype.
      injection Htype as Htype. cbn in Hc. injection Hc as <-.
      rewrite <- Htype in En. discriminate En. }
    destruct (replace_network_service_spec s3 t x r eq_refl)
      as (s4 & Hr & Ht4 & _ & Hl4 & Hi4 & Hc4 & _).
    rewrite Hr. cbn [bind]. eexists. split; [reflexivity|].
    refine (Hfinal s4 Ht4 _ Hc4 _).
    + rewrite Hl4. destruct H3 as [-> | [-> | ->]]; reflexivity.
    + intros Hcons Hnd. rewrite Hi4. apply (Hnames Hcons Hnd).
  - cbn [bind]. apply nstype_neqb_false in En.
    eexists. split; [reflexivity|].
    refine (Hfinal s3 _ Hl3 eq_refl _).
    + congruence.
    + intros Hcons Hnd. rewrite Hi3. apply (Hnames Hcons Hnd).
Qed.

(** X19: on an L2 service whose type is the one the resolver gives for the
    interfaces held, [remove_interface] returns; the type is then the one
    the resolver gives for the interfaces left, the interface is detached,
    and a facade that agreed with the FIM object on interfaces of distinct
    names still does. *)
Theorem remove_interface_l2 (api : text_api) (s : NetworkService)
    (i : Interface) :
  subnet_entry_ok s -> get_layer s = Some L2 ->
  __calculate_l2_nstype (held s) (fim_ero (fim_network_service s))
  = Ok (Some (get_type s)) ->
  exists s1,
    remove_interface api s i = Ok s1
    /\ __calculate_l2_nstype (without i (held s))
         (fim_ero (fim_network_service s)) = Ok (Some (get_type s1))
    /\ self_interfaces s1 = Some (without i (held s))
    /\ get_layer s1 = Some L2
    /\ ~ In (if_name i) (fim_interface_list (fim_network_service s1))
    /\ (consistent s -> NoDup (map if_name (held s)) ->
        fim_interface_list (fim_network_service s1)
        = map if_name (without i (held s))
        /\ held s1 = without i (held s)
        /\ consistent s1).
Proof.
  intros Hentry Hl Htype.
  destruct (free_ip_succeeds api s (if_ip_addr i) Hentry) as (s' & Hfree).
  exact (remove_interface_l2_spec api s s' i Hfree Hl Htype).
Qed.

Lemma ptp_service_entry_ok : subnet_entry_ok ptp_service.
Proof. eexists. eexists. vm_compute. reflexivity. Defined.

Lemma remove_interface_l2_witness :
  get_type ptp_service = L2PTP
  /\ exists s1,
       remove_interface Dotted.api ptp_service if_f = Ok s1
       /\ get_type s1 = L2Bridge
       /\ fim_interface_list (fim_network_service s1) = ["a"].
Proof.
  split; [reflexivity|].
  destruct (remove_interface_l2 Dotted.api ptp_service if_f
              ptp_service_entry_ok)
    as (s1 & Hr & Hc & _ & _ & _ & Hcons).
  - reflexivity.
  - reflexivity.
  - exists s1. split; [exact Hr|]. split.
    + vm_compute in Hc. now injection Hc.
    + destruct Hcons as (Hl & _).
      * reflexivity.
      * vm_compute. repeat constructor; simpl; intuition discriminate.
      * exact Hl.
Defined.

Lemma without_fresh (i i1 : Interface) (l : list Interface) :
  if_name i1 = if_name i -> NoDup (map if_name (l ++ [i])) ->
  without i1 (l ++ [i]) = l.
Proof.
  intros Hn Hnd. unfold without.
  replace (existsb (same_interface i1) (l ++ [i])) with true.
  2:{ symmetry. apply existsb_exists. exists i. split.
      - apply in_or_app. right. now left.
      - unfold same_interface. rewrite Hn. apply String.eqb_refl. }
  induction l as [|x r IH]; cbn.
  - unfold same_interface. rewrite Hn, String.eqb_refl. reflexivity.
  - cbn in Hnd. inversion Hnd as [|? ? Hx Hr]; subst.
    replace (same_interface i1 x) with false.
    + f_equal. now apply IH.
    + symmetry. unfold same_interface. rewrite Hn. apply String.eqb_neq.
      intros E. apply Hx. rewrite map_app. apply in_or_app. right.
      rewrite <- E. now left.
Qed.

(** X20: on an L2 service without an explicit route, of the type the
    resolver gives and in agreement with the FIM object, [remove_interface]
    of an interface of a new name that [add_interface] has just added
    returns, and gives back the type, the attached interfaces and the
    interfaces held. *)
Theorem remove_interface_undoes_add_interface (api : text_api)
    (s s1 : NetworkService) (i i1 : Interface) :
  get_layer s = Some L2 ->
  fim_ero (fim_network_service s) = false ->
  __calculate_l2_nstype (held s) false = Ok (Some (get_type s)) ->
  consistent s -> NoDup (map if_name (held s ++ [i])) ->
  subnet_entry_ok s ->
  add_interface api s i = Ok (s1, i1) ->
  exists s2,
    remove_interface api s1 i1 = Ok s2
    /\ get_type s2 = get_type s
    /\ fim_interface_list (fim_network_service s2)
       = fim_interface_list (fim_network_service s)
    /\ held s2 = held s
    /\ consistent s2.
Proof.
  intros Hl Hero Htype Hcons Hnd Hentry Hadd.
  assert (Ht : get_type s <> PortMirror).
  { destruct (resolved_l2_type _ _ _ Htype) as (t & Ht & H3).
    injection Ht as ->. destruct H3 as [-> | [-> | ->]]; discriminate. }
  destruct (add_interface_l2_result api s s1 i i1 Hl Ht Hadd)
    as (Hc1 & Hh1 & Hi1 & Hl1 & Hn1 & He1 & Hent1).
  rewrite Hero in Hc1, He1.
  assert (Hero1 : fim_ero (fim_network_service s1) = false)
    by (rewrite He1; now destruct (ServiceType_eqb _ _)).
  assert (Hcons1 : consistent s1).
  { unfold consistent. rewrite Hh1, Hi1.
    destruct (ServiceType_eqb _ _); [|reflexivity].
    now rewrite map_app, Hcons. }
  destruct (free_ip_succeeds api s1 (if_ip_addr i1) (Hent1 Hentry))
    as (s' & Hfree).
  destruct (remove_interface_l2_spec api s1 s' i1 Hfree Hl1)
    as (s2 & Hrem & Hc2 & _ & _ & _ & Hrest).
  { now rewrite Hero1, Hh1. }
  rewrite Hh1 in Hrest, Hc2.
  rewrite (without_fresh i i1 (held s) Hn1 Hnd) in Hrest, Hc2.
  destruct (Hrest Hcons1 Hnd) as (Hlist & Hheld & Hcons2).
  exists s2. split; [exact Hrem|]. rewrite Hero1 in Hc2.
  split; [congruence|]. split; [now rewrite Hlist, Hcons|].
  split; assumption.
Qed.

Lemma bridge_service_entry_ok : subnet_entry_ok bridge_service.
Proof. eexists. eexists. vm_compute. reflexivity. Defined.

Lemma remove_interface_undoes_add_interface_witness :
  exists s1 c1 s2,
    add_interface Dotted.api bridge_service if_c = Ok (s1, c1)
    /\ fim_interface_list (fim_network_service s1) = ["a"; "c"]
    /\ remove_interface Dotted.api s1 c1 = Ok s2
    /\ get_type s2 = get_type bridge_service
    /\ fim_interface_list (fim_network_service s2) = ["a"].
Proof.
  destruct (add_interface Dotted.api bridge_service if_c) as [[s1 c1]|e]
    eqn:E; [|vm_compute in E; discriminate E].
  assert (Hl : fim_interface_list (fim_network_service s1) = ["a"; "c"]).
  { vm_compute in E. injection E as <- _. reflexivity. }
  destruct (remove_interface_undoes_add_interface Dotted.api bridge_service
              s1 if_c c1)
    as (s2 & Hr & Ht & Hlist & _); try reflexivity.
  - vm_compute. repeat constructor; simpl; intuition discriminate.
  - exact bridge_service_entry_ok.
  - exact E.
  - exists s1, c1, s2. repeat split; assumption.
Defined.

Lemma placeholder_truthy (name suffix : string) :
  suffix <> "" -> negb (String.eqb (name ++ suffix) "") = true.
Proof.
  intros H. destruct name; cbn.
  - destruct suffix; [contradiction|reflexivity].
  - reflexivity.
Qed.

Lemma readers_user_data (api : text_api) (s s1 : NetworkService) :
  get_user_data s1 = get_user_data s ->
  is_instantiated s1 = is_instantiated s
  /\ (forall k, subnet_field s1 k = subnet_field s k)
  /\ (no_allocated_list s -> no_allocated_list s1)
  /\ get_allocated_ips api s1 = get_allocated_ips api s.
Proof.
  intros H.
  assert (Hfd : get_fablib_data s1 = get_fablib_data s)
    by (unfold get_fablib_data; now rewrite H).
  unfold is_instantiated, subnet_field, no_allocated_list, subnet_field,
    get_allocated_ips.
  rewrite Hfd. split; [reflexivity|]. split; [reflexivity|].
  split; [tauto|reflexivity].
Qed.

(** X21: on an L2 service that is not instantiated and holds no allocated
    list, the placeholder subnet counts as a subnet: [add_interface] of an
    interface that asks for an address raises [KeyError], and an interface
    that asks for an automatic one gets the text of [None] for its
    address. *)
Theorem add_interface_before_set_subnet (api : text_api)
    (s : NetworkService) (i : Interface) :
  get_layer s = Some L2 -> get_type s <> PortMirror ->
  distinct_sites (held s ++ [i]) <= 2 ->
  is_instantiated s = Ok false -> no_allocated_list s ->
  (forall v, PyDict.get "addr" (if_fablib_data i) = Some v ->
             truthy v = true ->
             add_interface api s i = Raise (KeyError "allocated_ips"))
  /\ (forall w, PyDict.get "addr" (if_fablib_data i) = None ->
                PyDict.get "auto" (if_fablib_data i) = Some w ->
                truthy w = true ->
                exists s1 i1,
                  add_interface api s i = Ok (s1, i1)
                  /\ PyDict.get "addr" (if_fablib_data i1)
                     = Some (JStr "None")
                  /\ get_allocated_ips api s1 = []).
Proof.
  intros Hl Ht Hd Hinst Hno.
  pose proof (add_interface_retype_l2 s i Hl Ht) as H.
  destruct (calculate_total (held s ++ [i])
              (fim_ero (fim_network_service s)) Hd) as (t & Hc & _).
  rewrite Hc in H.
  destruct H as (s0 & Hr & _ & Hl0 & Hn0 & Hu0 & _).
  destruct (readers_user_data api s s0 Hu0) as (Hi0 & _ & Hno0 & Hal0).
  assert (Hsub : get_subnet api s0 = SubnetName (get_name s0 ++ ".subnet")).
  { unfold get_subnet. now rewrite Hi0, Hinst. }
  assert (Htruthy : subnet_truthy (get_subnet api s0) = true).
  { rewrite Hsub. apply placeholder_truthy. discriminate. }
  unfold add_interface. rewrite Hr. cbn [bind].
  unfold add_interface_addr, assign_address. rewrite Htruthy. split.
  - intros v Hv Htv. rewrite Hv. cbn [py_truthy]. rewrite Htv.
    unfold allocate_ip. cbn [py_truthy py_in negb]. rewrite Htv.
    now rewrite (set_allocated_ip_keyerror api s0 (PyJson v) (Hno0 Hno)).
  - intros w Ha Hw Htw. rewrite Ha, Hw, Htw. cbn [py_truthy].
    unfold allocate_ip. cbn [py_truthy]. rewrite Hsub.
    cbn [bind fst snd py_str]. rewrite Hl0.
    eexists. eexists. split; [reflexivity|]. split.
    + cbn. apply dict_get_set_same.
    + rewrite Hal0. apply get_allocated_ips_none, Hno.
Qed.

Lemma bridge_service_no_allocated_list : no_allocated_list bridge_service.
Proof.
  split; [exact bridge_service_entry_ok|vm_compute; reflexivity].
Defined.

Lemma add_interface_before_set_subnet_witness :
  exists s1 i1,
    add_interface Dotted.api bridge_service if_auto = Ok (s1, i1)
    /\ PyDict.get "addr" (if_fablib_data i1) = Some (JStr "None").
Proof.
  destruct (add_interface_before_set_subnet Dotted.api bridge_service if_auto)
    as (_ & Hauto).
  - reflexivity.
  - discriminate.
  - vm_compute. lia.
  - vm_compute. reflexivity.
  - exact bridge_service_no_allocated_list.
  - destruct (Hauto (JBool true)) as (s1 & i1 & Ha & Hd & _);
      try reflexivity.
    exists s1, i1. split; assumption.
Defined.

Lemma add_interface_addr_l3 (api : text_api) (s s1 : NetworkService)
    (i i1 : Interface) :
  add_interface_addr api s i = Ok (s1, i1) -> get_layer s = Some L3 ->
  get_type s1 = get_type s
  /\ fim_interface_list (fim_network_service s1)
     = (fim_interface_list (fim_network_service s) ++ [if_name i])%list
  /\ self_interfaces s1 = self_interfaces s
  /\ if_name i1 = if_name i.
Proof.
  unfold add_interface_addr. intros H Hl.
  destruct (assign_address api s (if_fablib_data i)) as [p|] eqn:Ea;
    [|discriminate].
  destruct (assign_address_frame api s _ p Ea) as (Ht & Hl1 & Hi & Hc).
  cbn [bind] in H. rewrite Hl1, Hl in H. injection H as <- <-.
  cbn. unfold get_type in *. cbn. rewrite Hi. repeat split; auto.
Qed.

(** X22: [add_interface] on an L3 service raises when the service is
    instantiated and the interface is not at the site of the service; when
    it returns, the type is unchanged and the interface is attached last and
    found by [has_interface]; before instantiation an interface that asks for
    no address is accepted whatever its site. *)
Theorem add_interface_l3 (api : text_api) (s : NetworkService)
    (i : Interface) :
  get_layer s = Some L3 -> get_type s <> PortMirror ->
  (is_instantiated s = Ok true -> sliver_site s <> Some (if_site i) ->
   add_interface api s i = Raise L3OneSite)
  /\ (forall s1 i1,
        add_interface api s i = Ok (s1, i1) ->
        get_type s1 = get_type s
        /\ fim_interface_list (fim_network_service s1)
           = (fim_interface_list (fim_network_service s) ++ [if_name i])%list
        /\ held s1 = (held s ++ [i])%list
        /\ has_interface s1 i = true
        /\ (is_instantiated s = Ok true -> sliver_site s = Some (if_site i)))
  /\ (is_instantiated s = Ok false ->
      PyDict.get "addr" (if_fablib_data i) = None ->
      PyDict.get "auto" (if_fablib_data i) = None ->
      exists s1 i1, add_interface api s i = Ok (s1, i1)).
Proof.
  intros Hl Ht.
  assert (Hretype :
            add_interface_retype s i
            = let s2 := with_interfaces (snd (get_interfaces s))
                          (held s ++ [i]) in
              inst <- is_instantiated s ;;
              if inst then
                match sliver_site s with
                | Some site =>
                    if String.eqb (if_site i) site then Ok s2
                    else Raise L3OneSite
                | None => Raise L3OneSite
                end
              else Ok s2).
  { unfold add_interface_retype, held.
    replace (ServiceType_eqb (get_type s) PortMirror) with false.
    2:{ unfold ServiceType_eqb.
        destruct (ServiceType_eq_dec (get_type s) PortMirror); congruence. }
    pose proof (get_interfaces_frame s) as (Hf & _ & _ & Hsite).
    destruct (get_interfaces s) as [got s0]. cbn [fst snd] in *.
    unfold get_layer, is_instantiated, get_fablib_data, get_user_data in *.
    cbn [with_interfaces fim_network_service sliver_site].
    now rewrite Hf, Hl, Hsite. }
  set (s2 := with_interfaces (snd (get_interfaces s)) (held s ++ [i]))
    in Hretype.
  assert (Hf2 : fim_network_service s2 = fim_network_service s)
    by apply get_interfaces_frame.
  assert (Hl2 : get_layer s2 = Some L3)
    by (unfold get_layer; now rewrite Hf2).
  unfold add_interface. rewrite Hretype. cbv zeta. split; [|split].
  - intros Hi Hsite. rewrite Hi. cbn [bind].
    destruct (sliver_site s) as [site|]; [|reflexivity].
    destruct (String.eqb (if_site i) site) eqn:E; [|reflexivity].
    apply String.eqb_eq in E. congruence.
  - intros s1 i1 Ha.
    assert (Hs2 : add_interface_addr api s2 i = Ok (s1, i1)
                  /\ (is_instantiated s = Ok true ->
                      sliver_site s = Some (if_site i))).
    { destruct (is_instantiated s) as [[|]|]; cbn [bind] in Ha;
        try discriminate.
      - destruct (sliver_site s) as [site|]; [|discriminate].
        destruct (String.eqb (if_site i) site) eqn:E; [|discriminate].
        apply String.eqb_eq in E. split; [exact Ha|]. now rewrite E.
      - split; [exact Ha|discriminate]. }
    destruct Hs2 as [Hs2 Hsite].
    destruct (add_interface_addr_l3 api s2 s1 i i1 Hs2 Hl2)
      as (Ht1 & Hi1 & Hc1 & Hn1).
    assert (Hne : (held s ++ [i])%list <> []).
    { intros E. apply app_eq_nil in E. destruct E as [_ E]. discriminate. }
    split; [rewrite Ht1; unfold get_type; now rewrite Hf2|].
    split; [rewrite Hi1; now rewrite Hf2|].
    split; [apply held_cached; [exact Hne|now rewrite Hc1]|].
    split; [|exact Hsite].
    apply has_interface_attached. rewrite Hi1.
    apply in_or_app. right. now left.
  - intros Hi Ha Hb. rewrite Hi. cbn [bind].
    unfold add_interface_addr, assign_address. rewrite Ha, Hb.
    cbn [py_truthy]. destruct (subnet_truthy _); cbn [bind fst snd];
      rewrite Hl2; eauto.
Qed.

Lemma add_interface_l3_witness :
  exists s1 a1,
    add_interface Dotted.api l3_service if_a = Ok (s1, a1)
    /\ fim_interface_list (fim_network_service s1) = ["a"]
    /\ has_interface s1 if_a = true.
Proof.
  destruct (add_interface_l3 Dotted.api l3_service if_a) as (_ & Hres & Hok).
  - reflexivity.
  - discriminate.
  - destruct Hok as (s1 & a1 & Ha); try reflexivity.
    destruct (Hres s1 a1 Ha) as (_ & Hl & _ & Hh & _).
    exists s1, a1. repeat split; assumption.
Defined.

(** ** Looking up interfaces and services *)

Lemma prefix_app (s t : string) :
  String.prefix s t = true <-> exists q, t = s ++ q.
Proof.
  revert t. induction s as [|c s IH]; intros t.
  - split; [intros _; now exists t|intros _; now destruct t].
  - destruct t as [|d t]; simpl.
    + split; [discriminate|]. intros [q H]. discriminate.
    + destruct (ascii_dec c d) as [->|Hne].
      * rewrite IH. split; intros [q H]; exists q; [now rewrite H|].
        now injection H.
      * split; [discriminate|]. intros [q H]. injection H as H _. congruence.
Qed.

Lemma is_substring_app (s t : string) :
  is_substring s t = true <-> exists p q, t = p ++ s ++ q.
Proof.
  induction t as [|c t IH].
  - cbn [is_substring]. destruct (String.prefix s "") eqn:E.
    + split; auto. intros _. apply prefix_app in E. destruct E as [q E].
      exists "", q. exact E.
    + split; [discriminate|]. intros (p & q & H).
      destruct p; [|discriminate].
      assert (String.prefix s "" = true) by (apply prefix_app; eauto).
      congruence.
  - cbn [is_substring]. destruct (String.prefix s (String c t)) eqn:E.
    + split; auto. intros _. apply prefix_app in E. destruct E as [q E].
      exists "", q. exact E.
    + rewrite IH. split.
      * intros (p & q & ->). exists (String c p), q. reflexivity.
      * intros (p & q & H). destruct p as [|d p].
        -- assert (String.prefix s (String c t) = true)
             by (apply prefix_app; eauto).
           congruence.
        -- injection H as _ ->. eauto.
Qed.

Lemma endswith_app (s t : string) :
  endswith t s = true <-> exists p, t = p ++ s.
Proof.
  induction t as [|c t IH]; cbn [endswith].
  - destruct (String.eqb "" s) eqn:E.
    + apply String.eqb_eq in E. subst. split; auto. intros _. now exists "".
    + apply String.eqb_neq in E. split; [discriminate|].
      intros [p H]. destruct p; simpl in H; [congruence|discriminate].
  - destruct (String.eqb (String c t) s) eqn:E.
    + apply String.eqb_eq in E. subst. split; auto. intros _. now exists "".
    + apply String.eqb_neq in E. rewrite IH. split.
      * intros [p ->]. now exists (String c p).
      * intros [p H]. destruct p as [|d p]; simpl in H; [congruence|].
        injection H as _ ->. eauto.
Qed.

Lemma find_first (A : Type) (f : A -> bool) (l : list A) :
  match find f l with
  | Some x => exists l1 l2, l = (l1 ++ x :: l2)%list /\ f x = true
                            /\ forall y, In y l1 -> f y = false
  | None => forall y, In y l -> f y = false
  end.
Proof.
  induction l as [|a r IH]; simpl; [tauto|].
  destruct (f a) eqn:E.
  - exists [], r. repeat split; auto. intros y [].
  - destruct (find f r) as [x|].
    + destruct IH as (l1 & l2 & -> & Hx & Hl1).
      exists (a :: l1), l2. repeat split; auto.
      intros y [<-|Hy]; auto.
    + intros y [<-|Hy]; auto.
Qed.

(** X23: [get_interface(name)] matches by substring: what it returns is the
    slice's interface for the first attached name that contains [name]; it
    returns [None] exactly when no attached name contains [name]; for an
    attached name it finds an interface when the slice knows the attached
    names. *)
Theorem get_interface_first_match (s : NetworkService) (name : string) :
  (forall i,
     get_interface s name = Returns (Some i) ->
     In i (slice_interfaces s)
     /\ (exists p q, if_name i = p ++ name ++ q)
     /\ exists l1 l2,
          fim_interface_list (fim_network_service s)
          = (l1 ++ if_name i :: l2)%list
          /\ forall n, In n l1 -> forall p q, n <> p ++ name ++ q)
  /\ (get_interface s name = Returns None
      <-> forall n, In n (fim_interface_list (fim_network_service s)) ->
                    forall p q, n <> p ++ name ++ q)
  /\ (In name (fim_interface_list (fim_network_service s)) ->
      (forall n, In n (fim_interface_list (fim_network_service s)) ->
                 exists j, In j (slice_interfaces s) /\ if_name j = n) ->
      exists i, get_interface s name = Returns (Some i)).
Proof.
  unfold get_interface.
  pose proof (find_first _ (is_substring name)
                (fim_interface_list (fim_network_service s))) as Hf.
  assert (Hno : forall n, is_substring name n = false ->
                          forall p q, n <> p ++ name ++ q).
  { intros n Hn p q E.
    assert (is_substring name n = true) by (apply is_substring_app; eauto).
    congruence. }
  destruct (find _ _) as [n|].
  - destruct Hf as (l1 & l2 & Hl & Hn & Hl1).
    unfold slice_get_interface.
    destruct (find _ (slice_interfaces s)) as [j|] eqn:Ej.
    + apply find_some in Ej. destruct Ej as [Hj Hname].
      apply String.eqb_eq in Hname. split; [|split].
      * intros i H. injection H as <-. split; [exact Hj|].
        rewrite Hname. split; [now apply is_substring_app|].
        exists l1, l2. split; [exact Hl|]. intros m Hm. apply Hno. auto.
      * split; [discriminate|]. intros H. exfalso.
        apply is_substring_app in Hn. destruct Hn as (p & q & Hn).
        apply (H n) with (p := p) (q := q); auto.
        rewrite Hl. apply in_or_app. right. now left.
      * intros _ _. eauto.
    + split; [|split].
      * discriminate.
      * split; [discriminate|]. intros H. exfalso.
        apply is_substring_app in Hn. destruct Hn as (p & q & Hn).
        apply (H n) with (p := p) (q := q); auto.
        rewrite Hl. apply in_or_app. right. now left.
      * intros _ Hknown. exfalso.
        destruct (Hknown n) as (j & Hj & Hjn).
        { rewrite Hl. apply in_or_app. right. now left. }
        apply (find_none _ _ Ej) in Hj. apply String.eqb_neq in Hj. auto.
  - split; [|split].
    + discriminate.
    + split; [|reflexivity]. intros _ n Hn. apply Hno. auto.
    + intros Hin _. exfalso. specialize (Hf name Hin).
      assert (is_substring name name = true).
      { apply is_substring_app. exists "", "". cbn.
        clear. induction name; cbn; congruence. }
      congruence.
Qed.

(** X24: [has_interface] matches by suffix: it is true exactly when an
    attached name ends with the name of the interface; after
    [remove_interface] it can only be true through a longer attached name. *)
Theorem has_interface_suffix (api : text_api) (s : NetworkService)
    (i : Interface) :
  (has_interface s i = true
   <-> exists n p, In n (fim_interface_list (fim_network_service s))
                   /\ n = p ++ if_name i)
  /\ (forall s1,
        remove_interface api s i = Ok s1 ->
        has_interface s1 i = true ->
        exists n p, In n (fim_interface_list (fim_network_service s1))
                    /\ n = p ++ if_name i /\ p <> "").
Proof.
  assert (H : forall s0, has_interface s0 i = true
              <-> exists n p, In n (fim_interface_list (fim_network_service s0))
                              /\ n = p ++ if_name i).
  { intros s0. unfold has_interface. rewrite existsb_exists. split.
    - intros (n & Hn & He). apply endswith_app in He. destruct He as [p He].
      eauto.
    - intros (n & p & Hn & He). exists n. split; auto.
      apply endswith_app. eauto. }
  split; [apply H|].
  intros s1 Hr Hh. apply H in Hh. destruct Hh as (n & p & Hn & He).
  exists n, p. repeat split; auto. intros ->. cbn in He. subst n.
  now apply (remove_interface_detaches api s s1 i Hr).
Qed.

Lemma services_of_types_In (types : list string)
    (ns : PyDict.t FimNetworkService) (f : FimNetworkService) :
  In f (services_of_types types ns)
  <-> In f (map snd ns) /\ In (type_name (fim_type f)) types.
Proof.
  unfold services_of_types. rewrite !in_map_iff. split.
  - intros (kv & <- & H). apply filter_In in H. destruct H as [Hin He].
    split; [eauto|]. apply existsb_exists in He. destruct He as (x & Hx & E).
    apply String.eqb_eq in E. now rewrite E.
  - intros [(kv & <- & Hin) Ht]. exists kv. split; auto.
    apply filter_In. split; auto. apply existsb_exists.
    eexists. split; [exact Ht|]. apply String.eqb_refl.
Qed.

Lemma service_named_spec (name : string) (l : list FimNetworkService) :
  (forall f, service_named name l = Returns f -> In f l /\ fim_name f = name)
  /\ ((exists f, In f l /\ fim_name f = name)
      <-> exists f, service_named name l = Returns f)
  /\ (service_named name l = Throws (NetworkNotFound name)
      <-> forall f, In f l -> fim_name f <> name).
Proof.
  unfold service_named.
  destruct (find _ l) as [f|] eqn:E.
  - apply find_some in E. destruct E as [Hin Hn]. apply String.eqb_eq in Hn.
    split; [|split].
    + intros f0 H. injection H as <-. auto.
    + split; eauto.
    + split; [discriminate|]. intros H. now destruct (H f Hin).
  - split; [|split].
    + discriminate.
    + split; [|intros [f H]; discriminate].
      intros (f & Hin & Hn). apply (find_none _ _ E) in Hin.
      apply String.eqb_neq in Hin. contradiction.
    + split; auto. intros _ f Hin.
      apply (find_none _ _ E) in Hin. now apply String.eqb_neq.
Qed.

Lemma type_name_l2 (t : ServiceType) :
  In (type_name t) fim_l2network_service_types
  <-> t = L2Bridge \/ t = L2PTP \/ t = L2STS.
Proof.
  destruct t; cbn; split; intros H; try discriminate;
    intuition (try discriminate; try congruence).
Qed.

Lemma type_name_l3 (t : ServiceType) :
  In (type_name t) fim_l3network_service_types
  <-> layer_of t = Some L3.
Proof.
  destruct t; cbn; split; intros H; try discriminate;
    intuition (try discriminate; try congruence).
Qed.

Lemma type_name_known (t : ServiceType) :
  In (type_name t) get_fim_network_service_types.
Proof. destruct t; cbn; intuition congruence. Qed.

(** X25: [get_l2network_service] returns a service of that name of type
    L2Bridge, L2PTP or L2STS, [get_l3network_service] one of an L3 type;
    [get_network_service] finds a service exactly when the topology has one
    of that name; a name borne by PortMirror services only is not found by
    the L2 and the L3 lookup. *)
Theorem network_service_lookup (ns : PyDict.t FimNetworkService)
    (name : string) :
  (forall f, get_l2network_service ns name = Returns f ->
             In f (map snd ns) /\ fim_name f = name
             /\ (fim_type f = L2Bridge \/ fim_type f = L2PTP
                 \/ fim_type f = L2STS))
  /\ (forall f, get_l3network_service ns name = Returns f ->
                In f (map snd ns) /\ fim_name f = name
                /\ layer_of (fim_type f) = Some L3)
  /\ ((exists f, In f (map snd ns) /\ fim_name f = name)
      <-> exists f, get_network_service ns name = Returns f)
  /\ ((forall f, In f (map snd ns) -> fim_name f = name ->
                 fim_type f = PortMirror) ->
      get_l2network_service ns name = Throws (NetworkNotFound name)
      /\ get_l3network_service ns name = Throws (NetworkNotFound name)).
Proof.
  unfold get_l2network_service, get_l3network_service, get_network_service,
    get_l2network_services, get_l3network_services, get_network_services.
  split; [|split; [|split]].
  - intros f H. apply service_named_spec in H. destruct H as [Hin Hn].
    apply services_of_types_In in Hin. destruct Hin as [Hin Ht].
    apply type_name_l2 in Ht. auto.
  - intros f H. apply service_named_spec in H. destruct H as [Hin Hn].
    apply services_of_types_In in Hin. destruct Hin as [Hin Ht].
    apply type_name_l3 in Ht. auto.
  - destruct (service_named_spec name
                (services_of_types get_fim_network_service_types ns))
      as (_ & <- & _).
    split; intros (f & Hin & Hn); exists f; split; auto.
    + apply services_of_types_In. split; auto. apply type_name_known.
    + now apply services_of_types_In in Hin.
  - intros Hm. split; apply service_named_spec; intros f Hin Hn;
      apply services_of_types_In in Hin; destruct Hin as [Hin Ht];
      specialize (Hm f Hin Hn); rewrite Hm in Ht; cbn in Ht;
      repeat (destruct Ht as [Ht|Ht]; try discriminate); contradiction.
Qed.

(** ** L3 services, PortMirror services and explicit routes *)

(** X26: [new_l3network] accepts the names IPv4, IPv6, IPv4Ext, IPv6Ext and
    L3VPN and nothing else, so that the FIM names FABNetv4 ... are refused;
    it validates no interface, and the service it returns has the type of
    the name, the layer L3, the interfaces attached by name, and is not
    instantiated. *)
Theorem new_l3network_spec (api : text_api) (slice : list Interface)
    (name : string) (interfaces : list Interface) (type : option string)
    (user_data : PyDict.t json) :
  match type with
  | Some t =>
      match PyDict.get t l3_type_names with
      | Some ty =>
          exists svc,
            new_l3network slice name interfaces type user_data = Returns svc
            /\ get_type svc = ty /\ get_layer svc = Some L3
            /\ get_name svc = name
            /\ fim_interface_list (fim_network_service svc)
               = map if_name interfaces
            /\ is_instantiated svc = Ok false
            /\ get_subnet api svc = SubnetName (name ++ ".subnet")
            /\ get_allocated_ips api svc = []
      | None =>
          new_l3network slice name interfaces type user_data
          = Throws InvalidL3Type
      end
  | None =>
      new_l3network slice name interfaces type user_data
      = Throws InvalidL3Type
  end
  /\ (forall t, In t fim_l3network_service_types -> t <> "L3VPN" ->
                new_l3network slice name interfaces (Some t) user_data
                = Throws InvalidL3Type).
Proof.
  split.
  - destruct type as [t|]; [|reflexivity].
    unfold new_l3network, l3_type_names. cbn [PyDict.get].
    assert (H : forall ty, layer_of ty = Some L3 ->
                exists svc,
                  Returns (__new_network_service slice name ty interfaces
                             user_data) = Returns svc
                  /\ get_type svc = ty /\ get_layer svc = Some L3
                  /\ get_name svc = name
                  /\ fim_interface_list (fim_network_service svc)
                     = map if_name interfaces
                  /\ is_instantiated svc = Ok false
                  /\ get_subnet api svc = SubnetName (name ++ ".subnet")
                  /\ get_allocated_ips api svc = []).
    { intros ty Hty.
      destruct (new_network_service_facts api slice name ty interfaces
                  user_data) as (Hn & Ht & Hl & Hi & _ & Hinst & Hs & Ha & _).
      eexists. split; [reflexivity|]. rewrite Hl. repeat split; auto. }
    destruct (String.eqb t "IPv6"); [now apply H|].
    destruct (String.eqb t "IPv4"); [now apply H|].
    destruct (String.eqb t "IPv4Ext"); [now apply H|].
    destruct (String.eqb t "IPv6Ext"); [now apply H|].
    destruct (String.eqb t "L3VPN"); [now apply H|reflexivity].
  - intros t Ht Hne. cbn in Ht.
    destruct Ht as [<-|[<-|[<-|[<-|[<-|[]]]]]]; try reflexivity.
    contradiction.
Qed.

Lemma lower_idempotent (s : string) : lower (lower s) = lower s.
Proof.
  induction s as [|c r IH]; cbn; [reflexivity|]. rewrite IH. f_equal.
  unfold lower_ascii.
  destruct ((65 <=? nat_of_ascii c) && (nat_of_ascii c <=? 90)) eqn:E.
  - apply andb_true_iff in E. destruct E as [E1 E2].
    apply Nat.leb_le in E1. apply Nat.leb_le in E2.
    rewrite nat_ascii_embedding by lia.
    replace (nat_of_ascii c + 32 <=? 90) with false
      by (symmetry; apply Nat.leb_gt; lia).
    now rewrite andb_false_r.
  - now rewrite E.
Qed.

(** X27: [new_portmirror_service] reads the direction without regard to
    case: rx, tx and both give a PortMirror service with the receiving
    interface attached, not instantiated, to which [add_interface] attaches
    nothing; any other direction is refused. *)
Theorem new_portmirror_service_spec (api : text_api)
    (slice : list Interface) (name mirror : string) (r : Interface)
    (d : string) :
  let created dir :=
    exists svc,
      new_portmirror_service slice name (Some mirror) (Some r) (Some d)
      = Returns (svc, dir)
      /\ get_type svc = PortMirror
      /\ fim_interface_list (fim_network_service svc) = [if_name r]
      /\ is_instantiated svc = Ok false
      /\ forall i, add_interface api svc i = Raise PortMirrorAttach in
  (lower d = "rx" -> created RX_Only)
  /\ (lower d = "tx" -> created TX_Only)
  /\ (lower d = "both" -> created Both)
  /\ (lower d <> "rx" -> lower d <> "tx" -> lower d <> "both" ->
      new_portmirror_service slice name (Some mirror) (Some r) (Some d)
      = Throws (UnknownMirrorDirection d))
  /\ new_portmirror_service slice name (Some mirror) (Some r) (Some (lower d))
     = match new_portmirror_service slice name (Some mirror) (Some r)
               (Some d) with
       | Throws (UnknownMirrorDirection _) =>
           Throws (UnknownMirrorDirection (lower d))
       | o => o
       end.
Proof.
  intros created.
  assert (Hc : forall dir,
             created dir
             <-> new_portmirror_service slice name (Some mirror) (Some r)
                   (Some d)
                 = Returns
                     (init_fablib_data
                        {| fim_network_service :=
                             add_network_service name PortMirror [if_name r];
                           self_interfaces := None;
                           slice_interfaces := slice;
                           sliver_subnet := None; sliver_site := None |},
                      dir)).
  { intros dir. unfold created. split.
    - intros (svc & H & _). rewrite H. revert H.
      unfold new_portmirror_service.
      destruct (String.eqb (lower d) "rx");
        [intros H; injection H as <- <-; reflexivity|].
      destruct (String.eqb (lower d) "tx");
        [intros H; injection H as <- <-; reflexivity|].
      destruct (String.eqb (lower d) "both");
        [intros H; injection H as <- <-; reflexivity|discriminate].
    - intros H. eexists. split; [exact H|].
      split; [reflexivity|]. split; [reflexivity|].
      split.
      + erewrite is_instantiated_of_dict by apply get_fablib_data_set.
        reflexivity.
      + intros i. now apply add_interface_portmirror_raises. }
  split; [|split; [|split; [|split]]].
  - intros E. apply Hc. unfold new_portmirror_service. now rewrite E.
  - intros E. apply Hc. unfold new_portmirror_service. now rewrite E.
  - intros E. apply Hc. unfold new_portmirror_service. now rewrite E.
  - intros E1 E2 E3. unfold new_portmirror_service.
    apply String.eqb_neq in E1, E2, E3. now rewrite E1, E2, E3.
  - unfold new_portmirror_service. rewrite lower_idempotent.
    destruct (String.eqb (lower d) "rx"); [reflexivity|].
    destruct (String.eqb (lower d) "tx"); [reflexivity|].
    destruct (String.eqb (lower d) "both"); reflexivity.
Qed.

(** X28: [set_l2_route_hops] with no hop changes nothing; with hops it
    raises unless the service is an L2STS or L2PTP service holding two
    interfaces, and, the path being valid, returns a service with the
    explicit route set whose type is L2PTP when the two interfaces lie at
    two sites and none is a NIC_Basic, L2STS with a NIC_Basic, and L2Bridge
    when they lie at one site; the attached interfaces and the user data
    stay. *)
Theorem set_l2_route_hops_spec
    (valid_path : string -> string -> list string -> bool)
    (s : NetworkService) (hops : list string) :
  set_l2_route_hops valid_path s [] = Returns s
  /\ (hops <> [] ->
      (forall s1,
         set_l2_route_hops valid_path s hops = Returns s1 ->
         exists i0 i1,
           held s = [i0; i1]
           /\ (get_type s = L2STS \/ get_type s = L2PTP)
           /\ valid_path (if_site i0) (if_site i1) hops = true
           /\ get_type s1
              = (if String.eqb (if_site i0) (if_site i1) then L2Bridge
                 else if basic_count [i0; i1] =? 0 then L2PTP else L2STS)
           /\ fim_ero (fim_network_service s1) = true
           /\ fim_interface_list (fim_network_service s1)
              = fim_interface_list (fim_network_service s)
           /\ get_user_data s1 = get_user_data s)
      /\ (forall i0 i1,
            held s = [i0; i1] ->
            get_type s = L2STS \/ get_type s = L2PTP ->
            valid_path (if_site i0) (if_site i1) hops = true ->
            exists s1, set_l2_route_hops valid_path s hops = Returns s1)
      /\ (List.length (held s) <> 2
          \/ (get_type s <> L2STS /\ get_type s <> L2PTP) ->
          set_l2_route_hops valid_path s hops = Throws NotPointToPoint)).
Proof.
  split; [reflexivity|]. intros Hne.
  destruct hops as [|h hs]; [contradiction|]. clear Hne.
  unfold set_l2_route_hops, held.
  pose proof (get_interfaces_frame s) as (Hf & _).
  destruct (get_interfaces s) as [l s0]. cbn [fst snd] in *.
  assert (Ht0 : get_type s0 = get_type s)
    by (unfold get_type; now rewrite Hf).
  rewrite Ht0.
  assert (Hcalc : forall i0 i1,
             __calculate_l2_nstype [i0; i1] true
             = Ok (Some (if String.eqb (if_site i0) (if_site i1) then L2Bridge
                         else if basic_count [i0; i1] =? 0 then L2PTP
                              else L2STS))).
  { intros i0 i1. rewrite calculate_l2_nstype_spec.
    generalize (basic_count [i0; i1]) (facility_count [i0; i1]).
    intros nb nf.
    unfold distinct_sites. cbn [map nodup In].
    destruct (String.eqb (if_site i0) (if_site i1)) eqn:E.
    - apply String.eqb_eq in E.
      destruct (in_dec string_dec (if_site i0) [if_site i1]) as [Hin|Hin];
        [reflexivity|].
      exfalso. apply Hin. now left.
    - apply String.eqb_neq in E.
      destruct (in_dec string_dec (if_site i0) [if_site i1]) as [Hin|Hin].
      + destruct Hin as [Hin|[]]. congruence.
      + cbn. rewrite orb_true_r. cbn [andb].
        destruct (nb =? 0); reflexivity. }
  assert (Htype : negb (ServiceType_eqb (get_type s) L2STS
                        || ServiceType_eqb (get_type s) L2PTP) = false
                  <-> get_type s = L2STS \/ get_type s = L2PTP).
  { unfold ServiceType_eqb.
    destruct (ServiceType_eq_dec (get_type s) L2STS) as [->|H1]; cbn;
      [tauto|].
    destruct (ServiceType_eq_dec (get_type s) L2PTP) as [->|H2]; cbn;
      [tauto|].
    split; [discriminate|]. intros [H|H]; contradiction. }
  split; [|split].
  - intros s1 H. destruct l as [|i0 [|i1 [|i2 r]]]; try discriminate.
    destruct (negb (ServiceType_eqb (get_type s) L2STS
                    || ServiceType_eqb (get_type s) L2PTP)) eqn:Et;
      [discriminate|].
    destruct (valid_path (if_site i0) (if_site i1) (h :: hs)) eqn:Ev;
      cbn [negb] in H; [|discriminate].
    rewrite Hcalc in H. injection H as <-.
    exists i0, i1. split; [reflexivity|]. split; [now apply Htype|].
    split; [exact Ev|]. split; [reflexivity|]. split; [reflexivity|].
    cbn. unfold get_user_data. cbn. now rewrite Hf.
  - intros i0 i1 -> Hty Hv. apply Htype in Hty. rewrite Hty, Hv, Hcalc.
    cbn [negb]. eauto.
  - intros [Hlen|[H1 H2]].
    + destruct l as [|i0 [|i1 [|i2 r]]]; try reflexivity.
      now destruct Hlen.
    + destruct l as [|i0 [|i1 [|i2 r]]]; try reflexivity.
      destruct (negb (ServiceType_eqb (get_type s) L2STS
                      || ServiceType_eqb (get_type s) L2PTP)) eqn:Et;
        [reflexivity|].
      assert (Hx : get_type s = L2STS \/ get_type s = L2PTP)
        by (apply Htype; reflexivity).
      destruct Hx; contradiction.
Qed.
